(** * StatQuant: image_classification/training.py

    A shallow embedding of the training driver: optimizer construction,
    learning-rate policies, the train and validation steps, the two epoch
    loops and [train_loop], followed by the properties of the design
    document that concern them.

    Conventions of the embedding.
    - Python [int] is [Z]; Python [float] (and a 0-dim tensor read through
      [.item()] or [.data]) is idealised as a real number [R].
    - A Python exception is an [outcome] [Raise]; the mutable objects the
      functions share (the optimizer, whose parameter groups alias the
      model's parameters; the metric logger; the clock) live in a [World]
      that is threaded through a state-and-exception monad.  The state
      reached when an exception propagates is kept, as in Python.
    - Calls on collaborators whose code is outside this file (torch, utils,
      the logger) are functions of the classes [Torch] and [Collaborators]
      and are recorded, in order, in the world. Console output ([print]) is
      not modelled. *)

From Stdlib Require Import ZArith List String Ascii Bool Lia Reals Lra.
From Stdlib Require Import DecimalString DecimalZ Permutation.
Import ListNotations.
Local Open Scope Z_scope.

(* ================================================================= *)
(** * Part I: definitions *)
(* ================================================================= *)

(** ** Python values *)

Inductive exn : Type :=
| ZeroDivisionError
| AttributeError.

Inductive outcome (A : Type) : Type :=
| Ok (a : A)
| Raise (e : exn).
Arguments Ok {A} a.
Arguments Raise {A} e.

(** [x / d] with a float numerator and an int denominator. *)
Definition truediv (x : R) (d : Z) : outcome R :=
  if d =? 0 then Raise ZeroDivisionError else Ok (x / IZR d)%R.

(** [n / t] with an int numerator and a float denominator. *)
Definition truediv_float (n : Z) (t : R) : outcome R :=
  if Req_dec_T t 0 then Raise ZeroDivisionError else Ok (IZR n / t)%R.

(** [a % b] on ints: the result takes the sign of the divisor, as [Z.modulo]. *)
Definition py_mod (a b : Z) : outcome Z :=
  if b =? 0 then Raise ZeroDivisionError else Ok (a mod b).

(** [x > y] and [max(x, y)] on numbers. *)
Definition py_gt (x y : R) : bool := if Rlt_dec y x then true else false.
Definition py_max (x y : R) : R := if py_gt y x then y else x.

(** [range(a, b)]. *)
Definition py_range (a b : Z) : list Z :=
  map (fun k => a + Z.of_nat k) (seq 0 (Z.to_nat (b - a))).

(** [enumerate(l)], counting from [i]. *)
Fixpoint enumerate_from {A : Type} (i : Z) (l : list A) : list (Z * A) :=
  match l with
  | [] => []
  | x :: l' => (i, x) :: enumerate_from (i + 1) l'
  end.
Definition enumerate {A : Type} (l : list A) : list (Z * A) := enumerate_from 0 l.

(** [sub in s] on strings. *)
Fixpoint py_in (sub s : string) : bool :=
  if String.prefix sub s then true
  else match s with
       | EmptyString => false
       | String _ s' => py_in sub s'
       end.

(** ['{}'.format(n)] for an int. *)
Definition format_int (n : Z) : string := NilZero.string_of_int (Z.to_int n).

(** ** numpy *)

Definition np_log2 (x : R) : R := (ln x / ln 2)%R.
Definition np_power (b x : R) : R := Rpower b x.
Definition np_cos (x : R) : R := cos x.
Definition np_pi : R := PI.

(** ** The numerical library and the other collaborators *)

Class Torch : Type := {
  Tensor : Type;
  StateDict : Type;
  (** [t.size(0)] *)
  tensor_size0 : Tensor -> Z;
  (** [t /= m], the in-place true division of a tensor by an int *)
  tensor_div : Tensor -> Z -> Tensor;
  (** the state of a freshly built optimizer *)
  fresh_state : StateDict
}.

Section Objects.
Context {T : Torch}.

(** A parameter of the model: its value and its accumulated gradient.
    The optimizer's groups hold the very objects the model computes with,
    so one store of them (the optimizer's) serves both; a parameter is
    taken to sit in one group only, as torch requires.

    [grad] is a tensor: this is the state of a parameter that a backward
    pass has reached.  Until then torch leaves [None] in [grad], on which
    [param.grad /= batch_size_multiplier] raises [TypeError]; that state is
    not modelled.  It is the one in which the [use_amp] path of the train
    step, which runs no backward pass, divides the gradients: what is
    stated below of a train step or a train epoch that returns is
    therefore stated for the path that calls [loss.backward()], and for
    parameters that this pass reaches. *)
Record param : Type := { data : Tensor; grad : Tensor }.

(** An entry of [optimizer.param_groups]. *)
Record param_group : Type := {
  params : list param;
  lr : R;
  momentum : R;
  weight_decay : R;
  nesterov : bool
}.

Record Optimizer : Type := {
  param_groups : list param_group;
  opt_state : StateDict
}.

(** A group as handed to the optimizer's constructor: a dict with
    ['params'] and, possibly, its own ['weight_decay']. *)
Record group_spec : Type := {
  gs_params : list param;
  gs_weight_decay : option R
}.

(** [torch.optim.SGD(groups, lr, momentum=, weight_decay=, nesterov=)]:
    every group is completed with the defaults given to the constructor.
    The constructor's validation of its arguments is not modelled. *)
Definition torch_optim_SGD (groups : list group_spec)
    (lr0 momentum0 weight_decay0 : R) (nesterov0 : bool) : Optimizer :=
  {| param_groups :=
       map (fun g =>
              {| params := gs_params g;
                 lr := lr0;
                 momentum := momentum0;
                 weight_decay := match gs_weight_decay g with
                                 | Some wd => wd
                                 | None => weight_decay0
                                 end;
                 nesterov := nesterov0 |}) groups;
     opt_state := fresh_state |}.

(** The dict given to [utils.save_checkpoint]. *)
Record checkpoint : Type := {
  ck_epoch : Z;
  ck_arch : string;
  ck_state_dict : StateDict;
  ck_best_prec1 : R;
  ck_optimizer : StateDict
}.

End Objects.

(** The collaborators of the training loop.  None of them is defined in
    training.py: the model and the loss ([resnet], [torch.nn]), autograd,
    the optimizer's methods, [utils], [torch.distributed], [time],
    [log.AverageMeter] and the debug module. *)
Class Collaborators {T : Torch} : Type := {
  (** [self.model(data)], given the parameters and the train/eval mode *)
  model_call : list param_group -> bool -> Tensor -> Tensor;
  (** [self.loss(output, target)] *)
  loss_call : Tensor -> Tensor -> R;
  (** [model_and_loss.arch] *)
  model_arch : string;
  (** [model_and_loss.model.state_dict()] *)
  model_state_dict : list param_group -> StateDict;
  (** [loss.backward()]: the gradients of the loss of this batch are
      accumulated into the [grad] of the parameters *)
  loss_backward : list param_group -> bool -> Tensor -> Tensor -> list param_group;
  (** [optimizer.backward(loss)], for an optimizer object that has this
      method (a loss-scaling wrapper); [torch.optim.SGD] has none *)
  opt_backward : Optimizer -> bool -> Tensor -> Tensor -> Optimizer;
  (** [optimizer.step()], [optimizer.zero_grad()], [optimizer.state_dict()],
      [optimizer.load_state_dict(state)] *)
  opt_step : Optimizer -> Optimizer;
  opt_zero_grad : Optimizer -> Optimizer;
  opt_state_dict : Optimizer -> StateDict;
  opt_load_state_dict : Optimizer -> StateDict -> Optimizer;
  (** [utils.accuracy(output, target, topk=(1, 5))] *)
  utils_accuracy : Tensor -> Tensor -> R * R;
  (** [utils.reduce_tensor(t)] *)
  utils_reduce_tensor : R -> R;
  (** [torch.distributed.is_initialized()], [get_rank()], [get_world_size()] *)
  is_initialized : bool;
  get_rank : Z;
  get_world_size : Z;
  (** the value [time.time()] returns at its n-th call *)
  clock : nat -> R;
  (** [AverageMeter.get_val()] after the given [record(val, n)] calls *)
  AverageMeter_get_val : list (R * Z) -> R;
  (** what a call of the debug module's [plot_bin_hist] on an optimizer (and
      with it the model's parameters), a mode and a loader does: how it
      ends, and the optimizer and the mode it leaves *)
  debug_plot_bin_hist :
    Optimizer -> bool -> list (Tensor * Tensor) -> outcome unit * (Optimizer * bool)
}.

(** ** Calls recorded in the world *)

Inductive meter : Type := AverageMeter | IterationMeter.

(** Modelled from the spec: the metric logger, whose module is not part
    of training.py.  The spec lists its methods [register_metric],
    [log_metric], [iteration_generator_wrapper], [epoch_generator_wrapper]
    and [end]; these are the calls the logger object receives, and the two
    wrappers are taken to yield the items of the iterable they wrap,
    unchanged and in order. *)
Inductive log_call : Type :=
| register_metric (name : string) (m : meter) (log_level : Z)
| log_metric (name : string) (value : R)
| iteration_generator_wrapper (val : bool)
| epoch_generator_wrapper
| logger_end.

Section Calls.
Context {T : Torch}.

(** Calls on the other collaborators, and the two call sites of the step
    functions. *)
Inductive call : Type :=
| train_step_called (i : Z) (input target : Tensor) (optimizer_step : bool)
| val_step_called (i : Z) (input target : Tensor)
| optimizer_step_called (receiver : Optimizer)
| optimizer_zero_grad_called
| save_checkpoint_called (state : checkpoint) (is_best : bool)
    (checkpoint_dir : string) (backup_filename : option string)
| plot_bin_hist_called (receiver : Optimizer) (val_loader : list (Tensor * Tensor)).

(** The objects the functions of the file share. *)
Record World : Type := {
  optimizer : Optimizer;   (* the optimizer and, through it, the model's parameters *)
  training : bool;         (* the mode set by model_and_loss.train() / .eval() *)
  log : list log_call;     (* what the logger object has received *)
  calls : list call;       (* what the other collaborators have received *)
  ticks : nat              (* how often time.time() has been read *)
}.

Definition set_optimizer (o : Optimizer) (w : World) : World :=
  {| optimizer := o; training := training w; log := log w;
     calls := calls w; ticks := ticks w |}.
Definition set_training (b : bool) (w : World) : World :=
  {| optimizer := optimizer w; training := b; log := log w;
     calls := calls w; ticks := ticks w |}.
Definition add_log (c : log_call) (w : World) : World :=
  {| optimizer := optimizer w; training := training w; log := log w ++ [c];
     calls := calls w; ticks := ticks w |}.
Definition add_call (c : call) (w : World) : World :=
  {| optimizer := optimizer w; training := training w; log := log w;
     calls := calls w ++ [c]; ticks := ticks w |}.
Definition tick (w : World) : World :=
  {| optimizer := optimizer w; training := training w; log := log w;
     calls := calls w; ticks := S (ticks w) |}.

(** ** The monad of effects: state and exceptions *)

Definition M (S A : Type) : Type := S -> outcome A * S.

Definition ret {S A : Type} (a : A) : M S A := fun s => (Ok a, s).
Definition raise {S A : Type} (e : exn) : M S A := fun s => (Raise e, s).
Definition bind {S A B : Type} (m : M S A) (k : A -> M S B) : M S B :=
  fun s => match m s with
           | (Ok a, s') => k a s'
           | (Raise e, s') => (Raise e, s')
           end.
Definition lift {S A : Type} (o : outcome A) : M S A := fun s => (o, s).
Definition modify {S : Type} (f : S -> S) : M S unit := fun s => (Ok tt, f s).
Definition gets {S A : Type} (f : S -> A) : M S A := fun s => (Ok (f s), s).
Definition when {S : Type} (b : bool) (m : M S unit) : M S unit :=
  if b then m else ret tt.

End Calls.

Declare Scope monad_scope.
Delimit Scope monad_scope with monad.
Notation "x <- m ;; k" := (bind m (fun x => k))
  (at level 61, m at next level, right associativity) : monad_scope.
Notation "' pat <- m ;; k" := (bind m (fun x => match x with pat => k end))
  (at level 61, pat pattern, m at next level, right associativity) : monad_scope.
Notation "m ;; k" := (bind m (fun _ => k))
  (at level 61, right associativity) : monad_scope.
Local Open Scope monad_scope.

(** A reference to the logger object of the world; [None] is Python's. *)
Inductive logger_ref : Type := the_logger.

Definition is_not_None {A : Type} (x : option A) : bool :=
  match x with Some _ => true | None => false end.

Section Program.
Context {T : Torch} {C : Collaborators}.

(** [logger.method(...)]: an attribute access on [None] raises. *)
Definition method (logger : option logger_ref) (c : log_call) : M World unit :=
  match logger with
  | None => raise AttributeError
  | Some the_logger => modify (add_log c)
  end.

(** [time.time()] *)
Definition time_time : M World R :=
  fun w => (Ok (clock (ticks w)), tick w).

(** ** ModelAndLoss.forward *)
Definition ModelAndLoss_forward (groups : list param_group) (mode : bool)
    (data target : Tensor) : R * Tensor :=
  let output := model_call groups mode data in
  let loss := loss_call output target in
  (loss, output).

(** ** get_optimizer *)

(** [parameters] is a list of (name, parameter) pairs; the function
    traverses it twice. *)
Definition get_optimizer (parameters : list (string * param)) (fp16 : bool)
    (lr0 momentum0 weight_decay0 : R) (nesterov0 : bool)
    (state : option StateDict)
    (static_loss_scale : R) (dynamic_loss_scale : bool)
    (bn_weight_decay : bool) : Optimizer :=
  let optimizer :=
    if bn_weight_decay then
      torch_optim_SGD
        [ {| gs_params := map snd parameters; gs_weight_decay := None |} ]
        lr0 momentum0 weight_decay0 nesterov0
    else
      let bn_params :=
        map snd (filter (fun nv => py_in "bn" (fst nv)) parameters) in
      let rest_params :=
        map snd (filter (fun nv => negb (py_in "bn" (fst nv))) parameters) in
      torch_optim_SGD
        [ {| gs_params := bn_params; gs_weight_decay := Some 0%R |};
          {| gs_params := rest_params; gs_weight_decay := Some weight_decay0 |} ]
        lr0 momentum0 weight_decay0 nesterov0 in
  match state with
  | None => optimizer
  | Some st => opt_load_state_dict optimizer st
  end.

(** ** Learning-rate policies *)

(** What [lr_policy] returns: the closure [_alr] over [lr_fn] and [logger].
    The [lr_scheduler] that [train] and [train_loop] receive is such a
    closure, and calling it is [_alr]. *)
Record scheduler : Type := {
  lr_fn : Z -> Z -> outcome R;
  lr_logger : option logger_ref
}.

Definition set_lr (x : R) (o : Optimizer) : Optimizer :=
  {| param_groups :=
       map (fun g => {| params := params g; lr := x; momentum := momentum g;
                        weight_decay := weight_decay g; nesterov := nesterov g |})
           (param_groups o);
     opt_state := opt_state o |}.

Definition lr_policy (lr_fn0 : Z -> Z -> outcome R) (logger : option logger_ref)
  : M World scheduler :=
  when (is_not_None logger) (method logger (register_metric "lr" IterationMeter 1)) ;;
  ret {| lr_fn := lr_fn0; lr_logger := logger |}.

Definition _alr (s : scheduler) (iteration epoch : Z) : M World unit :=
  x <- lift (lr_fn s iteration epoch) ;;
  when (is_not_None (lr_logger s)) (method (lr_logger s) (log_metric "lr" x)) ;;
  modify (fun w => set_optimizer (set_lr x (optimizer w)) w).

End Program.

(** The [_lr_fn] of each policy. *)
Definition lr_step_policy_fn (base_lr : R) (steps : list Z) (decay_factor : R)
    (warmup_length : Z) (iteration epoch : Z) : outcome R :=
  if epoch <? warmup_length then
    truediv (base_lr * IZR (epoch + 1)) warmup_length
  else
    Ok (fold_left (fun x s => if epoch >=? s then (x * decay_factor)%R else x)
                  steps base_lr).

Definition lr_linear_policy_fn (base_lr : R) (warmup_length epochs : Z)
    (iteration epoch : Z) : outcome R :=
  if epoch <? warmup_length then
    truediv (base_lr * IZR (epoch + 1)) warmup_length
  else
    let e := epoch - warmup_length in
    let es := epochs - warmup_length in
    match truediv (IZR e) es with
    | Ok q => Ok (base_lr * (1 - q))%R
    | Raise x => Raise x
    end.

Definition lr_cosine_policy_fn (base_lr : R) (warmup_length epochs : Z)
    (iteration epoch : Z) : outcome R :=
  if epoch <? warmup_length then
    truediv (base_lr * IZR (epoch + 1)) warmup_length
  else
    let e := epoch - warmup_length in
    let es := epochs - warmup_length in
    match truediv (np_pi * IZR e) es with
    | Ok q => Ok (0.5 * (1 + np_cos q) * base_lr)%R
    | Raise x => Raise x
    end.

(** [np.log2(final_multiplier)/es] is a numpy scalar division: it does
    not raise when [es] is zero. *)
Definition lr_exponential_policy_fn (base_lr : R) (warmup_length epochs : Z)
    (final_multiplier : R) (iteration epoch : Z) : outcome R :=
  let es := epochs - warmup_length in
  let epoch_decay := np_power 2 (np_log2 final_multiplier / IZR es) in
  if epoch <? warmup_length then
    truediv (base_lr * IZR (epoch + 1)) warmup_length
  else
    let e := epoch - warmup_length in
    Ok (base_lr * powerRZ epoch_decay e)%R.

Section Policies.
Context {T : Torch} {C : Collaborators}.

Definition lr_step_policy (base_lr : R) (steps : list Z) (decay_factor : R)
    (warmup_length : Z) (logger : option logger_ref) : M World scheduler :=
  lr_policy (lr_step_policy_fn base_lr steps decay_factor warmup_length) logger.

Definition lr_linear_policy (base_lr : R) (warmup_length epochs : Z)
    (logger : option logger_ref) : M World scheduler :=
  lr_policy (lr_linear_policy_fn base_lr warmup_length epochs) logger.

Definition lr_cosine_policy (base_lr : R) (warmup_length epochs : Z)
    (logger : option logger_ref) : M World scheduler :=
  lr_policy (lr_cosine_policy_fn base_lr warmup_length epochs) logger.

Definition lr_exponential_policy (base_lr : R) (warmup_length epochs : Z)
    (final_multiplier : R) (logger : option logger_ref) : M World scheduler :=
  lr_policy (lr_exponential_policy_fn base_lr warmup_length epochs final_multiplier)
            logger.

End Policies.

Section Loops.
Context {T : Torch} {C : Collaborators}.

(** A batch is an (input, target) pair, and a data loader the finite
    sequence of the batches it yields at each epoch. *)
Definition batch : Type := (Tensor * Tensor)%type.

(** ** get_train_step *)

(** The two nested loops [param.grad /= batch_size_multiplier]. *)
Definition div_grads (batch_size_multiplier : Z) (o : Optimizer) : Optimizer :=
  {| param_groups :=
       map (fun g =>
              {| params := map (fun p => {| data := data p;
                                            grad := tensor_div (grad p) batch_size_multiplier |})
                               (params g);
                 lr := lr g; momentum := momentum g;
                 weight_decay := weight_decay g; nesterov := nesterov g |})
           (param_groups o);
     opt_state := opt_state o |}.

Definition set_param_groups (gs : list param_group) (o : Optimizer) : Optimizer :=
  {| param_groups := gs; opt_state := opt_state o |}.

(** [optimizer.step()] and [optimizer.zero_grad()], recorded. *)
Definition optimizer_step_call : M World unit :=
  o <- gets optimizer ;;
  modify (add_call (optimizer_step_called o)) ;;
  modify (set_optimizer (opt_step o)).

Definition optimizer_zero_grad_call : M World unit :=
  modify (add_call optimizer_zero_grad_called) ;;
  modify (fun w => set_optimizer (opt_zero_grad (optimizer w)) w).

(** The closure [_step] that [get_train_step] returns.

    Without [fp16] and [use_amp] the step runs the backward pass itself,
    [loss.backward()].  The two other branches are modelled for the
    objects they are written for: [fp16] calls [optimizer.backward(loss)],
    the method [opt_backward] of a loss-scaling optimizer, and [use_amp]
    runs no backward pass (its body is commented out) and divides the
    gradient tensors left in the parameters.  On what this file itself
    builds they do not get that far: the SGD of [get_optimizer] has no
    [backward] method (its wrapping is commented out), so that the call
    raises [AttributeError], and gradients that no backward pass has
    computed are [None], on which the division raises [TypeError] (see
    [param]).  The properties of steps and epochs that return are
    therefore stated for [fp16 = false] and [use_amp = false]. *)
Definition get_train_step (fp16 use_amp : bool) (batch_size_multiplier : Z)
    (input target : Tensor) (optimizer_step : bool) : M World (R * R * R) :=
  o <- gets optimizer ;;
  mode <- gets training ;;
  let '(loss, output) := ModelAndLoss_forward (param_groups o) mode input target in
  let prec1 := 0%R in
  let prec5 := 0%R in
  let reduced_loss := if is_initialized then utils_reduce_tensor loss else loss in
  (if fp16 then
     modify (set_optimizer (opt_backward o mode input target))
   else if use_amp then
     ret tt
   else
     modify (set_optimizer
               (set_param_groups (loss_backward (param_groups o) mode input target) o))) ;;
  when optimizer_step
    (modify (fun w => set_optimizer (div_grads batch_size_multiplier (optimizer w)) w) ;;
     optimizer_step_call ;;
     optimizer_zero_grad_call) ;;
  ret (reduced_loss, prec1, prec5).

(** ** calc_ips *)
Definition calc_ips (batch_size : Z) (time : R) : outcome R :=
  let world_size := if is_initialized then get_world_size else 1 in
  let tbs := world_size * batch_size in
  truediv_float tbs time.

(** ** train *)

Fixpoint train_for (lr_scheduler : scheduler) (fp16 : bool)
    (logger : option logger_ref) (epoch : Z) (use_amp : bool) (prof : Z)
    (batch_size_multiplier : Z)
    (data_iter : list (Z * batch)) (end_ : R) : M World unit :=
  match data_iter with
  | [] => ret tt
  | (i, (input, target)) :: rest =>
    let bs := tensor_size0 input in
    _alr lr_scheduler i epoch ;;
    now <- time_time ;;
    let data_time := (now - end_)%R in
    if (prof >? 0) && (i >=? prof) then
      ret tt                                              (* break *)
    else
      r <- lift (py_mod (i + 1) batch_size_multiplier) ;;
      let optimizer_step := r =? 0 in
      modify (add_call (train_step_called i input target optimizer_step)) ;;
      ' (loss, prec1, prec5) <-
        get_train_step fp16 use_amp batch_size_multiplier input target optimizer_step ;;
      now' <- time_time ;;
      let it_time := (now' - end_)%R in
      when (is_not_None logger)
        (method logger (log_metric "train.top1" prec1) ;;
         method logger (log_metric "train.top5" prec5) ;;
         method logger (log_metric "train.loss" loss) ;;
         compute_ips <- lift (calc_ips bs (it_time - data_time)) ;;
         method logger (log_metric "train.compute_ips" compute_ips) ;;
         total_ips <- lift (calc_ips bs it_time) ;;
         method logger (log_metric "train.total_ips" total_ips) ;;
         method logger (log_metric "train.data_time" data_time) ;;
         method logger (log_metric "train.compute_time" (it_time - data_time))) ;;
      end' <- time_time ;;
      train_for lr_scheduler fp16 logger epoch use_amp prof batch_size_multiplier
                rest end'
  end.

Definition train (train_loader : list batch) (lr_scheduler : scheduler)
    (fp16 : bool) (logger : option logger_ref) (epoch : Z) (use_amp : bool)
    (prof : Z) (batch_size_multiplier : Z) (register_metrics : bool)
  : M World unit :=
  when (register_metrics && is_not_None logger)
    (method logger (register_metric "train.top1" AverageMeter 0) ;;
     method logger (register_metric "train.top5" AverageMeter 0) ;;
     method logger (register_metric "train.loss" AverageMeter 0) ;;
     method logger (register_metric "train.compute_ips" AverageMeter 1) ;;
     method logger (register_metric "train.total_ips" AverageMeter 0) ;;
     method logger (register_metric "train.data_time" AverageMeter 1) ;;
     method logger (register_metric "train.compute_time" AverageMeter 1)) ;;
  modify (set_training true) ;;                           (* model_and_loss.train() *)
  end_ <- time_time ;;
  optimizer_zero_grad_call ;;
  let data_iter := enumerate train_loader in
  when (is_not_None logger) (method logger (iteration_generator_wrapper false)) ;;
  train_for lr_scheduler fp16 logger epoch use_amp prof batch_size_multiplier
            data_iter end_.

(** ** get_val_step *)

(** The closure [_step] that [get_val_step] returns. *)
Definition get_val_step (input target : Tensor) : M World (R * R * R) :=
  o <- gets optimizer ;;
  mode <- gets training ;;
  let '(loss, output) := ModelAndLoss_forward (param_groups o) mode input target in
  let '(prec1, prec5) := utils_accuracy output target in
  let '(reduced_loss, prec1, prec5) :=
    if is_initialized then
      (utils_reduce_tensor loss, utils_reduce_tensor prec1, utils_reduce_tensor prec5)
    else
      (loss, prec1, prec5) in
  ret (reduced_loss, prec1, prec5).

(** ** validate *)

(** The loop of [validate]; [top1] is the [AverageMeter] of the epoch, as
    the list of its [record(val, n)] calls. *)
Fixpoint validate_for (logger : option logger_ref) (prof : Z)
    (data_iter : list (Z * batch)) (end_ : R) (top1 : list (R * Z))
  : M World (list (R * Z)) :=
  match data_iter with
  | [] => ret top1
  | (i, (input, target)) :: rest =>
    let bs := tensor_size0 input in
    now <- time_time ;;
    let data_time := (now - end_)%R in
    if (prof >? 0) && (i >? prof) then
      ret top1                                            (* break *)
    else
      modify (add_call (val_step_called i input target)) ;;
      ' (loss, prec1, prec5) <- get_val_step input target ;;
      now' <- time_time ;;
      let it_time := (now' - end_)%R in
      let top1 := top1 ++ [(prec1, bs)] in
      when (is_not_None logger)
        (method logger (log_metric "val.top1" prec1) ;;
         method logger (log_metric "val.top5" prec5) ;;
         method logger (log_metric "val.loss" loss) ;;
         compute_ips <- lift (calc_ips bs (it_time - data_time)) ;;
         method logger (log_metric "val.compute_ips" compute_ips) ;;
         total_ips <- lift (calc_ips bs it_time) ;;
         method logger (log_metric "val.total_ips" total_ips) ;;
         method logger (log_metric "val.data_time" data_time) ;;
         method logger (log_metric "val.compute_time" (it_time - data_time))) ;;
      end' <- time_time ;;
      validate_for logger prof rest end' top1
  end.

Definition validate (val_loader : list batch) (fp16 : bool)
    (logger : option logger_ref) (epoch : Z) (prof : Z) (register_metrics : bool)
  : M World R :=
  when (register_metrics && is_not_None logger)
    (method logger (register_metric "val.top1" AverageMeter 0) ;;
     method logger (register_metric "val.top5" AverageMeter 0) ;;
     method logger (register_metric "val.loss" AverageMeter 0) ;;
     method logger (register_metric "val.compute_ips" AverageMeter 1) ;;
     method logger (register_metric "val.total_ips" AverageMeter 1) ;;
     method logger (register_metric "val.data_time" AverageMeter 1) ;;
     method logger (register_metric "val.compute_time" AverageMeter 1)) ;;
  let top1 := @nil (R * Z) in
  modify (set_training false) ;;                          (* model_and_loss.eval() *)
  end_ <- time_time ;;
  let data_iter := enumerate val_loader in
  when (is_not_None logger) (method logger (iteration_generator_wrapper true)) ;;
  top1 <- validate_for logger prof data_iter end_ top1 ;;
  ret (AverageMeter_get_val top1).

(** ** train_loop *)

(** The local variables of [train_loop] that the epochs update. *)
Record loop_vars : Type := { prec1 : R; best_prec1 : R }.

Definition set_prec1 (x : R) (s : loop_vars * World) : loop_vars * World :=
  ({| prec1 := x; best_prec1 := best_prec1 (fst s) |}, snd s).
Definition set_best_prec1 (x : R) (s : loop_vars * World) : loop_vars * World :=
  ({| prec1 := prec1 (fst s); best_prec1 := x |}, snd s).

(** An action on the world, run inside [train_loop]. *)
Definition in_world {A : Type} (m : M World A) : M (loop_vars * World) A :=
  fun s => let (r, w) := m (snd s) in (r, (fst s, w)).

Fixpoint for_each {S A : Type} (l : list A) (body : A -> M S unit) : M S unit :=
  match l with
  | [] => ret tt
  | x :: l' => body x ;; for_each l' body
  end.

(** Modelled from the spec: [plot_bin_hist(model_and_loss, optimizer,
    val_loader)] belongs to the debug module, which is not part of
    training.py; the spec says of it only that it is a diagnostic pass, a
    binned-histogram plot over the validation set.  It is handed the live
    model and optimizer, and nothing tells what it does to them or whether
    it returns: the call is recorded with the optimizer it receives, and
    how it ends and what it leaves of the optimizer and of the mode is the
    collaborator's [debug_plot_bin_hist].  The state it leaves is kept
    also when it raises. *)
Definition plot_bin_hist (val_loader : list batch) : M World unit :=
  fun w =>
    let o := optimizer w in
    let d := debug_plot_bin_hist o (training w) val_loader in
    (fst d,
     set_training (snd (snd d))
       (set_optimizer (fst (snd d))
          (add_call (plot_bin_hist_called o val_loader) w))).

(** The body of [for epoch in epoch_iter]. *)
Definition train_loop_epoch (lr_scheduler : scheduler)
    (train_loader val_loader : list batch) (fp16 : bool)
    (logger : option logger_ref) (should_backup_checkpoint : Z -> bool)
    (use_amp : bool) (batch_size_multiplier : Z) (start_epoch : Z) (prof : Z)
    (skip_training skip_validation save_checkpoints : bool)
    (checkpoint_dir : string) (epoch : Z) : M (loop_vars * World) unit :=
  when (negb skip_training)
    (in_world (train train_loader lr_scheduler fp16 logger epoch use_amp prof
                     batch_size_multiplier (epoch =? start_epoch))) ;;
  when (negb skip_validation)
    (p <- in_world (validate val_loader fp16 logger epoch prof (epoch =? start_epoch)) ;;
     modify (set_prec1 p)) ;;
  when (save_checkpoints && (negb is_initialized || (get_rank =? 0)))
    (when (negb skip_training)
       (p <- gets (fun s => prec1 (fst s)) ;;
        b <- gets (fun s => best_prec1 (fst s)) ;;
        let is_best := py_gt p b in
        modify (set_best_prec1 (py_max p b)) ;;
        let backup_filename :=
          if should_backup_checkpoint epoch then
            Some ("checkpoint-" ++ format_int (epoch + 1) ++ ".pth.tar")%string
          else None in
        b' <- gets (fun s => best_prec1 (fst s)) ;;
        o <- gets (fun s => optimizer (snd s)) ;;
        in_world (modify (add_call
          (save_checkpoint_called
             {| ck_epoch := epoch + 1;
                ck_arch := model_arch;
                ck_state_dict := model_state_dict (param_groups o);
                ck_best_prec1 := b';
                ck_optimizer := opt_state_dict o |}
             is_best checkpoint_dir backup_filename))))) ;;
  when (negb is_initialized || (get_rank =? 0))
    (in_world (method logger logger_end)).

Definition train_loop (lr_scheduler : scheduler)
    (train_loader val_loader debug_loader : list batch) (epochs : Z) (fp16 : bool)
    (logger : option logger_ref) (should_backup_checkpoint : Z -> bool)
    (use_amp : bool) (batch_size_multiplier : Z) (best_prec1_0 : R)
    (start_epoch : Z) (prof : Z)
    (skip_training skip_validation save_checkpoints : bool)
    (checkpoint_dir : string) (w : World) : outcome unit * (loop_vars * World) :=
  (let epoch_iter := py_range start_epoch epochs in
   when (is_not_None logger) (in_world (method logger epoch_generator_wrapper)) ;;
   for_each epoch_iter
     (train_loop_epoch lr_scheduler train_loader val_loader fp16 logger
        should_backup_checkpoint use_amp batch_size_multiplier start_epoch prof
        skip_training skip_validation save_checkpoints checkpoint_dir) ;;
   when skip_training (in_world (plot_bin_hist val_loader)))
  ({| prec1 := -1; best_prec1 := best_prec1_0 |}, w).

End Loops.

(** ** Reading the record of calls *)

Section Traces.
Context {T : Torch} {C : Collaborators}.

(** What a run from [w] to [w'] added to the calls. *)
Definition new_calls (w w' : World) : list call :=
  skipn (List.length (calls w)) (calls w').

(** The invocations of the train step: batch index, batch, flag. *)
Fixpoint train_steps (cs : list call) : list (Z * batch * bool) :=
  match cs with
  | [] => []
  | train_step_called i input target flag :: cs' =>
      (i, (input, target), flag) :: train_steps cs'
  | _ :: cs' => train_steps cs'
  end.

(** The invocations of the validation step. *)
Fixpoint val_steps (cs : list call) : list (Z * batch) :=
  match cs with
  | [] => []
  | val_step_called i input target :: cs' => (i, (input, target)) :: val_steps cs'
  | _ :: cs' => val_steps cs'
  end.

(** The batch indices after which [optimizer.step()] was called: the index
    of the latest train step ([last] before the first one) at each call. *)
Fixpoint updated_after (last : Z) (cs : list call) : list Z :=
  match cs with
  | [] => []
  | train_step_called i _ _ _ :: cs' => updated_after i cs'
  | optimizer_step_called _ :: cs' => last :: updated_after last cs'
  | _ :: cs' => updated_after last cs'
  end.

(** The checkpoints saved, with their [is_best]. *)
Fixpoint checkpoints (cs : list call) : list (checkpoint * bool) :=
  match cs with
  | [] => []
  | save_checkpoint_called ck is_best _ _ :: cs' => (ck, is_best) :: checkpoints cs'
  | _ :: cs' => checkpoints cs'
  end.

(** The items a [for i, x in l] loop processes when it breaks at the first
    index [i] with [brk i]. *)
Fixpoint take_until {A : Type} (brk : Z -> bool) (l : list (Z * A)) : list (Z * A) :=
  match l with
  | [] => []
  | (i, x) :: l' => if brk i then [] else (i, x) :: take_until brk l'
  end.

(** The call of the train step that [train] makes for an enumerated batch. *)
Definition train_step_of (batch_size_multiplier : Z) (ib : Z * batch)
  : Z * batch * bool :=
  (fst ib, snd ib, (fst ib + 1) mod batch_size_multiplier =? 0).

(** The conditions on which the two epoch loops break. *)
Definition train_breaks (prof i : Z) : bool := (prof >? 0) && (i >=? prof).
Definition validate_breaks (prof i : Z) : bool := (prof >? 0) && (i >? prof).

(** Successive readings of the clock differ. *)
Definition clock_advances : Prop := forall k : nat, (clock k < clock (S k))%R.

(** The timing preconditions of an epoch loop that logs: the clock
    advances and [end_] was read from it. A loop without a logger has none. *)
Definition timed (logger : option logger_ref) (end_ : R) (w : World) : Prop :=
  logger = None \/
  (clock_advances /\ exists k : nat, (k < ticks w)%nat /\ end_ = clock k).

(** The optimizer after the backward pass of a train step. *)
Definition after_backward (fp16 use_amp : bool) (input target : Tensor)
    (w : World) : Optimizer :=
  if fp16 then opt_backward (optimizer w) (training w) input target
  else if use_amp then optimizer w
  else set_param_groups
         (loss_backward (param_groups (optimizer w)) (training w) input target)
         (optimizer w).

End Traces.

(** A non-decreasing walk from [b] through [l] up to [b']. *)
Fixpoint chain (b : R) (l : list R) (b' : R) : Prop :=
  match l with
  | [] => (b <= b')%R
  | x :: l' => (b <= x)%R /\ chain x l' b'
  end.

(** ** A small instance, for examples *)

#[local] Instance example_torch : Torch := {|
  Tensor := Z;
  StateDict := unit;
  tensor_size0 := fun t => t;
  tensor_div := fun t m => t / m;
  fresh_state := tt
|}.

#[local] Instance example_collaborators : @Collaborators example_torch := {|
  model_call := fun _ _ x => x;
  loss_call := fun _ _ => 0%R;
  model_arch := "resnet50";
  model_state_dict := fun _ => tt;
  loss_backward := fun gs _ _ _ => gs;
  opt_backward := fun o _ _ _ => o;
  opt_step := fun o => o;
  opt_zero_grad := fun o => o;
  opt_state_dict := fun _ => tt;
  opt_load_state_dict := fun o _ => o;
  utils_accuracy := fun _ _ => (0%R, 0%R);
  utils_reduce_tensor := fun x => x;
  is_initialized := false;
  get_rank := 0;
  get_world_size := 1;
  clock := INR;
  AverageMeter_get_val := fun _ => 0%R;
  debug_plot_bin_hist := fun o mode _ => (Ok tt, (o, mode))
|}.

Definition example_world : @World example_torch :=
  {| optimizer := {| param_groups := []; opt_state := tt |};
     training := false; log := []; calls := []; ticks := 0 |}.

Definition example_scheduler : scheduler :=
  {| lr_fn := fun _ _ => Ok 0%R; lr_logger := None |}.

(** Ten batches, numbered by their inputs. *)
Definition example_loader : list (@batch example_torch) :=
  map (fun k => (Z.of_nat k, 0)) (seq 0 10).

(** ** Statements about runs *)

(** [m], run from [s], returns normally, with a result and a state that
    satisfy [Q]. *)
Definition returns {S A : Type} (m : M S A) (s : S) (Q : A -> S -> Prop) : Prop :=
  exists a s', m s = (Ok a, s') /\ Q a s'.

(** [m], run from [s], raises [e]. *)
Definition raises {S A : Type} (m : M S A) (s : S) (e : exn) : Prop :=
  exists s', m s = (Raise e, s').

Section Frames.
Context {T : Torch} {C : Collaborators}.

(** From [w] to [w'] calls were only added, and no checkpoint was saved. *)
Definition saves_nothing (w w' : World) : Prop :=
  exists tr, calls w' = calls w ++ tr /\ checkpoints tr = [].

(** However [m] ends, it saves no checkpoint. *)
Definition quiet {A : Type} (m : M World A) : Prop :=
  forall w, saves_nothing w (snd (m w)).

(** What an epoch of [train_loop] may do between the states [s] and [s']:
    calls are only added, [best_prec1] does not decrease, and every
    checkpoint saved carries the [is_best] and the [best_prec1] computed
    from the epoch's [prec1] and the best value before the epoch. *)
Definition tracks_best (s s' : loop_vars * World) : Prop :=
  exists tr,
    calls (snd s') = calls (snd s) ++ tr /\
    (best_prec1 (fst s) <= best_prec1 (fst s'))%R /\
    forall ck is_best,
      In (ck, is_best) (checkpoints tr) ->
      (is_best = true <-> (best_prec1 (fst s) < prec1 (fst s'))%R) /\
      ck_best_prec1 ck = Rmax (prec1 (fst s')) (best_prec1 (fst s)) /\
      best_prec1 (fst s') = ck_best_prec1 ck.

(** The [best_prec1] values of the checkpoints saved, in order. *)
Definition saved_bests (cs : list call) : list R :=
  map (fun c => ck_best_prec1 (fst c)) (checkpoints cs).

End Frames.

(** ** Further readings of a run *)

Section Readings.
Context {T : Torch} {C : Collaborators}.

(** The checkpoints saved, as (epoch recorded, backup file name). *)
Fixpoint saved_files (cs : list call) : list (Z * option string) :=
  match cs with
  | [] => []
  | save_checkpoint_called ck _ _ backup_filename :: cs' =>
      (ck_epoch ck, backup_filename) :: saved_files cs'
  | _ :: cs' => saved_files cs'
  end.

(** The backup file name [train_loop] gives for an epoch. *)
Definition backup_name (epoch : Z) : string :=
  ("checkpoint-" ++ format_int (epoch + 1) ++ ".pth.tar")%string.

Definition is_val_step_call (c : call) : bool :=
  match c with val_step_called _ _ _ => true | _ => false end.

Definition is_val_step_or_plot_call (c : call) : bool :=
  match c with
  | val_step_called _ _ _ | plot_bin_hist_called _ _ => true
  | _ => false
  end.

(** From [w] to [w'] the optimizer (parameters, gradients, rates) is the
    same and only calls accepted by [ok] were added. *)
Definition untouched (ok : call -> bool) (w w' : World) : Prop :=
  optimizer w' = optimizer w /\
  exists tr, calls w' = calls w ++ tr /\ forallb ok tr = true.

(** However [m] ends, the world it leaves is related by [R] to the one it
    started from. *)
Definition along {A : Type} (R : World -> World -> Prop) (m : M World A) : Prop :=
  forall w, R w (snd (m w)).

(** The top-1 accuracy the validation step measures on a batch, with the
    parameters of [o], in evaluation mode. *)
Definition val_prec1 (o : Optimizer) (input target : Tensor) : R :=
  let '(loss, output) := ModelAndLoss_forward (param_groups o) false input target in
  let '(prec1, prec5) := utils_accuracy output target in
  if is_initialized then utils_reduce_tensor prec1 else prec1.

(** When [train_loop] saves a checkpoint at the end of an epoch. *)
Definition saves (save_checkpoints skip_training : bool) : bool :=
  save_checkpoints && (negb is_initialized || (get_rank =? 0)) && negb skip_training.

(** What lets an epoch of [train_loop] return: with a logger, a clock that
    advances; without one, a process that does not call [logger.end()]. *)
Definition epoch_can_end (logger : option logger_ref) : Prop :=
  match logger with
  | Some _ => clock_advances
  | None => negb is_initialized || (get_rank =? 0) = false
  end.

End Readings.

(** A world in which the distributed runtime is initialized and this
    process has rank 1. *)
Definition example_worker : @Collaborators example_torch := {|
  model_call := fun _ _ x => x;
  loss_call := fun _ _ => 0%R;
  model_arch := "resnet50";
  model_state_dict := fun _ => tt;
  loss_backward := fun gs _ _ _ => gs;
  opt_backward := fun o _ _ _ => o;
  opt_step := fun o => o;
  opt_zero_grad := fun o => o;
  opt_state_dict := fun _ => tt;
  opt_load_state_dict := fun o _ => o;
  utils_accuracy := fun _ _ => (0%R, 0%R);
  utils_reduce_tensor := fun x => x;
  is_initialized := true;
  get_rank := 1;
  get_world_size := 2;
  clock := INR;
  AverageMeter_get_val := fun _ => 0%R;
  debug_plot_bin_hist := fun o mode _ => (Ok tt, (o, mode))
|}.

(* ================================================================= *)
(** * Part II: properties *)
(* ================================================================= *)

(** ** Learning-rate policies *)

Lemma truediv_nonzero (x : R) (d : Z) :
  d <> 0 -> truediv x d = Ok (x / IZR d)%R.
Proof.
  intros Hd. unfold truediv.
  destruct (Z.eqb_spec d 0) as [E | _]; [contradiction | reflexivity].
Qed.

Lemma truediv_zero (x : R) : truediv x 0 = Raise ZeroDivisionError.
Proof. reflexivity. Qed.

Lemma ln_2_pos : (0 < ln 2)%R.
Proof. rewrite <- ln_1. apply ln_increasing; lra. Qed.

Lemma np_power_pos (x : R) : (0 < np_power 2 x)%R.
Proof. unfold np_power, Rpower. apply exp_pos. Qed.

(** Raising the decay constant to the length of the post-warmup span gives
    the final multiplier. *)
Lemma epoch_decay_span (final_multiplier : R) (es : Z) :
  (0 < final_multiplier)%R -> es <> 0 ->
  powerRZ (np_power 2 (np_log2 final_multiplier / IZR es)) es = final_multiplier.
Proof.
  intros Hf Hes.
  rewrite powerRZ_Rpower by apply np_power_pos.
  unfold np_power, np_log2. rewrite Rpower_mult.
  assert (Hz : IZR es <> 0%R) by (apply not_0_IZR; exact Hes).
  assert (Hl := ln_2_pos).
  replace (ln final_multiplier / ln 2 / IZR es * IZR es)%R
    with (ln final_multiplier / ln 2)%R by (field; split; lra).
  unfold Rpower.
  replace (ln final_multiplier / ln 2 * ln 2)%R with (ln final_multiplier)
    by (field; lra).
  apply exp_ln; exact Hf.
Qed.

(** C5. During warmup every curve (step, linear, cosine, exponential)
    computes the same ramp [base_lr * (epoch + 1) / warmup_length], whatever
    its other parameters are: for every epoch below [warmup_length] the four
    [_lr_fn] return that quotient (which is defined as soon as
    [warmup_length] is not zero, so for every epoch from 0 on). *)
Theorem warmup_ramp_all_curves
    (base_lr : R) (steps : list Z) (decay_factor : R)
    (warmup_length epochs : Z) (final_multiplier : R) (iteration epoch : Z) :
  epoch < warmup_length ->
  let ramp := truediv (base_lr * IZR (epoch + 1)) warmup_length in
  lr_step_policy_fn base_lr steps decay_factor warmup_length iteration epoch = ramp /\
  lr_linear_policy_fn base_lr warmup_length epochs iteration epoch = ramp /\
  lr_cosine_policy_fn base_lr warmup_length epochs iteration epoch = ramp /\
  lr_exponential_policy_fn base_lr warmup_length epochs final_multiplier
    iteration epoch = ramp /\
  (warmup_length <> 0 ->
   ramp = Ok (base_lr * IZR (epoch + 1) / IZR warmup_length)%R).
Proof.
  intros Hlt ramp.
  assert (Hb : (epoch <? warmup_length) = true) by (apply Z.ltb_lt; exact Hlt).
  unfold lr_step_policy_fn, lr_linear_policy_fn, lr_cosine_policy_fn,
    lr_exponential_policy_fn.
  rewrite Hb. repeat split.
  intros Hnz. apply truediv_nonzero; exact Hnz.
Qed.

Lemma warmup_ramp_all_curves_witness :
  let ramp := truediv (1 * IZR (2 + 1)) 5 in
  lr_step_policy_fn 1 [30; 60] 0.1 5 0 2 = ramp /\
  lr_linear_policy_fn 1 5 90 0 2 = ramp /\
  lr_cosine_policy_fn 1 5 90 0 2 = ramp /\
  lr_exponential_policy_fn 1 5 90 0.001 0 2 = ramp /\
  (5 <> 0 -> ramp = Ok (1 * IZR (2 + 1) / IZR 5)%R).
Proof.
  apply (warmup_ramp_all_curves 1 [30; 60] 0.1 5 90 0.001 0 2). lia.
Defined.

(** C8, as the code has it. With [warmup_length = 0] and an epoch from 0
    on, the warmup branch is not taken, so nothing is divided by
    [warmup_length]; the step and exponential curves then return a rate,
    and the linear and cosine curves return one unless [epochs] is 0 too,
    in which case their division by the post-warmup span [es] raises. *)
Theorem zero_warmup_division
    (base_lr : R) (steps : list Z) (decay_factor : R)
    (warmup_length epochs : Z) (final_multiplier : R) (iteration epoch : Z) :
  warmup_length = 0 -> 0 <= epoch ->
  (epoch <? warmup_length) = false /\
  (exists x, lr_step_policy_fn base_lr steps decay_factor warmup_length
               iteration epoch = Ok x) /\
  (exists x, lr_exponential_policy_fn base_lr warmup_length epochs
               final_multiplier iteration epoch = Ok x) /\
  (epochs <> 0 ->
   lr_linear_policy_fn base_lr warmup_length epochs iteration epoch
     = Ok (base_lr * (1 - IZR epoch / IZR epochs))%R /\
   lr_cosine_policy_fn base_lr warmup_length epochs iteration epoch
     = Ok (0.5 * (1 + np_cos (np_pi * IZR epoch / IZR epochs)) * base_lr)%R) /\
  (epochs = 0 ->
   lr_linear_policy_fn base_lr warmup_length epochs iteration epoch
     = Raise ZeroDivisionError /\
   lr_cosine_policy_fn base_lr warmup_length epochs iteration epoch
     = Raise ZeroDivisionError).
Proof.
  intros Hw He. subst warmup_length.
  assert (Hb : (epoch <? 0) = false) by (apply Z.ltb_ge; exact He).
  unfold lr_step_policy_fn, lr_linear_policy_fn, lr_cosine_policy_fn,
    lr_exponential_policy_fn.
  rewrite Hb, !Z.sub_0_r.
  split; [reflexivity |].
  split; [eexists; reflexivity |].
  split; [eexists; reflexivity |].
  split.
  - intros Hn. rewrite !truediv_nonzero by exact Hn. split; reflexivity.
  - intros Hn. subst epochs. rewrite !truediv_zero. split; reflexivity.
Qed.

Lemma zero_warmup_division_witness :
  (3 <? 0) = false /\
  (exists x, lr_step_policy_fn 1 [30; 60] 0.1 0 0 3 = Ok x) /\
  (exists x, lr_exponential_policy_fn 1 0 90 0.001 0 3 = Ok x) /\
  (90 <> 0 ->
   lr_linear_policy_fn 1 0 90 0 3 = Ok (1 * (1 - IZR 3 / IZR 90))%R /\
   lr_cosine_policy_fn 1 0 90 0 3
     = Ok (0.5 * (1 + np_cos (np_pi * IZR 3 / IZR 90)) * 1)%R) /\
  (90 = 0 ->
   lr_linear_policy_fn 1 0 90 0 3 = Raise ZeroDivisionError /\
   lr_cosine_policy_fn 1 0 90 0 3 = Raise ZeroDivisionError).
Proof.
  apply (zero_warmup_division 1 [30; 60] 0.1 0 90 0.001 0 3); [reflexivity | lia].
Defined.

(** C8 fails as stated: with [warmup_length = 0], [epochs = 0] and epoch 0
    the linear curve divides [e] by [es = 0]. *)
Lemma zero_warmup_linear_raises :
  0 <= 0 /\ lr_linear_policy_fn 1 0 0 0 0 = Raise ZeroDivisionError.
Proof. split; [lia | reflexivity]. Qed.

(** C4, as the code has it. With [warmup_length < epochs] and a positive
    [final_multiplier], where
    [epoch_decay = 2^(log2(final_multiplier)/(epochs - warmup_length))]:
    the exponential curve gives [base_lr * final_multiplier] at epoch index
    [epochs], one decay step after the last epoch [epochs - 1] of the run,
    at which it gives [base_lr * final_multiplier / epoch_decay]. *)
Theorem exponential_final_epoch
    (base_lr : R) (warmup_length epochs : Z) (final_multiplier : R)
    (iteration : Z) :
  warmup_length < epochs -> (0 < final_multiplier)%R ->
  let epoch_decay :=
    np_power 2 (np_log2 final_multiplier / IZR (epochs - warmup_length)) in
  lr_exponential_policy_fn base_lr warmup_length epochs final_multiplier
    iteration epochs = Ok (base_lr * final_multiplier)%R /\
  lr_exponential_policy_fn base_lr warmup_length epochs final_multiplier
    iteration (epochs - 1) = Ok (base_lr * final_multiplier / epoch_decay)%R.
Proof.
  intros Hlt Hf epoch_decay.
  assert (Hes : epochs - warmup_length <> 0) by lia.
  assert (Hd : (0 < epoch_decay)%R) by apply np_power_pos.
  unfold lr_exponential_policy_fn. fold epoch_decay.
  assert (H1 : (epochs <? warmup_length) = false) by (apply Z.ltb_ge; lia).
  assert (H2 : (epochs - 1 <? warmup_length) = false) by (apply Z.ltb_ge; lia).
  rewrite H1, H2.
  assert (Hspan : powerRZ epoch_decay (epochs - warmup_length) = final_multiplier)
    by (apply epoch_decay_span; assumption).
  split.
  - rewrite Hspan. reflexivity.
  - replace (epochs - 1 - warmup_length) with ((epochs - warmup_length) + (-1)) by lia.
    rewrite powerRZ_add by lra. rewrite Hspan.
    f_equal. simpl. field. lra.
Qed.

Lemma exponential_final_epoch_witness :
  let epoch_decay := np_power 2 (np_log2 (/ 4) / IZR (2 - 0)) in
  lr_exponential_policy_fn 1 0 2 (/ 4) 0 2 = Ok (1 * / 4)%R /\
  lr_exponential_policy_fn 1 0 2 (/ 4) 0 (2 - 1) = Ok (1 * / 4 / epoch_decay)%R.
Proof.
  apply (exponential_final_epoch 1 0 2 (/ 4) 0); [lia | lra].
Defined.

Lemma epoch_decay_quarter_two :
  np_power 2 (np_log2 (/ 4) / IZR 2) = (/ 2)%R.
Proof.
  unfold np_power, np_log2.
  assert (Hl := ln_2_pos).
  assert (H4 : ln (/ 4) = (- (2 * ln 2))%R).
  { rewrite ln_Rinv by lra.
    replace 4%R with (2 * 2)%R by lra.
    rewrite ln_mult by lra. lra. }
  rewrite H4.
  replace (- (2 * ln 2) / ln 2 / 2)%R with (Ropp 1) by (field; lra).
  rewrite Rpower_Ropp, Rpower_1 by lra. reflexivity.
Qed.

(** C4 fails as stated: with [base_lr = 1], no warmup, two epochs and
    [final_multiplier = 1/4], the rate of the final epoch (index 1) is 1/2,
    twice [base_lr * final_multiplier]; it is not within 1/8 of it. *)
Lemma exponential_final_epoch_off_by_one :
  0 < 2 /\
  lr_exponential_policy_fn 1 0 2 (/ 4) 0 (2 - 1) = Ok (/ 2)%R /\
  ~ (exists x, lr_exponential_policy_fn 1 0 2 (/ 4) 0 (2 - 1) = Ok x /\
               (Rabs (x - 1 * / 4) <= / 8)%R).
Proof.
  assert (E : lr_exponential_policy_fn 1 0 2 (/ 4) 0 (2 - 1) = Ok (/ 2)%R).
  { unfold lr_exponential_policy_fn. simpl Z.sub.
    change (1 <? 0) with false. cbv iota.
    rewrite epoch_decay_quarter_two. f_equal. simpl. field. }
  split; [lia |]. split; [exact E |].
  intros [x [Hx Hclose]]. rewrite E in Hx. injection Hx as <-.
  unfold Rabs in Hclose. destruct (Rcase_abs (/ 2 - 1 * / 4)); lra.
Qed.

(** ** get_optimizer *)

Lemma prefix_append (a s : string) :
  String.prefix a s = true <-> exists post, s = (a ++ post)%string.
Proof.
  revert s. induction a as [| c a IH]; intros s.
  - destruct s; simpl; split; intros _; try reflexivity; eexists; reflexivity.
  - destruct s as [| d s]; simpl.
    + split; [discriminate | intros [post H]; discriminate].
    + destruct (ascii_dec c d) as [-> | Hne].
      * rewrite IH. split; intros [post H]; exists post.
        -- rewrite H. reflexivity.
        -- injection H as H. exact H.
      * split; [discriminate |].
        intros [post H]. injection H as H1 _. congruence.
Qed.

Lemma py_in_unfold (sub s : string) :
  py_in sub s =
  if String.prefix sub s then true
  else match s with
       | EmptyString => false
       | String _ s' => py_in sub s'
       end.
Proof. destruct s; reflexivity. Qed.

(** [py_in sub s] holds exactly when [sub] occurs in [s]. *)
Lemma py_in_occurs (sub s : string) :
  py_in sub s = true <-> exists pre post, s = (pre ++ sub ++ post)%string.
Proof.
  induction s as [| c s IH].
  - rewrite py_in_unfold. destruct (String.prefix sub EmptyString) eqn:E.
    + split; [intros _ | reflexivity].
      apply prefix_append in E. destruct E as [post E].
      exists EmptyString, post. exact E.
    + split; [discriminate |].
      intros [pre [post H]]. destruct pre; simpl in H.
      * assert (P : String.prefix sub EmptyString = true)
          by (apply prefix_append; exists post; exact H).
        congruence.
      * discriminate.
  - rewrite py_in_unfold. destruct (String.prefix sub (String c s)) eqn:E.
    + split; [intros _ | reflexivity].
      apply prefix_append in E. destruct E as [post E].
      exists EmptyString, post. exact E.
    + rewrite IH. split.
      * intros [pre [post H]]. exists (String c pre), post. simpl. rewrite H. reflexivity.
      * intros [pre [post H]]. destruct pre as [| d pre]; simpl in H.
        -- assert (P : String.prefix sub (String c s) = true)
             by (apply prefix_append; exists post; exact H).
           congruence.
        -- injection H as _ H. exists pre, post. exact H.
Qed.

Section OptimizerProperties.
Context {T : Torch} {C : Collaborators}.

(** C6. Called with [bn_weight_decay = False], [get_optimizer] builds the
    optimizer from two groups: the parameters whose name contains ["bn"],
    with [weight_decay = 0], and the remaining ones, with the configured
    [weight_decay]; the two groups partition the parameters (every named
    parameter is in the first group if its name contains ["bn"] and in the
    second if not, and nothing else is in them). This is the optimizer
    returned when no saved state is given, and the one whose
    [load_state_dict] restores the state otherwise. *)
Theorem get_optimizer_bn_split
    (parameters : list (string * param)) (fp16 : bool)
    (lr0 momentum0 weight_decay0 : R) (nesterov0 : bool)
    (state : option StateDict)
    (static_loss_scale : R) (dynamic_loss_scale : bool) :
  let has_bn := fun n : string => exists pre post, n = (pre ++ "bn" ++ post)%string in
  exists bn_params rest_params : list param,
    let built :=
      {| param_groups :=
           [ {| params := bn_params; lr := lr0; momentum := momentum0;
                weight_decay := 0; nesterov := nesterov0 |};
             {| params := rest_params; lr := lr0; momentum := momentum0;
                weight_decay := weight_decay0; nesterov := nesterov0 |} ];
         opt_state := fresh_state |} in
    get_optimizer parameters fp16 lr0 momentum0 weight_decay0 nesterov0 state
      static_loss_scale dynamic_loss_scale false
    = match state with
      | None => built
      | Some st => opt_load_state_dict built st
      end /\
    (forall v, In v bn_params <-> exists n, In (n, v) parameters /\ has_bn n) /\
    (forall v, In v rest_params <-> exists n, In (n, v) parameters /\ ~ has_bn n) /\
    (List.length bn_params + List.length rest_params = List.length parameters)%nat.
Proof.
  intros has_bn.
  exists (map snd (filter (fun nv => py_in "bn" (fst nv)) parameters)),
         (map snd (filter (fun nv => negb (py_in "bn" (fst nv))) parameters)).
  split; [reflexivity |]. split; [| split].
  - intros v. rewrite in_map_iff. split.
    + intros [[n v'] [Hv Hin]]. simpl in Hv. subst v'.
      apply filter_In in Hin. destruct Hin as [Hin Hbn]. simpl in Hbn.
      exists n. split; [exact Hin | apply py_in_occurs; exact Hbn].
    + intros [n [Hin Hbn]]. exists (n, v). split; [reflexivity |].
      apply filter_In. split; [exact Hin | apply py_in_occurs; exact Hbn].
  - intros v. rewrite in_map_iff. split.
    + intros [[n v'] [Hv Hin]]. simpl in Hv. subst v'.
      apply filter_In in Hin. destruct Hin as [Hin Hbn]. simpl in Hbn.
      exists n. split; [exact Hin |].
      intros Hocc. apply py_in_occurs in Hocc. rewrite Hocc in Hbn. discriminate.
    + intros [n [Hin Hbn]]. exists (n, v). split; [reflexivity |].
      apply filter_In. split; [exact Hin |]. simpl.
      destruct (py_in "bn" n) eqn:E; [| reflexivity].
      exfalso. apply Hbn. apply py_in_occurs. exact E.
  - rewrite !length_map.
    induction parameters as [| [n v] l IH]; [reflexivity |].
    simpl. destruct (py_in "bn" n); simpl; lia.
Qed.

End OptimizerProperties.

(** ** The train step *)

Section TrainStep.
Context {T : Torch} {C : Collaborators}.

(** C9. On the path that runs the backward pass itself ([fp16] and
    [use_amp] off), whatever the batch, the accumulation flag, the
    multiplier and the state of the world, the train step returns, with
    zero for top-1 and top-5 accuracy, and as loss the loss of the forward
    pass, reduced across workers when the distributed runtime is
    initialized. *)
Theorem train_step_accuracy_stubbed
    (fp16 use_amp : bool) (batch_size_multiplier : Z)
    (input target : Tensor) (optimizer_step : bool) (w : World) :
  fp16 = false ->
  use_amp = false ->
  let loss :=
    fst (ModelAndLoss_forward (param_groups (optimizer w)) (training w)
           input target) in
  fst (get_train_step fp16 use_amp batch_size_multiplier input target
         optimizer_step w)
  = Ok (if is_initialized then utils_reduce_tensor loss else loss, 0%R, 0%R).
Proof.
  intros -> ->.
  unfold get_train_step, ModelAndLoss_forward, bind, gets, when, ret, modify,
    optimizer_step_call, optimizer_zero_grad_call.
  destruct optimizer_step; reflexivity.
Qed.

End TrainStep.

(** The weight-decay split on the names ["bn1.weight"] and ["fc.weight"]. *)
Example get_optimizer_two_names (p q : @param example_torch) (wd : R) :
  param_groups (get_optimizer [("bn1.weight"%string, p); ("fc.weight"%string, q)]
                  false 0.1 0.9 wd false None 1 false false)
  = [ {| params := [p]; lr := 0.1; momentum := 0.9; weight_decay := 0;
         nesterov := false |};
      {| params := [q]; lr := 0.1; momentum := 0.9; weight_decay := wd;
         nesterov := false |} ].
Proof. reflexivity. Qed.

(** ** Rules for runs *)

Section RunRules.
Context {S : Type}.

Lemma returns_ret {A : Type} (a : A) (s : S) (Q : A -> S -> Prop) :
  Q a s -> returns (ret a) s Q.
Proof. intros H. exists a, s. split; [reflexivity | exact H]. Qed.

Lemma returns_bind {A B : Type} (m : M S A) (k : A -> M S B) (s : S)
    (Q : B -> S -> Prop) :
  returns m s (fun a s' => returns (k a) s' Q) -> returns (bind m k) s Q.
Proof.
  intros [a [s' [Hm [b [s'' [Hk HQ]]]]]].
  exists b, s''. split; [| exact HQ].
  unfold bind. rewrite Hm. exact Hk.
Qed.

Lemma returns_modify (f : S -> S) (s : S) (Q : unit -> S -> Prop) :
  Q tt (f s) -> returns (modify f) s Q.
Proof. intros H. exists tt, (f s). split; [reflexivity | exact H]. Qed.

Lemma returns_gets {A : Type} (f : S -> A) (s : S) (Q : A -> S -> Prop) :
  Q (f s) s -> returns (gets f) s Q.
Proof. intros H. exists (f s), s. split; [reflexivity | exact H]. Qed.

Lemma returns_lift {A : Type} (o : outcome A) (a : A) (s : S)
    (Q : A -> S -> Prop) :
  o = Ok a -> Q a s -> returns (lift o) s Q.
Proof. intros -> H. exists a, s. split; [reflexivity | exact H]. Qed.

Lemma returns_weaken {A : Type} (m : M S A) (s : S) (Q Q' : A -> S -> Prop) :
  returns m s Q -> (forall a s', Q a s' -> Q' a s') -> returns m s Q'.
Proof.
  intros [a [s' [Hm HQ]]] Himp. exists a, s'. split; [exact Hm | auto].
Qed.

Lemma raises_bind_left {A B : Type} (m : M S A) (k : A -> M S B) (s : S)
    (e : exn) :
  raises m s e -> raises (bind m k) s e.
Proof.
  intros [s' Hm]. exists s'. unfold bind. rewrite Hm. reflexivity.
Qed.

Lemma raises_bind_right {A B : Type} (m : M S A) (k : A -> M S B) (s : S)
    (e : exn) :
  returns m s (fun a s' => raises (k a) s' e) -> raises (bind m k) s e.
Proof.
  intros [a [s' [Hm [s'' Hk]]]]. exists s''.
  unfold bind. rewrite Hm. exact Hk.
Qed.

End RunRules.

Lemma truediv_float_nonzero (n : Z) (t : R) :
  t <> 0%R -> truediv_float n t = Ok (IZR n / t)%R.
Proof.
  intros Ht. unfold truediv_float.
  destruct (Req_dec_T t 0) as [E | _]; [contradiction | reflexivity].
Qed.

Lemma py_mod_nonzero (a b : Z) : b <> 0 -> py_mod a b = Ok (a mod b).
Proof.
  intros Hb. unfold py_mod.
  destruct (Z.eqb_spec b 0) as [E | _]; [contradiction | reflexivity].
Qed.

(** ** Rules for the actions on the world *)

Section WorldRules.
Context {T : Torch} {C : Collaborators}.

Lemma returns_method (c : log_call) (w : World) (Q : unit -> World -> Prop) :
  Q tt (add_log c w) -> returns (method (Some the_logger) c) w Q.
Proof. intros H. exists tt, (add_log c w). split; [reflexivity | exact H]. Qed.

Lemma returns_time_time (w : World) (Q : R -> World -> Prop) :
  Q (clock (ticks w)) (tick w) -> returns time_time w Q.
Proof. intros H. exists (clock (ticks w)), (tick w). split; [reflexivity | exact H]. Qed.

Lemma returns_calc_ips (bs : Z) (t : R) (w : World) (Q : R -> World -> Prop) :
  t <> 0%R -> (forall x, Q x w) -> returns (lift (calc_ips bs t)) w Q.
Proof.
  intros Ht HQ. eapply returns_lift; [| apply HQ].
  unfold calc_ips. apply truediv_float_nonzero. exact Ht.
Qed.

(** The scheduler leaves the calls and the clock alone. *)
Lemma returns_alr (s : scheduler) (i e : Z) (w : World)
    (Q : unit -> World -> Prop) :
  (exists x, lr_fn s i e = Ok x) ->
  (forall w', calls w' = calls w -> ticks w' = ticks w -> Q tt w') ->
  returns (_alr s i e) w Q.
Proof.
  intros [x Hx] HQ. unfold _alr.
  apply returns_bind. eapply returns_lift; [exact Hx |].
  apply returns_bind.
  destruct (lr_logger s) as [[] |]; simpl.
  - apply returns_method. apply returns_modify. apply HQ; reflexivity.
  - apply returns_ret. apply returns_modify. apply HQ; reflexivity.
Qed.

(** What a train step does to the world, on each of the three branches as
    [get_train_step] models them. *)
Lemma returns_get_train_step (fp16 use_amp : bool) (m : Z) (x y : Tensor)
    (flag : bool) (w : World) (Q : R * R * R -> World -> Prop) :
  (forall r w',
     optimizer w' =
       (if flag
        then opt_zero_grad (opt_step (div_grads m (after_backward fp16 use_amp x y w)))
        else after_backward fp16 use_amp x y w) ->
     calls w' = calls w ++
       (if flag
        then [optimizer_step_called (div_grads m (after_backward fp16 use_amp x y w));
              optimizer_zero_grad_called]
        else []) ->
     ticks w' = ticks w -> log w' = log w -> training w' = training w ->
     Q r w') ->
  returns (get_train_step fp16 use_amp m x y flag) w Q.
Proof.
  intros HQ. unfold returns, get_train_step, after_backward in *.
  unfold ModelAndLoss_forward, bind, gets, when, ret, modify,
    optimizer_step_call, optimizer_zero_grad_call, bind, gets, modify.
  destruct fp16, use_amp, flag; simpl;
    (eexists; eexists; split; [reflexivity |]);
    apply HQ; simpl; rewrite <- ?app_assoc, ?app_nil_r; reflexivity.
Qed.

End WorldRules.

Section TrainRuns.
Context {T : Torch} {C : Collaborators}.

Lemma clock_increasing (j k : nat) :
  clock_advances -> (j < k)%nat -> (clock j < clock k)%R.
Proof.
  intros Hc Hjk. induction Hjk as [| k Hjk IH].
  - apply Hc.
  - eapply Rlt_trans; [exact IH | apply Hc].
Qed.

Lemma train_steps_app (a b : list call) :
  train_steps (a ++ b) = train_steps a ++ train_steps b.
Proof.
  induction a as [| c a IH]; [reflexivity |].
  destruct c; simpl; rewrite IH; reflexivity.
Qed.

(** The loop of [train] returns; it invokes the step on the batches before
    the break, with the accumulation flag of their index, and the
    optimizer steps after exactly the flagged ones. *)
Lemma train_for_returns (s : scheduler) (fp16 : bool)
    (logger : option logger_ref) (epoch : Z) (use_amp : bool) (prof m : Z) :
  m <> 0 ->
  (forall i, exists x, lr_fn s i epoch = Ok x) ->
  forall (data_iter : list (Z * batch)) (end_ : R) (w : World),
    timed logger end_ w ->
    returns (train_for s fp16 logger epoch use_amp prof m data_iter end_) w
      (fun _ w' =>
         exists tr,
           calls w' = calls w ++ tr /\
           train_steps tr
             = map (train_step_of m) (take_until (train_breaks prof) data_iter) /\
           (forall last,
              updated_after last tr
              = filter (fun i => (i + 1) mod m =? 0)
                       (map fst (take_until (train_breaks prof) data_iter))) /\
           checkpoints tr = []).
Proof.
  intros Hm Hlr data_iter.
  induction data_iter as [| [i [x y]] rest IH]; intros end_ w Htimed.
  - apply returns_ret. exists []. rewrite app_nil_r. repeat split.
  - cbn [train_for take_until].
    apply returns_bind. apply returns_alr; [apply Hlr |].
    intros w1 Hc1 Ht1.
    apply returns_bind. apply returns_time_time.
    fold (train_breaks prof i).
    destruct (train_breaks prof i) eqn:Hbrk.
    + apply returns_ret. exists []. rewrite app_nil_r. simpl.
      repeat split. exact Hc1.
    + apply returns_bind. eapply returns_lift; [apply py_mod_nonzero; exact Hm |].
      apply returns_bind. apply returns_modify.
      apply returns_bind. apply returns_get_train_step.
      intros [[loss p1] p5] w2 Ho2 Hc2 Ht2 _ _.
      simpl in Hc2, Ht2.
      apply returns_bind. apply returns_time_time.
      apply returns_bind.
      assert (Hlog :
        returns
          (when (is_not_None logger)
             (method logger (log_metric "train.top1" p1) ;;
              method logger (log_metric "train.top5" p5) ;;
              method logger (log_metric "train.loss" loss) ;;
              compute_ips <- lift (calc_ips (tensor_size0 x)
                                     (clock (ticks w2) - end_
                                      - (clock (ticks w1) - end_))) ;;
              method logger (log_metric "train.compute_ips" compute_ips) ;;
              total_ips <- lift (calc_ips (tensor_size0 x) (clock (ticks w2) - end_)) ;;
              method logger (log_metric "train.total_ips" total_ips) ;;
              method logger (log_metric "train.data_time" (clock (ticks w1) - end_)) ;;
              method logger (log_metric "train.compute_time"
                               (clock (ticks w2) - end_ - (clock (ticks w1) - end_)))))
          (tick w2)
          (fun _ w3 => calls w3 = calls w2 /\ ticks w3 = S (ticks w2))).
      { destruct Htimed as [-> | [Hadv [k [Hk Hend]]]].
        - apply returns_ret. split; reflexivity.
        - destruct logger as [[] |]; [| apply returns_ret; split; reflexivity].
          simpl when.
          assert (H12 : (clock (ticks w1) < clock (ticks w2))%R).
          { apply clock_increasing; [exact Hadv |]. rewrite Ht2. simpl. lia. }
          assert (Hk2 : (clock k < clock (ticks w2))%R).
          { apply clock_increasing; [exact Hadv |]. rewrite Ht2, Ht1. simpl. lia. }
          repeat (apply returns_bind; apply returns_method).
          apply returns_bind. apply returns_calc_ips; [lra |]. intros c1.
          apply returns_bind. apply returns_method.
          apply returns_bind. apply returns_calc_ips; [lra |]. intros c2.
          repeat (apply returns_bind; apply returns_method).
          apply returns_method. split; reflexivity. }
      eapply returns_weaken; [exact Hlog |].
      intros _ w3 [Hc3 Ht3].
      apply returns_bind. apply returns_time_time.
      eapply returns_weaken.
      * apply IH. destruct Htimed as [-> | [Hadv _]]; [left; reflexivity |].
        right. split; [exact Hadv |]. exists (ticks w3). split; [simpl; lia | reflexivity].
      * intros _ w' [tr [Hc [Hs [Hu Hk]]]].
        simpl in Hc. rewrite Hc3, Hc2, Hc1 in Hc.
        eexists. split; [rewrite Hc, <- !app_assoc; reflexivity |].
        unfold train_step_of at 1. cbn [map fst snd filter].
        destruct ((i + 1) mod m =? 0); cbn [app train_steps updated_after checkpoints];
          rewrite Hs; repeat split; try (intros last; rewrite Hu; reflexivity);
          exact Hk.
Qed.


Lemma val_steps_app (a b : list call) :
  val_steps (a ++ b) = val_steps a ++ val_steps b.
Proof.
  induction a as [| c a IH]; [reflexivity |].
  destruct c; simpl; rewrite IH; reflexivity.
Qed.

Lemma returns_get_val_step (x y : Tensor) (w : World)
    (Q : R * R * R -> World -> Prop) :
  (forall r, Q r w) -> returns (get_val_step x y) w Q.
Proof.
  intros HQ. unfold returns, get_val_step, ModelAndLoss_forward, bind, gets, ret.
  destruct (utils_accuracy _ _) as [p1 p5].
  destruct is_initialized; eexists; eexists; (split; [reflexivity | apply HQ]).
Qed.

(** The loop of [validate] returns; it invokes the step on the batches
    before the break. *)
Lemma validate_for_returns (logger : option logger_ref) (prof : Z) :
  forall (data_iter : list (Z * batch)) (end_ : R) (top1 : list (R * Z)) (w : World),
    timed logger end_ w ->
    returns (validate_for logger prof data_iter end_ top1) w
      (fun _ w' =>
         exists tr,
           calls w' = calls w ++ tr /\
           val_steps tr = take_until (validate_breaks prof) data_iter /\
           train_steps tr = [] /\
           (forall last, updated_after last tr = []) /\
           checkpoints tr = []).
Proof.
  intros data_iter.
  induction data_iter as [| [i [x y]] rest IH]; intros end_ top1 w Htimed.
  - apply returns_ret. exists []. rewrite app_nil_r. repeat split.
  - cbn [validate_for take_until].
    apply returns_bind. apply returns_time_time.
    fold (validate_breaks prof i).
    destruct (validate_breaks prof i) eqn:Hbrk.
    + apply returns_ret. exists []. rewrite app_nil_r. repeat split.
    + apply returns_bind. apply returns_modify.
      apply returns_bind. apply returns_get_val_step.
      intros [[loss p1] p5].
      apply returns_bind. apply returns_time_time.
      cbn [ticks tick add_call].
      apply returns_bind.
      assert (Hlog :
        returns
          (when (is_not_None logger)
             (method logger (log_metric "val.top1" p1) ;;
              method logger (log_metric "val.top5" p5) ;;
              method logger (log_metric "val.loss" loss) ;;
              compute_ips <- lift (calc_ips (tensor_size0 x)
                                     (clock (S (ticks w)) - end_
                                      - (clock (ticks w) - end_))) ;;
              method logger (log_metric "val.compute_ips" compute_ips) ;;
              total_ips <- lift (calc_ips (tensor_size0 x) (clock (S (ticks w)) - end_)) ;;
              method logger (log_metric "val.total_ips" total_ips) ;;
              method logger (log_metric "val.data_time" (clock (ticks w) - end_)) ;;
              method logger (log_metric "val.compute_time"
                               (clock (S (ticks w)) - end_ - (clock (ticks w) - end_)))))
          (tick (add_call (val_step_called i x y) (tick w)))
          (fun _ w3 => calls w3 = calls w ++ [val_step_called i x y] /\
                       ticks w3 = S (S (ticks w)))).
      { destruct Htimed as [-> | [Hadv [k [Hk Hend]]]].
        - apply returns_ret. split; reflexivity.
        - destruct logger as [[] |]; [| apply returns_ret; split; reflexivity].
          simpl when.
          assert (H12 : (clock (ticks w) < clock (S (ticks w)))%R) by apply Hadv.
          assert (Hk2 : (clock k < clock (S (ticks w)))%R).
          { apply clock_increasing; [exact Hadv | lia]. }
          repeat (apply returns_bind; apply returns_method).
          apply returns_bind. apply returns_calc_ips; [lra |]. intros c1.
          apply returns_bind. apply returns_method.
          apply returns_bind. apply returns_calc_ips; [lra |]. intros c2.
          repeat (apply returns_bind; apply returns_method).
          apply returns_method. split; reflexivity. }
      eapply returns_weaken; [exact Hlog |].
      intros _ w3 [Hc3 Ht3].
      apply returns_bind. apply returns_time_time.
      eapply returns_weaken.
      * apply IH. destruct Htimed as [-> | [Hadv _]]; [left; reflexivity |].
        right. split; [exact Hadv |]. exists (ticks w3). split; [simpl; lia | reflexivity].
      * intros top1' w' [tr [Hc [Hs [Hts [Hu Hk]]]]].
        simpl in Hc. rewrite Hc3 in Hc.
        eexists. split; [rewrite Hc, <- !app_assoc; reflexivity |].
        cbn [app val_steps train_steps updated_after checkpoints].
        rewrite Hs. repeat split; assumption.
Qed.

Lemma skipn_new (A : Type) (l tr : list A) : skipn (List.length l) (l ++ tr) = tr.
Proof. induction l; simpl; auto. Qed.

(** [train] returns; seen from outside, its calls are one
    [optimizer.zero_grad()] and those of its loop. *)
Lemma train_returns (train_loader : list batch) (s : scheduler) (fp16 : bool)
    (logger : option logger_ref) (epoch : Z) (use_amp : bool) (prof m : Z)
    (register_metrics : bool) (w : World) :
  m <> 0 ->
  (forall i, exists x, lr_fn s i epoch = Ok x) ->
  logger = None \/ clock_advances ->
  returns (train train_loader s fp16 logger epoch use_amp prof m register_metrics) w
    (fun _ w' =>
       exists tr,
         calls w' = calls w ++ tr /\
         train_steps tr
           = map (train_step_of m)
                 (take_until (train_breaks prof) (enumerate train_loader)) /\
         (forall last,
            updated_after last tr
            = filter (fun i => (i + 1) mod m =? 0)
                     (map fst (take_until (train_breaks prof) (enumerate train_loader)))) /\
         checkpoints tr = []).
Proof.
  intros Hm Hlr Hlog. unfold train.
  apply returns_bind.
  assert (Hreg : forall (c : bool) (k : M World unit) (w0 : World),
             (c = true -> returns k w0 (fun _ w1 => calls w1 = calls w0 /\ ticks w1 = ticks w0)) ->
             returns (when c k) w0 (fun _ w1 => calls w1 = calls w0 /\ ticks w1 = ticks w0)).
  { intros [|] k w0 Hk; [apply Hk; reflexivity | apply returns_ret; split; reflexivity]. }
  eapply returns_weaken.
  { apply Hreg. intros Hc. apply andb_prop in Hc. destruct Hc as [_ Hc].
    destruct logger as [[] |]; [| discriminate].
    repeat (apply returns_bind; apply returns_method).
    apply returns_method. split; reflexivity. }
  intros _ w1 [Hc1 Ht1].
  apply returns_bind. apply returns_modify.
  apply returns_bind. apply returns_time_time.
  apply returns_bind. unfold optimizer_zero_grad_call.
  apply returns_bind. apply returns_modify. apply returns_modify.
  apply returns_bind.
  eapply returns_weaken.
  { apply Hreg. intros Hc.
    destruct logger as [[] |]; [| discriminate].
    apply returns_method. split; reflexivity. }
  intros _ w2 [Hc2 Ht2]. simpl in Hc2, Ht2.
  eapply returns_weaken.
  { apply train_for_returns; [exact Hm | exact Hlr |].
    destruct Hlog as [-> | Hadv]; [left; reflexivity |].
    right. split; [exact Hadv |]. exists (ticks w1). split; [lia | reflexivity]. }
  intros _ w' [tr [Hc [Hs [Hu Hk]]]].
  exists (optimizer_zero_grad_called :: tr).
  split; [| split; [| split]].
  - rewrite Hc, Hc2, Hc1, <- app_assoc. reflexivity.
  - exact Hs.
  - intros last. simpl. apply Hu.
  - exact Hk.
Qed.

(** [validate] returns. *)
Lemma validate_returns (val_loader : list batch) (fp16 : bool)
    (logger : option logger_ref) (epoch : Z) (prof : Z)
    (register_metrics : bool) (w : World) :
  logger = None \/ clock_advances ->
  returns (validate val_loader fp16 logger epoch prof register_metrics) w
    (fun _ w' =>
       exists tr,
         calls w' = calls w ++ tr /\
         val_steps tr = take_until (validate_breaks prof) (enumerate val_loader) /\
         train_steps tr = [] /\
         (forall last, updated_after last tr = []) /\
         checkpoints tr = []).
Proof.
  intros Hlog. unfold validate.
  apply returns_bind.
  assert (Hreg : forall (c : bool) (k : M World unit) (w0 : World),
             (c = true -> returns k w0 (fun _ w1 => calls w1 = calls w0 /\ ticks w1 = ticks w0)) ->
             returns (when c k) w0 (fun _ w1 => calls w1 = calls w0 /\ ticks w1 = ticks w0)).
  { intros [|] k w0 Hk; [apply Hk; reflexivity | apply returns_ret; split; reflexivity]. }
  eapply returns_weaken.
  { apply Hreg. intros Hc. apply andb_prop in Hc. destruct Hc as [_ Hc].
    destruct logger as [[] |]; [| discriminate].
    repeat (apply returns_bind; apply returns_method).
    apply returns_method. split; reflexivity. }
  intros _ w1 [Hc1 Ht1].
  apply returns_bind. apply returns_modify.
  apply returns_bind. apply returns_time_time.
  apply returns_bind.
  eapply returns_weaken.
  { apply Hreg. intros Hc.
    destruct logger as [[] |]; [| discriminate].
    apply returns_method. split; reflexivity. }
  intros _ w2 [Hc2 Ht2]. simpl in Hc2, Ht2.
  apply returns_bind.
  eapply returns_weaken.
  { apply validate_for_returns.
    destruct Hlog as [-> | Hadv]; [left; reflexivity |].
    right. split; [exact Hadv |]. exists (ticks w1). split; [lia | reflexivity]. }
  intros top1 w' [tr [Hc [Hs Hrest]]].
  apply returns_ret.
  exists tr. split; [rewrite Hc, Hc2, Hc1; reflexivity |].
  split; [exact Hs | exact Hrest].
Qed.

End TrainRuns.

(** ** The epoch loops: accumulation and the profiling limit *)

Lemma enumerate_from_length (A : Type) (i : Z) (l : list A) :
  List.length (enumerate_from i l) = List.length l.
Proof.
  revert i. induction l as [| x l IH]; intros i; simpl; [| rewrite IH]; reflexivity.
Qed.

(** With no limit the loops take every batch. *)
Lemma take_until_never (A : Type) (brk : Z -> bool) (l : list (Z * A)) :
  (forall i, brk i = false) -> take_until brk l = l.
Proof.
  intros Hb. induction l as [| [i x] l IH]; simpl; [reflexivity |].
  rewrite Hb, IH. reflexivity.
Qed.

(** With a limit [prof > 0], [train] takes the batches of index below
    [prof], and [validate] those of index up to [prof]. *)
Lemma take_until_train (A : Type) (prof i : Z) (l : list A) :
  prof > 0 ->
  take_until (train_breaks prof) (enumerate_from i l)
  = firstn (Z.to_nat (prof - i)) (enumerate_from i l).
Proof.
  intros Hp. revert i. induction l as [| x l IH]; intros i; simpl.
  - rewrite firstn_nil. reflexivity.
  - unfold train_breaks at 1.
    destruct (Z.gtb_spec prof 0) as [_ | Hn]; [| lia]. simpl.
    destruct (Z.geb_spec i prof) as [Hge | Hlt].
    + replace (Z.to_nat (prof - i)) with 0%nat by lia. reflexivity.
    + replace (Z.to_nat (prof - i)) with (S (Z.to_nat (prof - (i + 1)))) by lia.
      simpl. rewrite IH. reflexivity.
Qed.

Lemma take_until_validate (A : Type) (prof i : Z) (l : list A) :
  prof > 0 ->
  take_until (validate_breaks prof) (enumerate_from i l)
  = firstn (Z.to_nat (prof + 1 - i)) (enumerate_from i l).
Proof.
  intros Hp. revert i. induction l as [| x l IH]; intros i; simpl.
  - rewrite firstn_nil. reflexivity.
  - unfold validate_breaks at 1.
    destruct (Z.gtb_spec prof 0) as [_ | Hn]; [| lia]. simpl.
    destruct (Z.gtb_spec i prof) as [Hgt | Hle].
    + replace (Z.to_nat (prof + 1 - i)) with 0%nat by lia. reflexivity.
    + replace (Z.to_nat (prof + 1 - i)) with (S (Z.to_nat (prof + 1 - (i + 1)))) by lia.
      simpl. rewrite IH. reflexivity.
Qed.

Lemma map_fst_train_step_of (T : Torch) (m : Z) (l : list (Z * batch)) :
  map fst (map (train_step_of m) l) = l.
Proof.
  induction l as [| [i b] l IH]; simpl; [| rewrite IH]; reflexivity.
Qed.

Section EpochLoops.
Context {T : Torch} {C : Collaborators}.

Lemma returns_run {A : Type} (m : M World A) (w : World) (Q : A -> World -> Prop) :
  returns m w Q -> exists a, fst (m w) = Ok a /\ Q a (snd (m w)).
Proof.
  intros [a [w' [E HQ]]]. exists a. rewrite E. split; [reflexivity | exact HQ].
Qed.


(** C7. With a profiling limit [prof > 0], the train loop (on the path
    that runs the backward pass itself, [fp16] and [use_amp] off) invokes
    its step on the batches of index [0 .. prof-1] only and the validate
    loop on those of index [0 .. prof]: the first [prof], respectively
    [prof + 1], batches of the loader (all of them if it has fewer). *)
Theorem profiling_limit_asymmetry
    (train_loader val_loader : list batch) (s : scheduler) (fp16 : bool)
    (logger : option logger_ref) (epoch : Z) (use_amp : bool) (prof m : Z)
    (register_metrics : bool) (w : World) :
  fp16 = false ->
  use_amp = false ->
  prof > 0 ->
  m <> 0 ->
  (forall i, exists x, lr_fn s i epoch = Ok x) ->
  logger = None \/ clock_advances ->
  let t := train train_loader s fp16 logger epoch use_amp prof m register_metrics w in
  let v := validate val_loader fp16 logger epoch prof register_metrics w in
  fst t = Ok tt /\
  map fst (train_steps (new_calls w (snd t)))
    = firstn (Z.to_nat prof) (enumerate train_loader) /\
  List.length (train_steps (new_calls w (snd t)))
    = Nat.min (Z.to_nat prof) (List.length train_loader) /\
  (exists top1, fst v = Ok top1) /\
  val_steps (new_calls w (snd v))
    = firstn (Z.to_nat prof + 1) (enumerate val_loader) /\
  List.length (val_steps (new_calls w (snd v)))
    = Nat.min (Z.to_nat prof + 1) (List.length val_loader).
Proof.
  intros Hfp16 Hamp Hp Hm Hlr Hlog t v.
  destruct (returns_run _ _ _
              (train_returns train_loader s fp16 logger epoch use_amp prof m
                 register_metrics w Hm Hlr Hlog))
    as [[] [Hok [tr [Hc [Hs _]]]]].
  destruct (returns_run _ _ _
              (validate_returns val_loader fp16 logger epoch prof
                 register_metrics w Hlog))
    as [top1 [Hvok [trv [Hvc [Hvs _]]]]].
  fold t in Hok, Hc. fold v in Hvok, Hvc.
  assert (Hnew : new_calls w (snd t) = tr)
    by (unfold new_calls; rewrite Hc; apply skipn_new).
  assert (Hvnew : new_calls w (snd v) = trv)
    by (unfold new_calls; rewrite Hvc; apply skipn_new).
  rewrite Hnew, Hvnew, Hs, Hvs.
  unfold enumerate.
  rewrite take_until_train, take_until_validate by exact Hp.
  rewrite map_fst_train_step_of, length_map, !length_firstn, !enumerate_from_length.
  replace (Z.to_nat (prof - 0)) with (Z.to_nat prof) by lia.
  replace (Z.to_nat (prof + 1 - 0)) with (Z.to_nat prof + 1)%nat by lia.
  split; [exact Hok |]. split; [reflexivity |]. split; [reflexivity |].
  split; [exists top1; exact Hvok |]. split; reflexivity.
Qed.

(** C10. With a profiling limit that is not positive (the default [-1],
    or [0]) neither loop exits early: train (on the path that runs the
    backward pass itself, [fp16] and [use_amp] off) and validate invoke
    their step on every batch of the loader, in order. *)
Theorem no_profiling_limit
    (train_loader val_loader : list batch) (s : scheduler) (fp16 : bool)
    (logger : option logger_ref) (epoch : Z) (use_amp : bool) (prof m : Z)
    (register_metrics : bool) (w : World) :
  fp16 = false ->
  use_amp = false ->
  prof <= 0 ->
  m <> 0 ->
  (forall i, exists x, lr_fn s i epoch = Ok x) ->
  logger = None \/ clock_advances ->
  let t := train train_loader s fp16 logger epoch use_amp prof m register_metrics w in
  let v := validate val_loader fp16 logger epoch prof register_metrics w in
  fst t = Ok tt /\
  map fst (train_steps (new_calls w (snd t))) = enumerate train_loader /\
  List.length (train_steps (new_calls w (snd t))) = List.length train_loader /\
  (exists top1, fst v = Ok top1) /\
  val_steps (new_calls w (snd v)) = enumerate val_loader /\
  List.length (val_steps (new_calls w (snd v))) = List.length val_loader.
Proof.
  intros Hfp16 Hamp Hp Hm Hlr Hlog t v.
  destruct (returns_run _ _ _
              (train_returns train_loader s fp16 logger epoch use_amp prof m
                 register_metrics w Hm Hlr Hlog))
    as [[] [Hok [tr [Hc [Hs _]]]]].
  destruct (returns_run _ _ _
              (validate_returns val_loader fp16 logger epoch prof
                 register_metrics w Hlog))
    as [top1 [Hvok [trv [Hvc [Hvs _]]]]].
  fold t in Hok, Hc. fold v in Hvok, Hvc.
  assert (Hnew : new_calls w (snd t) = tr)
    by (unfold new_calls; rewrite Hc; apply skipn_new).
  assert (Hvnew : new_calls w (snd v) = trv)
    by (unfold new_calls; rewrite Hvc; apply skipn_new).
  rewrite Hnew, Hvnew, Hs, Hvs.
  assert (Hoff : (prof >? 0) = false).
  { destruct (Z.gtb_spec prof 0); [lia | reflexivity]. }
  rewrite !take_until_never
    by (intros i; unfold train_breaks, validate_breaks; rewrite Hoff; reflexivity).
  rewrite map_fst_train_step_of, length_map.
  unfold enumerate. rewrite !enumerate_from_length.
  split; [exact Hok |]. split; [reflexivity |]. split; [reflexivity |].
  split; [exists top1; exact Hvok |]. split; reflexivity.
Qed.

End EpochLoops.

(** ** Nothing but [train_loop] saves a checkpoint *)

Section Quiet.
Context {T : Torch} {C : Collaborators}.

Lemma checkpoints_app (a b : list call) :
  checkpoints (a ++ b) = checkpoints a ++ checkpoints b.
Proof.
  induction a as [| c a IH]; [reflexivity |].
  destruct c; simpl; rewrite IH; reflexivity.
Qed.

Lemma saves_nothing_refl (w : World) : saves_nothing w w.
Proof. exists []. rewrite app_nil_r. split; reflexivity. Qed.

Lemma saves_nothing_trans (w1 w2 w3 : World) :
  saves_nothing w1 w2 -> saves_nothing w2 w3 -> saves_nothing w1 w3.
Proof.
  intros [t1 [H1 K1]] [t2 [H2 K2]]. exists (t1 ++ t2). split.
  - rewrite H2, H1, app_assoc. reflexivity.
  - rewrite checkpoints_app, K1, K2. reflexivity.
Qed.

Lemma saves_nothing_same (w w' : World) :
  calls w' = calls w -> saves_nothing w w'.
Proof. intros H. exists []. rewrite app_nil_r. split; [exact H | reflexivity]. Qed.

Lemma quiet_ret {A : Type} (a : A) : quiet (ret a).
Proof. intros w. apply saves_nothing_refl. Qed.

Lemma quiet_raise {A : Type} (e : exn) : quiet (@raise World A e).
Proof. intros w. apply saves_nothing_refl. Qed.

Lemma quiet_lift {A : Type} (o : outcome A) : quiet (lift o).
Proof. intros w. apply saves_nothing_refl. Qed.

Lemma quiet_gets {A : Type} (f : World -> A) : quiet (gets f).
Proof. intros w. apply saves_nothing_refl. Qed.

Lemma quiet_bind {A B : Type} (m : M World A) (k : A -> M World B) :
  quiet m -> (forall a, quiet (k a)) -> quiet (bind m k).
Proof.
  intros Hm Hk w. unfold bind. specialize (Hm w).
  destruct (m w) as [[a | e] w1]; simpl in *.
  - eapply saves_nothing_trans; [exact Hm | apply Hk].
  - exact Hm.
Qed.

Lemma quiet_when (b : bool) (m : M World unit) : quiet m -> quiet (when b m).
Proof. intros Hm. destruct b; [exact Hm | apply quiet_ret]. Qed.

Lemma quiet_modify (f : World -> World) :
  (forall w, saves_nothing w (f w)) -> quiet (modify f).
Proof. intros Hf w. apply Hf. Qed.

Lemma quiet_method (logger : option logger_ref) (c : log_call) :
  quiet (method logger c).
Proof.
  destruct logger as [[] |]; intros w; simpl;
    [apply saves_nothing_same | apply saves_nothing_refl]; reflexivity.
Qed.

Lemma quiet_time_time : quiet time_time.
Proof. intros w. apply saves_nothing_same. reflexivity. Qed.

End Quiet.

(** Decomposes a goal [quiet m] along the structure of [m]. *)
Ltac quiet_step :=
  lazymatch goal with
  | |- quiet (bind _ _) => apply quiet_bind; [| intros ?]
  | |- quiet (ret _) => apply quiet_ret
  | |- quiet (raise _) => apply quiet_raise
  | |- quiet (lift _) => apply quiet_lift
  | |- quiet (gets _) => apply quiet_gets
  | |- quiet (when _ _) => apply quiet_when
  | |- quiet (method _ _) => apply quiet_method
  | |- quiet time_time => apply quiet_time_time
  | |- quiet (modify _) =>
      apply quiet_modify; intros ?;
      first [ apply saves_nothing_same; reflexivity
            | eexists; split; [reflexivity | reflexivity] ]
  | |- quiet (if ?b then _ else _) => destruct b
  | |- quiet (match ?x with _ => _ end) => destruct x
  end.

Section QuietLoops.
Context {T : Torch} {C : Collaborators}.

Lemma quiet_alr (s : scheduler) (i e : Z) : quiet (_alr s i e).
Proof. unfold _alr. repeat quiet_step. Qed.

Lemma quiet_get_train_step (fp16 use_amp : bool) (m : Z) (x y : Tensor)
    (flag : bool) : quiet (get_train_step fp16 use_amp m x y flag).
Proof.
  unfold get_train_step, optimizer_step_call, optimizer_zero_grad_call.
  repeat quiet_step.
Qed.

Lemma quiet_get_val_step (x y : Tensor) : quiet (get_val_step x y).
Proof. unfold get_val_step. repeat quiet_step. Qed.

Lemma quiet_train_for (s : scheduler) (fp16 : bool) (logger : option logger_ref)
    (epoch : Z) (use_amp : bool) (prof m : Z) (data_iter : list (Z * batch)) :
  forall end_, quiet (train_for s fp16 logger epoch use_amp prof m data_iter end_).
Proof.
  induction data_iter as [| [i [x y]] rest IH]; intros end_; cbn [train_for].
  - apply quiet_ret.
  - apply quiet_bind; [apply quiet_alr | intros _].
    apply quiet_bind; [apply quiet_time_time | intros now].
    destruct ((prof >? 0) && (i >=? prof)); [apply quiet_ret |].
    apply quiet_bind; [apply quiet_lift | intros r].
    apply quiet_bind; [quiet_step | intros _].
    apply quiet_bind; [apply quiet_get_train_step | intros [[loss p1] p5]].
    apply quiet_bind; [apply quiet_time_time | intros now'].
    apply quiet_bind; [repeat quiet_step | intros _].
    apply quiet_bind; [apply quiet_time_time | intros end'].
    apply IH.
Qed.

Lemma quiet_train (train_loader : list batch) (s : scheduler) (fp16 : bool)
    (logger : option logger_ref) (epoch : Z) (use_amp : bool) (prof m : Z)
    (register_metrics : bool) :
  quiet (train train_loader s fp16 logger epoch use_amp prof m register_metrics).
Proof.
  unfold train, optimizer_zero_grad_call.
  repeat (apply quiet_bind; [repeat quiet_step | intros ?]).
  apply quiet_train_for.
Qed.

Lemma quiet_validate_for (logger : option logger_ref) (prof : Z)
    (data_iter : list (Z * batch)) :
  forall end_ top1, quiet (validate_for logger prof data_iter end_ top1).
Proof.
  induction data_iter as [| [i [x y]] rest IH]; intros end_ top1; cbn [validate_for].
  - apply quiet_ret.
  - apply quiet_bind; [apply quiet_time_time | intros now].
    destruct ((prof >? 0) && (i >? prof)); [apply quiet_ret |].
    apply quiet_bind; [quiet_step | intros _].
    apply quiet_bind; [apply quiet_get_val_step | intros [[loss p1] p5]].
    apply quiet_bind; [apply quiet_time_time | intros now'].
    apply quiet_bind; [repeat quiet_step | intros _].
    apply quiet_bind; [apply quiet_time_time | intros end'].
    apply IH.
Qed.

Lemma quiet_validate (val_loader : list batch) (fp16 : bool)
    (logger : option logger_ref) (epoch : Z) (prof : Z) (register_metrics : bool) :
  quiet (validate val_loader fp16 logger epoch prof register_metrics).
Proof.
  unfold validate.
  apply quiet_bind; [repeat quiet_step | intros _].
  apply quiet_bind; [repeat quiet_step | intros _].
  apply quiet_bind; [repeat quiet_step | intros end_].
  apply quiet_bind; [repeat quiet_step | intros _].
  apply quiet_bind; [apply quiet_validate_for | intros top1].
  apply quiet_ret.
Qed.

(** The end of [train_loop]: the diagnostic of the [skip_training] mode
    keeps the loop's variables and, however it ends, saves no checkpoint. *)
Lemma quiet_diagnostic (skip_training : bool) (val_loader : list batch)
    (s : loop_vars * World) :
  let s' := snd (when skip_training (in_world (plot_bin_hist val_loader)) s) in
  fst s' = fst s /\ saves_nothing (snd s) (snd s').
Proof.
  destruct s as [v w]. destruct skip_training; simpl.
  - split; [reflexivity |]. eexists. split; reflexivity.
  - split; [reflexivity | apply saves_nothing_refl].
Qed.

End QuietLoops.

(** ** train_loop: the best accuracy *)

Lemma py_gt_true (x y : R) : py_gt x y = true <-> (y < x)%R.
Proof.
  unfold py_gt. destruct (Rlt_dec y x); split; intros H;
    try reflexivity; try assumption; try discriminate; contradiction.
Qed.

Lemma py_max_Rmax (x y : R) : py_max x y = Rmax x y.
Proof.
  unfold py_max, py_gt, Rmax.
  destruct (Rlt_dec x y), (Rle_dec x y); try reflexivity; lra.
Qed.

Lemma chain_app (b m b' : R) (l1 l2 : list R) :
  chain b l1 m -> chain m l2 b' -> chain b (l1 ++ l2) b'.
Proof.
  revert b. induction l1 as [| x l1 IH]; simpl; intros b H1 H2.
  - destruct l2 as [| y l2]; simpl in *.
    + lra.
    + destruct H2 as [H2 H3]. split; [lra | exact H3].
  - destruct H1 as [H1 H1']. split; [exact H1 | apply IH; assumption].
Qed.

Lemma chain_constant (b b' : R) (l : list R) :
  (b <= b')%R -> (forall x, In x l -> x = b') -> chain b l b'.
Proof.
  revert b. induction l as [| x l IH]; simpl; intros b Hb Hall.
  - exact Hb.
  - assert (Hx : x = b') by (apply Hall; left; reflexivity). subst x.
    split; [exact Hb |]. apply IH; [lra | intros y Hy; apply Hall; right; exact Hy].
Qed.

Section BestAccuracy.
Context {T : Torch} {C : Collaborators}.

Variables (lr_scheduler : scheduler) (train_loader val_loader : list batch)
  (fp16 : bool) (logger : option logger_ref) (should_backup_checkpoint : Z -> bool)
  (use_amp : bool) (batch_size_multiplier : Z) (start_epoch : Z) (prof : Z)
  (skip_training skip_validation save_checkpoints : bool)
  (checkpoint_dir : string).

(** The train phase of an epoch: the local variables stay, no checkpoint. *)
Lemma train_phase (epoch : Z) (v : loop_vars) (w : World) :
  let res := when (negb skip_training)
               (in_world (train train_loader lr_scheduler fp16 logger epoch use_amp
                                prof batch_size_multiplier (epoch =? start_epoch)))
               (v, w) in
  fst (snd res) = v /\ saves_nothing w (snd (snd res)).
Proof.
  destruct skip_training; simpl.
  - split; [reflexivity | apply saves_nothing_refl].
  - unfold in_world. simpl.
    pose proof (quiet_train train_loader lr_scheduler fp16 logger epoch use_amp
                  prof batch_size_multiplier (epoch =? start_epoch) w) as Hq.
    destruct (train _ _ _ _ _ _ _ _ _ w) as [r w1]. simpl in *.
    split; [reflexivity | exact Hq].
Qed.

(** The validation phase: [best_prec1] stays, no checkpoint is saved, and
    [prec1] becomes what [validate] returned (it stays if validation is
    skipped). *)
Lemma validate_phase (epoch : Z) (v : loop_vars) (w : World) :
  let res := when (negb skip_validation)
               (p <- in_world (validate val_loader fp16 logger epoch prof
                                        (epoch =? start_epoch)) ;;
                modify (set_prec1 p))
               (v, w) in
  best_prec1 (fst (snd res)) = best_prec1 v /\
  saves_nothing w (snd (snd res)) /\
  (fst res = Ok tt ->
   if skip_validation then prec1 (fst (snd res)) = prec1 v
   else fst (validate val_loader fp16 logger epoch prof (epoch =? start_epoch) w)
        = Ok (prec1 (fst (snd res)))).
Proof.
  destruct skip_validation; simpl.
  - split; [reflexivity |]. split; [apply saves_nothing_refl | reflexivity].
  - unfold bind, in_world, modify. simpl.
    pose proof (quiet_validate val_loader fp16 logger epoch prof
                  (epoch =? start_epoch) w) as Hq.
    destruct (validate _ _ _ _ _ _ w) as [[p | e] w1]; simpl in *;
      (split; [reflexivity |]); (split; [exact Hq |]).
    + reflexivity.
    + discriminate.
Qed.

(** One epoch of [train_loop]: calls are only added, the best accuracy does
    not decrease, and a checkpoint saved in the epoch has [is_best] set
    exactly when the [prec1] of the epoch exceeds the best accuracy before
    it, and carries their maximum, which is the new best accuracy; that
    [prec1] is what [validate] returned in the epoch, or the previous one
    if validation is skipped. *)
Lemma train_loop_epoch_effect (epoch : Z) (v : loop_vars) (w : World) :
  let s' := snd (train_loop_epoch lr_scheduler train_loader val_loader fp16 logger
                   should_backup_checkpoint use_amp batch_size_multiplier start_epoch
                   prof skip_training skip_validation save_checkpoints checkpoint_dir
                   epoch (v, w)) in
  exists tr,
    calls (snd s') = calls w ++ tr /\
    (best_prec1 v <= best_prec1 (fst s'))%R /\
    forall ck is_best,
      In (ck, is_best) (checkpoints tr) ->
      (is_best = true <-> (best_prec1 v < prec1 (fst s'))%R) /\
      ck_best_prec1 ck = Rmax (prec1 (fst s')) (best_prec1 v) /\
      best_prec1 (fst s') = ck_best_prec1 ck /\
      (if skip_validation then prec1 (fst s') = prec1 v
       else exists w1,
           fst (validate val_loader fp16 logger epoch prof (epoch =? start_epoch) w1)
           = Ok (prec1 (fst s'))).
Proof.
  intros s'. subst s'.
  remember (train_loop_epoch _ _ _ _ _ _ _ _ _ _ _ _ _ _ _ _) as res eqn:Eres.
  unfold train_loop_epoch in Eres.
  pose proof (train_phase epoch v w) as H1. cbv zeta in H1.
  unfold bind at 1 in Eres.
  destruct (when (negb skip_training) _ (v, w)) as [r1 [v1 w1]].
  simpl in H1. destruct H1 as [-> [tr1 [Hc1 Hk1]]].
  destruct r1 as [[] | e1].
  2:{ subst res. exists tr1. simpl. split; [exact Hc1 |]. split; [lra |].
      rewrite Hk1. intros ck ib []. }
  pose proof (validate_phase epoch v w1) as H2. cbv zeta in H2.
  unfold bind at 1 in Eres.
  destruct (when (negb skip_validation) _ (v, w1)) as [r2 [v2 w2]].
  simpl in H2. destruct H2 as [Hb2 [[tr2 [Hc2 Hk2]] Hp2]].
  destruct r2 as [[] | e2].
  2:{ subst res. exists (tr1 ++ tr2). simpl.
      split; [rewrite Hc2, Hc1, app_assoc; reflexivity |].
      split; [lra |].
      rewrite checkpoints_app, Hk1, Hk2. intros ck ib []. }
  specialize (Hp2 eq_refl).
  assert (Hp : if skip_validation then prec1 v2 = prec1 v
               else exists w0,
                   fst (validate val_loader fp16 logger epoch prof
                          (epoch =? start_epoch) w0) = Ok (prec1 v2)).
  { destruct skip_validation; [exact Hp2 | exists w1; exact Hp2]. }
  clear Hp2.
  unfold bind, when, gets, modify, in_world, ret, method, raise in Eres.
  destruct save_checkpoints, skip_training, is_initialized, (get_rank =? 0),
    logger as [[] |]; simpl in Eres; subst res; simpl;
    first
      [ (* no checkpoint in this epoch *)
        exists (tr1 ++ tr2);
        (split; [rewrite Hc2, Hc1, app_assoc; reflexivity |]);
        (split; [lra |]);
        rewrite checkpoints_app, Hk1, Hk2; intros ck ib []
      | (* one checkpoint *)
        eexists;
        (split; [rewrite Hc2, Hc1, <- !app_assoc; reflexivity |]);
        rewrite py_max_Rmax, <- Hb2;
        (split; [apply Rmax_r |]);
        rewrite !checkpoints_app, Hk1, Hk2; simpl;
        intros ck ib [Hin | []]; injection Hin as <- <-; simpl;
        (split; [apply py_gt_true |]); (split; [reflexivity |]);
        (split; [reflexivity | exact Hp]) ].
Qed.

Lemma train_loop_epoch_tracks (epoch : Z) (s : loop_vars * World) :
  tracks_best s
    (snd (train_loop_epoch lr_scheduler train_loader val_loader fp16 logger
            should_backup_checkpoint use_amp batch_size_multiplier start_epoch
            prof skip_training skip_validation save_checkpoints checkpoint_dir
            epoch s)).
Proof.
  destruct s as [v w].
  destruct (train_loop_epoch_effect epoch v w) as [tr [Hc [Hb Hall]]].
  exists tr. split; [exact Hc |]. split; [exact Hb |].
  intros ck ib Hin. destruct (Hall ck ib Hin) as [H1 [H2 [H3 _]]].
  repeat split; try assumption; apply H1.
Qed.

Lemma saved_bests_app (a b : list call) :
  saved_bests (a ++ b) = saved_bests a ++ saved_bests b.
Proof. unfold saved_bests. rewrite checkpoints_app, map_app. reflexivity. Qed.

(** Over the epochs, the best accuracy walks upwards through the values
    saved. *)
Lemma for_each_epoch_chain (body : Z -> M (loop_vars * World) unit) :
  (forall epoch s, tracks_best s (snd (body epoch s))) ->
  forall (epoch_iter : list Z) (s : loop_vars * World),
    let s' := snd (for_each epoch_iter body s) in
    exists tr,
      calls (snd s') = calls (snd s) ++ tr /\
      chain (best_prec1 (fst s)) (saved_bests tr) (best_prec1 (fst s')).
Proof.
  intros Hbody epoch_iter.
  induction epoch_iter as [| epoch rest IH]; intros s; simpl.
  - exists []. rewrite app_nil_r. split; [reflexivity | simpl; lra].
  - unfold bind.
    destruct (Hbody epoch s) as [tr1 [Hc1 [Hb1 Hall1]]].
    assert (Hchain1 : chain (best_prec1 (fst s)) (saved_bests tr1)
                        (best_prec1 (fst (snd (body epoch s))))).
    { apply chain_constant; [exact Hb1 |].
      intros x Hx. unfold saved_bests in Hx. apply in_map_iff in Hx.
      destruct Hx as [[ck ib] [<- Hin]]. simpl.
      destruct (Hall1 ck ib Hin) as [_ [_ H3]]. symmetry. exact H3. }
    destruct (body epoch s) as [[[] | e] s1]; simpl in *.
    + destruct (IH s1) as [tr2 [Hc2 Hchain2]].
      exists (tr1 ++ tr2). split.
      * rewrite Hc2, Hc1, app_assoc. reflexivity.
      * rewrite saved_bests_app. eapply chain_app; eassumption.
    + exists tr1. split; assumption.
Qed.

End BestAccuracy.

Section BestAccuracyTheorem.
Context {T : Torch} {C : Collaborators}.

(** C2. In [train_loop], for every epoch that saves a checkpoint, [is_best]
    is true exactly when the [prec1] of that epoch (the top-1 accuracy
    [validate] returned in it; the carried one if validation is skipped)
    strictly exceeds the best accuracy before the epoch, and the checkpoint
    carries [max(prec1, best_prec1)], which becomes the tracked best; the
    tracked best never decreases from one epoch to the next, so that over a
    whole run the saved values form a non-decreasing sequence that starts
    at or above the initial [best_prec1]. *)
Theorem best_prec1_tracking
    (lr_scheduler : scheduler) (train_loader val_loader debug_loader : list batch)
    (fp16 : bool) (logger : option logger_ref) (should_backup_checkpoint : Z -> bool)
    (use_amp : bool) (batch_size_multiplier : Z) (start_epoch : Z) (prof : Z)
    (skip_training skip_validation save_checkpoints : bool)
    (checkpoint_dir : string) :
  (forall (epoch : Z) (v : loop_vars) (w : World),
     let s' := snd (train_loop_epoch lr_scheduler train_loader val_loader fp16 logger
                      should_backup_checkpoint use_amp batch_size_multiplier
                      start_epoch prof skip_training skip_validation
                      save_checkpoints checkpoint_dir epoch (v, w)) in
     (best_prec1 v <= best_prec1 (fst s'))%R /\
     forall ck is_best,
       In (ck, is_best) (checkpoints (new_calls w (snd s'))) ->
       (is_best = true <-> (best_prec1 v < prec1 (fst s'))%R) /\
       ck_best_prec1 ck = Rmax (prec1 (fst s')) (best_prec1 v) /\
       best_prec1 (fst s') = ck_best_prec1 ck /\
       (if skip_validation then prec1 (fst s') = prec1 v
        else exists w1,
            fst (validate val_loader fp16 logger epoch prof (epoch =? start_epoch) w1)
            = Ok (prec1 (fst s')))) /\
  (forall (epochs : Z) (best_prec1_0 : R) (w : World),
     let s' := snd (train_loop lr_scheduler train_loader val_loader debug_loader
                      epochs fp16 logger should_backup_checkpoint use_amp
                      batch_size_multiplier best_prec1_0 start_epoch prof
                      skip_training skip_validation save_checkpoints
                      checkpoint_dir w) in
     chain best_prec1_0 (saved_bests (new_calls w (snd s'))) (best_prec1 (fst s'))).
Proof.
  split.
  - intros epoch v w s'.
    destruct (train_loop_epoch_effect lr_scheduler train_loader val_loader fp16
                logger should_backup_checkpoint use_amp batch_size_multiplier
                start_epoch prof skip_training skip_validation save_checkpoints
                checkpoint_dir epoch v w) as [tr [Hc [Hb Hall]]].
    fold s' in Hc, Hb, Hall.
    assert (Hnew : new_calls w (snd s') = tr)
      by (unfold new_calls; rewrite Hc; apply skipn_new).
    rewrite Hnew. split; [exact Hb | exact Hall].
  - intros epochs best0 w s'. subst s'.
    remember (train_loop _ _ _ _ _ _ _ _ _ _ _ _ _ _ _ _ _ _) as res eqn:Eres.
    unfold train_loop in Eres.
    set (body := train_loop_epoch _ _ _ _ _ _ _ _ _ _ _ _ _ _) in Eres.
    set (v0 := {| prec1 := -1; best_prec1 := best0 |}) in Eres.
    assert (Hinit : exists w0,
               when (is_not_None logger) (in_world (method logger epoch_generator_wrapper))
                    (v0, w) = (Ok tt, (v0, w0)) /\ calls w0 = calls w).
    { destruct logger as [[] |]; simpl; eexists; split; reflexivity. }
    destruct Hinit as [w0 [Einit Hc0]].
    unfold bind at 1 in Eres. rewrite Einit in Eres.
    destruct (for_each_epoch_chain body
                (train_loop_epoch_tracks _ _ _ _ _ _ _ _ _ _ _ _ _ _)
                (py_range start_epoch epochs) (v0, w0)) as [tr [Hc Hchain]].
    simpl in Hc, Hchain.
    unfold bind in Eres.
    destruct (for_each (py_range start_epoch epochs) body (v0, w0))
      as [[[] | e] [v1 w1]]; simpl in Hc, Hchain.
    + pose proof (quiet_diagnostic skip_training val_loader (v1, w1)) as Hd.
      cbv zeta in Hd. subst res.
      destruct (when skip_training _ (v1, w1)) as [rd [vd wd]].
      simpl in Hd |- *. destruct Hd as [-> [trd [Hcd Hkd]]].
      unfold new_calls. rewrite Hcd, Hc, Hc0, <- app_assoc, skipn_new.
      rewrite saved_bests_app. unfold saved_bests at 2. rewrite Hkd.
      simpl. rewrite app_nil_r. exact Hchain.
    + subst res. simpl. unfold new_calls. rewrite Hc, Hc0, skipn_new. exact Hchain.
Qed.

End BestAccuracyTheorem.

(** ** train_loop and a null logger *)

Lemma py_range_cons (a b : Z) : a < b -> py_range a b = a :: py_range (a + 1) b.
Proof.
  intros H. unfold py_range.
  replace (Z.to_nat (b - a)) with (S (Z.to_nat (b - (a + 1)))) by lia.
  simpl. f_equal; [lia |].
  rewrite <- seq_shift, map_map. apply map_ext. intros k. lia.
Qed.

Section NullLogger.
Context {T : Torch} {C : Collaborators}.

Lemma returns_in_world {A : Type} (m : M World A) (s : loop_vars * World)
    (Q : A -> loop_vars * World -> Prop) :
  returns m (snd s) (fun a w' => Q a (fst s, w')) -> returns (in_world m) s Q.
Proof.
  intros [a [w' [Hm HQ]]]. exists a, (fst s, w'). split; [| exact HQ].
  unfold in_world. rewrite Hm. reflexivity.
Qed.

Lemma raises_run {S A : Type} (m : M S A) (s : S) (e : exn) :
  raises m s e -> fst (m s) = Raise e.
Proof. intros [s' H]. rewrite H. reflexivity. Qed.

(** C3 does not hold of the code: [train_loop] calls [logger.end()] without
    the [None] test that guards every other use of the logger. With
    [logger = None], a non-empty epoch range and a process that is not a
    non-zero rank of a distributed run, [train_loop] raises
    [AttributeError] at the end of its first epoch, although [train] and
    [validate] themselves return with a null logger. *)
Theorem null_logger_end_raises
    (lr_scheduler : scheduler) (train_loader val_loader debug_loader : list batch)
    (epochs : Z) (fp16 : bool) (should_backup_checkpoint : Z -> bool)
    (use_amp : bool) (batch_size_multiplier : Z) (best_prec1_0 : R)
    (start_epoch : Z) (prof : Z)
    (skip_training skip_validation save_checkpoints : bool)
    (checkpoint_dir : string) (w : World) :
  start_epoch < epochs ->
  negb is_initialized || (get_rank =? 0) = true ->
  batch_size_multiplier <> 0 ->
  (forall i e, exists x, lr_fn lr_scheduler i e = Ok x) ->
  fst (train_loop lr_scheduler train_loader val_loader debug_loader epochs fp16
         None should_backup_checkpoint use_amp batch_size_multiplier best_prec1_0
         start_epoch prof skip_training skip_validation save_checkpoints
         checkpoint_dir w)
  = Raise AttributeError /\
  (forall epoch register_metrics w0,
     fst (train train_loader lr_scheduler fp16 None epoch use_amp prof
            batch_size_multiplier register_metrics w0) = Ok tt) /\
  (forall epoch register_metrics w0,
     exists top1,
       fst (validate val_loader fp16 None epoch prof register_metrics w0) = Ok top1).
Proof.
  intros Hrange Hcoord Hm Hlr.
  assert (Htrain : forall epoch reg w0,
             returns (train train_loader lr_scheduler fp16 None epoch use_amp prof
                        batch_size_multiplier reg) w0 (fun _ _ => True)).
  { intros epoch reg w0. eapply returns_weaken.
    - apply train_returns; [exact Hm | intros i; apply Hlr | left; reflexivity].
    - intros; exact I. }
  assert (Hval : forall epoch reg w0,
             returns (validate val_loader fp16 None epoch prof reg) w0
               (fun _ _ => True)).
  { intros epoch reg w0. eapply returns_weaken.
    - apply validate_returns. left; reflexivity.
    - intros; exact I. }
  split; [| split].
  - unfold train_loop. apply raises_run.
    rewrite (py_range_cons _ _ Hrange).
    apply raises_bind_right. apply returns_ret.
    apply raises_bind_left. cbn [for_each].
    apply raises_bind_left. unfold train_loop_epoch.
    apply raises_bind_right.
    assert (H1 : forall s,
               returns (when (negb skip_training)
                          (in_world (train train_loader lr_scheduler fp16 None
                                       start_epoch use_amp prof batch_size_multiplier
                                       (start_epoch =? start_epoch))))
                       s (fun _ _ => True)).
    { intros s. destruct skip_training; simpl; [apply returns_ret; exact I |].
      apply returns_in_world. apply Htrain. }
    eapply returns_weaken; [apply H1 |]. intros _ s1 _.
    apply raises_bind_right.
    assert (H2 :
               returns (when (negb skip_validation)
                          (p <- in_world (validate val_loader fp16 None start_epoch
                                            prof (start_epoch =? start_epoch)) ;;
                           modify (set_prec1 p)))
                       s1 (fun _ _ => True)).
    { destruct skip_validation; simpl; [apply returns_ret; exact I |].
      apply returns_bind. apply returns_in_world.
      eapply returns_weaken; [apply Hval |]. intros p w' _.
      apply returns_modify. exact I. }
    eapply returns_weaken; [exact H2 |]. intros _ s2 _.
    apply raises_bind_right.
    assert (H3 : forall (k : M (loop_vars * World) unit),
               (forall s, returns k s (fun _ _ => True)) ->
               forall b s, returns (when b k) s (fun _ _ => True)).
    { intros k Hk [|] s; [apply Hk | apply returns_ret; exact I]. }
    eapply returns_weaken.
    { apply H3. intros s. apply H3. intros s'.
      repeat (apply returns_bind; first [apply returns_gets | apply returns_modify]).
      apply returns_in_world. apply returns_modify. exact I. }
    intros _ s3 _.
    rewrite Hcoord. simpl. eexists. reflexivity.
  - intros epoch reg w0.
    destruct (returns_run _ _ _ (Htrain epoch reg w0)) as [[] [H _]]. exact H.
  - intros epoch reg w0.
    destruct (returns_run _ _ _ (Hval epoch reg w0)) as [top1 [H _]].
    exists top1. exact H.
Qed.

End NullLogger.

(** ** The properties on a concrete run *)


(** Ten batches and [prof = 5]: train takes five of them, validate six. *)
Lemma profiling_limit_asymmetry_witness :
  5 > 0 /\
  List.length
    (train_steps
       (new_calls example_world
          (snd (train example_loader example_scheduler false None 0 false 5 1 true
                  example_world)))) = 5%nat /\
  List.length
    (val_steps
       (new_calls example_world
          (snd (validate example_loader false None 0 5 true example_world)))) = 6%nat.
Proof.
  assert (Hp : 5 > 0) by reflexivity.
  assert (Hm : 1 <> 0) by discriminate.
  assert (Hlr : forall i : Z, exists x, lr_fn example_scheduler i 0 = Ok x)
    by (intros i; exists 0%R; reflexivity).
  assert (Hlog : @None logger_ref = None \/ clock_advances)
    by (left; reflexivity).
  destruct (profiling_limit_asymmetry example_loader example_loader example_scheduler
              false None 0 false 5 1 true example_world eq_refl eq_refl Hp Hm Hlr Hlog)
    as [_ [_ [Ht [_ [_ Hv]]]]].
  split; [exact Hp |]. split; [exact Ht | exact Hv].
Defined.

(** Ten batches and the default [prof = -1]: both loops take all ten. *)
Lemma no_profiling_limit_witness :
  -1 <= 0 /\
  List.length
    (train_steps
       (new_calls example_world
          (snd (train example_loader example_scheduler false None 0 false (-1) 1 true
                  example_world)))) = 10%nat /\
  List.length
    (val_steps
       (new_calls example_world
          (snd (validate example_loader false None 0 (-1) true example_world)))) = 10%nat.
Proof.
  assert (Hp : -1 <= 0) by discriminate.
  assert (Hm : 1 <> 0) by discriminate.
  assert (Hlr : forall i : Z, exists x, lr_fn example_scheduler i 0 = Ok x)
    by (intros i; exists 0%R; reflexivity).
  assert (Hlog : @None logger_ref = None \/ clock_advances)
    by (left; reflexivity).
  destruct (no_profiling_limit example_loader example_loader example_scheduler
              false None 0 false (-1) 1 true example_world eq_refl eq_refl Hp Hm Hlr Hlog)
    as [_ [_ [Ht [_ [_ Hv]]]]].
  split; [exact Hp |]. split; [exact Ht | exact Hv].
Defined.

(** A flagged step on the first batch of the example: loss 0 and both
    accuracies 0. *)
Lemma train_step_accuracy_stubbed_witness :
  fst (get_train_step false false 4 0 0 true example_world)
  = Ok (0%R, 0%R, 0%R).
Proof.
  exact (train_step_accuracy_stubbed false false 4 0 0 true example_world
           eq_refl eq_refl).
Defined.

(** One epoch, no logger, a single process: [train_loop] raises. *)
Lemma null_logger_end_raises_witness :
  0 < 1 /\
  fst (train_loop example_scheduler example_loader example_loader [] 1 false
         None (fun _ => false) false 1 0 0 (-1) false false true "./" example_world)
  = Raise AttributeError.
Proof.
  assert (Hrange : 0 < 1) by reflexivity.
  assert (Hcoord : negb is_initialized || (get_rank =? 0) = true) by reflexivity.
  assert (Hm : 1 <> 0) by discriminate.
  assert (Hlr : forall i e : Z, exists x, lr_fn example_scheduler i e = Ok x)
    by (intros i e; exists 0%R; reflexivity).
  split; [exact Hrange |].
  exact (proj1 (null_logger_end_raises example_scheduler example_loader example_loader
                  [] 1 false (fun _ => false) false 1 0 0 (-1) false false true "./"
                  example_world Hrange Hcoord Hm Hlr)).
Defined.

(** The same run, evaluated: the exception comes after the checkpoint of
    the epoch was saved. *)
Example null_logger_one_epoch :
  let run := train_loop example_scheduler example_loader example_loader [] 1 false
               None (fun _ => false) false 1 0 0 (-1) false false true "./"
               example_world in
  fst run = Raise AttributeError /\
  List.length (checkpoints (calls (snd (snd run)))) = 1%nat /\
  log (snd (snd run)) = [].
Proof. vm_compute. repeat split. Qed.

(** The same runs, evaluated. *)
Example train_ten_batches_by_four :
  updated_after (-1)
    (calls (snd (train example_loader example_scheduler false None 0 false (-1) 4 true
                   example_world)))
  = [3; 7].
Proof. vm_compute. reflexivity. Qed.

Example train_validate_prof_five :
  map fst (map fst
    (train_steps
       (calls (snd (train example_loader example_scheduler false None 0 false 5 1 true
                      example_world)))))
  = [0; 1; 2; 3; 4] /\
  map fst
    (val_steps
       (calls (snd (validate example_loader false None 0 5 true example_world))))
  = [0; 1; 2; 3; 4; 5].
Proof. vm_compute. split; reflexivity. Qed.

Example train_zero_multiplier :
  fst (train example_loader example_scheduler false None 0 false (-1) 0 true
         example_world)
  = Raise ZeroDivisionError.
Proof. vm_compute. reflexivity. Qed.

(* ================================================================= *)
(** * Part III: further properties of the code *)
(* ================================================================= *)

(** ** The curves after warmup *)

Lemma step_decay_fold (epoch : Z) (d : R) (steps : list Z) (b : R) :
  fold_left (fun x s => if epoch >=? s then (x * d)%R else x) steps b
  = (b * d ^ List.length (filter (fun s => epoch >=? s) steps))%R.
Proof.
  revert b. induction steps as [| s steps IH]; intros b; simpl.
  - lra.
  - rewrite IH. destruct (epoch >=? s); simpl; lra.
Qed.

(** X1. After warmup the step policy multiplies [base_lr] by
    [decay_factor] once for every configured threshold the epoch has
    reached: the thresholds are cumulative, and neither their order nor
    repetitions are special. *)
Theorem step_policy_cumulative
    (base_lr : R) (steps : list Z) (decay_factor : R)
    (warmup_length iteration epoch : Z) :
  warmup_length <= epoch ->
  lr_step_policy_fn base_lr steps decay_factor warmup_length iteration epoch
  = Ok (base_lr
        * decay_factor ^ List.length (filter (fun s => epoch >=? s) steps))%R.
Proof.
  intros He. unfold lr_step_policy_fn.
  destruct (Z.ltb_spec epoch warmup_length) as [Hlt | _]; [lia |].
  rewrite step_decay_fold. reflexivity.
Qed.

Lemma step_policy_cumulative_witness :
  5 <= 70 /\
  lr_step_policy_fn 1 [30; 60; 80] 0.1 5 0 70 = Ok (1 * 0.1 ^ 2)%R.
Proof.
  split; [discriminate |].
  apply (step_policy_cumulative 1 [30; 60; 80] 0.1 5 0 70). discriminate.
Defined.

(** X2. After warmup (and with [warmup_length < epochs]) the linear policy
    returns [base_lr * (1 - e/es)]: it starts at [base_lr], stays within
    [0, base_lr] up to epoch index [epochs], where it is zero, and is
    negative for every later epoch. *)
Theorem linear_policy_shape
    (base_lr : R) (warmup_length epochs iteration epoch : Z) :
  warmup_length < epochs -> warmup_length <= epoch -> (0 < base_lr)%R ->
  exists x,
    lr_linear_policy_fn base_lr warmup_length epochs iteration epoch = Ok x /\
    x = (base_lr * (1 - IZR (epoch - warmup_length) / IZR (epochs - warmup_length)))%R /\
    (epoch = warmup_length -> x = base_lr) /\
    (epoch <= epochs -> (0 <= x <= base_lr)%R) /\
    (epoch = epochs -> x = 0%R) /\
    (epochs < epoch -> (x < 0)%R).
Proof.
  intros Hspan He Hb. unfold lr_linear_policy_fn.
  destruct (Z.ltb_spec epoch warmup_length) as [Hlt | _]; [lia |].
  rewrite truediv_nonzero by lia.
  eexists. split; [reflexivity |]. split; [reflexivity |].
  assert (Hes : (0 < IZR (epochs - warmup_length))%R) by (apply IZR_lt; lia).
  assert (He0 : (0 <= IZR (epoch - warmup_length))%R) by (apply IZR_le; lia).
  set (q := (IZR (epoch - warmup_length) / IZR (epochs - warmup_length))%R).
  assert (Hqe : (q * IZR (epochs - warmup_length) = IZR (epoch - warmup_length))%R)
    by (unfold q; field; lra).
  assert (Hq0 : (0 <= q)%R).
  { unfold q. apply Rmult_le_pos; [exact He0 |].
    apply Rlt_le, Rinv_0_lt_compat. exact Hes. }
  split; [| split; [| split]].
  - intros ->. unfold q. rewrite Z.sub_diag. unfold Rdiv. rewrite Rmult_0_l. lra.
  - intros Hle.
    assert (Hle' : (IZR (epoch - warmup_length) <= IZR (epochs - warmup_length))%R)
      by (apply IZR_le; lia).
    assert (Hq1 : (q <= 1)%R) by nra.
    split; nra.
  - intros ->. unfold q. unfold Rdiv. rewrite Rinv_r by lra. lra.
  - intros Hgt.
    assert (Hgt' : (IZR (epochs - warmup_length) < IZR (epoch - warmup_length))%R)
      by (apply IZR_lt; lia).
    assert (Hq1 : (1 < q)%R) by nra.
    nra.
Qed.

Lemma linear_policy_shape_witness :
  exists x,
    lr_linear_policy_fn 1 5 90 0 90 = Ok x /\
    x = (1 * (1 - IZR (90 - 5) / IZR (90 - 5)))%R /\
    (90 = 5 -> x = 1%R) /\
    (90 <= 90 -> (0 <= x <= 1)%R) /\
    (90 = 90 -> x = 0%R) /\
    (90 < 90 -> (x < 0)%R).
Proof.
  apply (linear_policy_shape 1 5 90 0 90); [reflexivity | discriminate | lra].
Defined.

(** X3. After warmup (and with [warmup_length < epochs]) the cosine policy
    returns [0.5 * (1 + cos(pi * e / es)) * base_lr]: it starts at
    [base_lr], is zero at epoch index [epochs], and lies within
    [0, base_lr] at every epoch, also beyond [epochs]. *)
Theorem cosine_policy_shape
    (base_lr : R) (warmup_length epochs iteration epoch : Z) :
  warmup_length < epochs -> warmup_length <= epoch -> (0 <= base_lr)%R ->
  exists x,
    lr_cosine_policy_fn base_lr warmup_length epochs iteration epoch = Ok x /\
    (0 <= x <= base_lr)%R /\
    (epoch = warmup_length -> x = base_lr) /\
    (epoch = epochs -> x = 0%R).
Proof.
  intros Hspan He Hb. unfold lr_cosine_policy_fn.
  destruct (Z.ltb_spec epoch warmup_length) as [Hlt | _]; [lia |].
  rewrite truediv_nonzero by lia.
  eexists. split; [reflexivity |].
  assert (Hes : (0 < IZR (epochs - warmup_length))%R) by (apply IZR_lt; lia).
  unfold np_cos, np_pi.
  split; [| split].
  - pose proof (COS_bound (PI * IZR (epoch - warmup_length)
                           / IZR (epochs - warmup_length))) as [Hlo Hhi].
    split; nra.
  - intros ->. rewrite Z.sub_diag. unfold Rdiv.
    rewrite Rmult_0_r, Rmult_0_l, cos_0. lra.
  - intros ->.
    replace (PI * IZR (epochs - warmup_length) / IZR (epochs - warmup_length))%R
      with PI by (field; lra).
    rewrite cos_PI. lra.
Qed.

Lemma cosine_policy_shape_witness :
  exists x,
    lr_cosine_policy_fn 1 5 90 0 90 = Ok x /\
    (0 <= x <= 1)%R /\
    (90 = 5 -> x = 1%R) /\
    (90 = 90 -> x = 0%R).
Proof.
  apply (cosine_policy_shape 1 5 90 0 90); [reflexivity | discriminate | lra].
Defined.

(** X4. After warmup (with [warmup_length < epochs] and a positive
    [final_multiplier]) the exponential policy is geometric: it starts at
    [base_lr] and each epoch multiplies the rate of the previous one by
    [epoch_decay]; with [final_multiplier < 1] and a positive [base_lr] the
    rate strictly decreases. *)
Theorem exponential_policy_geometric
    (base_lr : R) (warmup_length epochs : Z) (final_multiplier : R)
    (iteration epoch : Z) :
  warmup_length < epochs -> warmup_length <= epoch -> (0 < final_multiplier)%R ->
  let epoch_decay :=
    np_power 2 (np_log2 final_multiplier / IZR (epochs - warmup_length)) in
  lr_exponential_policy_fn base_lr warmup_length epochs final_multiplier
    iteration warmup_length = Ok base_lr /\
  exists x,
    lr_exponential_policy_fn base_lr warmup_length epochs final_multiplier
      iteration epoch = Ok x /\
    lr_exponential_policy_fn base_lr warmup_length epochs final_multiplier
      iteration (epoch + 1) = Ok (x * epoch_decay)%R /\
    ((final_multiplier < 1)%R -> (0 < base_lr)%R -> (0 < x * epoch_decay < x)%R).
Proof.
  intros Hspan He Hf epoch_decay.
  assert (Hd : (0 < epoch_decay)%R) by apply np_power_pos.
  unfold lr_exponential_policy_fn. fold epoch_decay.
  destruct (Z.ltb_spec warmup_length warmup_length) as [Hlt | _]; [lia |].
  destruct (Z.ltb_spec epoch warmup_length) as [Hlt | _]; [lia |].
  destruct (Z.ltb_spec (epoch + 1) warmup_length) as [Hlt | _]; [lia |].
  split.
  - rewrite Z.sub_diag. simpl. f_equal. lra.
  - eexists. split; [reflexivity |]. split.
    + replace (epoch + 1 - warmup_length) with ((epoch - warmup_length) + 1) by lia.
      rewrite powerRZ_add by lra. f_equal. simpl. lra.
    + intros Hf1 Hb.
      assert (Hp : (0 < powerRZ epoch_decay (epoch - warmup_length))%R)
        by (apply powerRZ_lt; exact Hd).
      assert (Hd1 : (epoch_decay < 1)%R).
      { unfold epoch_decay, np_power, np_log2, Rpower.
        rewrite <- exp_0. apply exp_increasing.
        assert (Hl2 := ln_2_pos).
        assert (Hlf : (ln final_multiplier < 0)%R)
          by (rewrite <- ln_1; apply ln_increasing; lra).
        assert (Hes : (0 < IZR (epochs - warmup_length))%R) by (apply IZR_lt; lia).
        assert (Hq : (ln final_multiplier / ln 2 / IZR (epochs - warmup_length) < 0)%R).
        { unfold Rdiv.
          assert (H1 : (0 < / ln 2)%R) by (apply Rinv_0_lt_compat; exact Hl2).
          assert (H2 : (0 < / IZR (epochs - warmup_length))%R)
            by (apply Rinv_0_lt_compat; exact Hes).
          assert (H3 : (ln final_multiplier * / ln 2 < 0)%R) by nra.
          nra. }
        assert (Hl2' : (0 < ln 2)%R) by exact Hl2.
        nra. }
      assert (Hx : (0 < base_lr * powerRZ epoch_decay (epoch - warmup_length))%R)
        by nra.
      split; nra.
Qed.

Lemma exponential_policy_geometric_witness :
  let epoch_decay := np_power 2 (np_log2 0.001 / IZR (90 - 5)) in
  lr_exponential_policy_fn 1 5 90 0.001 0 5 = Ok 1%R /\
  exists x,
    lr_exponential_policy_fn 1 5 90 0.001 0 10 = Ok x /\
    lr_exponential_policy_fn 1 5 90 0.001 0 (10 + 1) = Ok (x * epoch_decay)%R /\
    ((0.001 < 1)%R -> (0 < 1)%R -> (0 < x * epoch_decay < x)%R).
Proof.
  apply (exponential_policy_geometric 1 5 90 0.001 0 10);
    [reflexivity | discriminate | lra].
Defined.

(** X5. With a positive [warmup_length] the warmup ramp ends exactly at
    [base_lr]: at the last warmup epoch, [warmup_length - 1], every curve
    returns [base_lr]; and for a positive [base_lr] the ramp strictly
    increases from one warmup epoch to the next. *)
Theorem warmup_reaches_base_lr
    (base_lr : R) (steps : list Z) (decay_factor : R)
    (warmup_length epochs : Z) (final_multiplier : R) (iteration : Z) :
  0 < warmup_length ->
  lr_step_policy_fn base_lr steps decay_factor warmup_length iteration
    (warmup_length - 1) = Ok base_lr /\
  lr_linear_policy_fn base_lr warmup_length epochs iteration
    (warmup_length - 1) = Ok base_lr /\
  lr_cosine_policy_fn base_lr warmup_length epochs iteration
    (warmup_length - 1) = Ok base_lr /\
  lr_exponential_policy_fn base_lr warmup_length epochs final_multiplier iteration
    (warmup_length - 1) = Ok base_lr /\
  (forall epoch x x',
     epoch + 1 < warmup_length -> (0 < base_lr)%R ->
     lr_step_policy_fn base_lr steps decay_factor warmup_length iteration epoch
       = Ok x ->
     lr_step_policy_fn base_lr steps decay_factor warmup_length iteration (epoch + 1)
       = Ok x' ->
     (x < x')%R).
Proof.
  intros Hw.
  assert (Hramp : truediv (base_lr * IZR (warmup_length - 1 + 1)) warmup_length
                  = Ok base_lr).
  { rewrite truediv_nonzero by lia. f_equal.
    replace (warmup_length - 1 + 1) with warmup_length by lia.
    field. apply not_0_IZR. lia. }
  unfold lr_step_policy_fn, lr_linear_policy_fn, lr_cosine_policy_fn,
    lr_exponential_policy_fn.
  destruct (Z.ltb_spec (warmup_length - 1) warmup_length) as [_ | Hge]; [| lia].
  rewrite Hramp. repeat split.
  intros epoch x x' He Hb.
  destruct (Z.ltb_spec epoch warmup_length) as [_ | Hge]; [| lia].
  destruct (Z.ltb_spec (epoch + 1) warmup_length) as [_ | Hge]; [| lia].
  rewrite !truediv_nonzero by lia.
  intros Hx Hx'. injection Hx as <-. injection Hx' as <-.
  assert (Hwr : (0 < IZR warmup_length)%R) by (apply IZR_lt; lia).
  assert (Hinv : (0 < / IZR warmup_length)%R) by (apply Rinv_0_lt_compat; exact Hwr).
  rewrite (plus_IZR (epoch + 1) 1). unfold Rdiv. nra.
Qed.

Lemma warmup_reaches_base_lr_witness :
  lr_step_policy_fn 1 [30; 60] 0.1 5 0 (5 - 1) = Ok 1%R /\
  lr_linear_policy_fn 1 5 90 0 (5 - 1) = Ok 1%R /\
  lr_cosine_policy_fn 1 5 90 0 (5 - 1) = Ok 1%R /\
  lr_exponential_policy_fn 1 5 90 0.001 0 (5 - 1) = Ok 1%R.
Proof.
  destruct (warmup_reaches_base_lr 1 [30; 60] 0.1 5 90 0.001 0 eq_refl)
    as [H1 [H2 [H3 [H4 _]]]].
  repeat split; assumption.
Defined.

(** ** The optimizer and the scheduler *)

Lemma filter_split_permutation (A : Type) (f : A -> bool) (l : list A) :
  Permutation (filter f l ++ filter (fun x => negb (f x)) l) l.
Proof.
  induction l as [| a l IH]; simpl; [constructor |].
  destruct (f a); simpl.
  - constructor. exact IH.
  - apply Permutation_sym, Permutation_cons_app, Permutation_sym. exact IH.
Qed.

Section OptimizerAndScheduler.
Context {T : Torch} {C : Collaborators}.

(** X6. Built without a saved state, the optimizer holds every given
    parameter exactly once, whichever weight-decay policy is chosen: the
    parameters of its groups, taken together, are a permutation of the
    ones given; and every group gets the given learning rate. *)
Theorem get_optimizer_keeps_parameters
    (parameters : list (string * param)) (fp16 : bool)
    (lr0 momentum0 weight_decay0 : R) (nesterov0 : bool)
    (static_loss_scale : R) (dynamic_loss_scale : bool) (bn_weight_decay : bool) :
  let o := get_optimizer parameters fp16 lr0 momentum0 weight_decay0 nesterov0
             None static_loss_scale dynamic_loss_scale bn_weight_decay in
  Permutation (List.concat (map params (param_groups o))) (map snd parameters) /\
  Forall (fun g => lr g = lr0) (param_groups o).
Proof.
  destruct bn_weight_decay; simpl.
  - rewrite app_nil_r. split; [apply Permutation_refl |].
    repeat constructor.
  - rewrite app_nil_r, <- map_app. split.
    + apply Permutation_map. apply filter_split_permutation.
    + repeat constructor.
Qed.

(** X7. A call of the scheduler writes the rate its [lr_fn] computes into
    every parameter group and changes nothing else of the optimizer: the
    groups keep their parameters and their weight decay (so the zero weight
    decay of the ["bn"] group survives scheduling); the rate is logged if
    the policy has a logger. If [lr_fn] raises, the scheduler raises the
    same exception and leaves the world as it was. *)
Theorem scheduler_sets_lr_only (s : scheduler) (iteration epoch : Z) (w : World) :
  (forall x, lr_fn s iteration epoch = Ok x ->
     let r := _alr s iteration epoch w in
     fst r = Ok tt /\
     map lr (param_groups (optimizer (snd r)))
       = map (fun _ => x) (param_groups (optimizer w)) /\
     map weight_decay (param_groups (optimizer (snd r)))
       = map weight_decay (param_groups (optimizer w)) /\
     map params (param_groups (optimizer (snd r)))
       = map params (param_groups (optimizer w)) /\
     calls (snd r) = calls w /\
     log (snd r) = log w ++ (if is_not_None (lr_logger s)
                             then [log_metric "lr" x] else [])) /\
  (forall e, lr_fn s iteration epoch = Raise e ->
     _alr s iteration epoch w = (Raise e, w)).
Proof.
  split.
  - intros x Hx. unfold _alr, bind, lift. rewrite Hx.
    destruct (lr_logger s) as [[] |]; simpl; rewrite !map_map; simpl;
      rewrite ?app_nil_r; repeat split; try reflexivity;
      rewrite map_id; reflexivity.
  - intros e He. unfold _alr, bind, lift. rewrite He. reflexivity.
Qed.

End OptimizerAndScheduler.

(** ** What validation leaves alone *)

Section Along.
Context {T : Torch} {C : Collaborators}.
Variable Rel : World -> World -> Prop.
Hypothesis Rel_refl : forall w, Rel w w.
Hypothesis Rel_trans : forall w1 w2 w3, Rel w1 w2 -> Rel w2 w3 -> Rel w1 w3.

Lemma along_ret {A : Type} (a : A) : along Rel (ret a).
Proof. intros w. apply Rel_refl. Qed.

Lemma along_raise {A : Type} (e : exn) : along Rel (@raise World A e).
Proof. intros w. apply Rel_refl. Qed.

Lemma along_lift {A : Type} (o : outcome A) : along Rel (lift o).
Proof. intros w. apply Rel_refl. Qed.

Lemma along_gets {A : Type} (f : World -> A) : along Rel (gets f).
Proof. intros w. apply Rel_refl. Qed.

Lemma along_bind {A B : Type} (m : M World A) (k : A -> M World B) :
  along Rel m -> (forall a, along Rel (k a)) -> along Rel (bind m k).
Proof.
  intros Hm Hk w. unfold bind. specialize (Hm w).
  destruct (m w) as [[a | e] w1]; simpl in *.
  - eapply Rel_trans; [exact Hm | apply Hk].
  - exact Hm.
Qed.

Lemma along_when (b : bool) (m : M World unit) : along Rel m -> along Rel (when b m).
Proof. intros Hm. destruct b; [exact Hm | apply along_ret]. Qed.

Lemma along_modify (f : World -> World) :
  (forall w, Rel w (f w)) -> along Rel (modify f).
Proof. intros Hf w. apply Hf. Qed.

Lemma along_method (logger : option logger_ref) (c : log_call) :
  (forall w, Rel w (add_log c w)) -> along Rel (method logger c).
Proof.
  intros Hl. destruct logger as [[] |]; intros w; simpl; [apply Hl | apply Rel_refl].
Qed.

Lemma along_time_time : (forall w, Rel w (tick w)) -> along Rel time_time.
Proof. intros Ht w. apply Ht. Qed.

End Along.

Section Untouched.
Context {T : Torch} {C : Collaborators}.

Lemma untouched_refl (ok : call -> bool) (w : World) : untouched ok w w.
Proof.
  split; [reflexivity |]. exists []. rewrite app_nil_r. split; reflexivity.
Qed.

Lemma untouched_trans (ok : call -> bool) (w1 w2 w3 : World) :
  untouched ok w1 w2 -> untouched ok w2 w3 -> untouched ok w1 w3.
Proof.
  intros [Ho1 [t1 [H1 K1]]] [Ho2 [t2 [H2 K2]]]. split; [congruence |].
  exists (t1 ++ t2). split.
  - rewrite H2, H1, app_assoc. reflexivity.
  - rewrite forallb_app, K1, K2. reflexivity.
Qed.

Lemma untouched_same (ok : call -> bool) (w w' : World) :
  optimizer w' = optimizer w -> calls w' = calls w -> untouched ok w w'.
Proof.
  intros Ho Hc. split; [exact Ho |]. exists []. rewrite app_nil_r.
  split; [exact Hc | reflexivity].
Qed.

Lemma untouched_call (ok : call -> bool) (c : call) (w : World) :
  ok c = true -> untouched ok w (add_call c w).
Proof.
  intros Hc. split; [reflexivity |]. exists [c]. split; [reflexivity |].
  simpl. rewrite Hc. reflexivity.
Qed.

Lemma untouched_weaken (ok ok' : call -> bool) (w w' : World) :
  (forall c, ok c = true -> ok' c = true) ->
  untouched ok w w' -> untouched ok' w w'.
Proof.
  intros Himp [Ho [tr [Hc Hk]]]. split; [exact Ho |].
  exists tr. split; [exact Hc |].
  rewrite forallb_forall in *. intros c Hin. apply Himp, Hk, Hin.
Qed.

End Untouched.

(** Decomposes a goal [along (untouched ok) m] along the structure of [m]. *)
Ltac untouched_step :=
  lazymatch goal with
  | |- along _ (bind _ _) =>
      apply along_bind; [apply untouched_trans | | intros ?]
  | |- along _ (ret _) => apply along_ret; apply untouched_refl
  | |- along _ (raise _) => apply along_raise; apply untouched_refl
  | |- along _ (lift _) => apply along_lift; apply untouched_refl
  | |- along _ (gets _) => apply along_gets; apply untouched_refl
  | |- along _ (when _ _) => apply along_when; [apply untouched_refl |]
  | |- along _ (method _ _) =>
      apply along_method;
      [apply untouched_refl | intros ?; apply untouched_same; reflexivity]
  | |- along _ time_time =>
      apply along_time_time; intros ?; apply untouched_same; reflexivity
  | |- along _ (modify _) =>
      apply along_modify; intros ?;
      first [ apply untouched_same; reflexivity
            | apply untouched_call; reflexivity ]
  | |- along _ (if ?b then _ else _) => destruct b
  | |- along _ (match ?x with _ => _ end) => destruct x
  end.

Section ValidateUntouched.
Context {T : Torch} {C : Collaborators}.

Lemma get_val_step_untouched (ok : call -> bool) (x y : Tensor) :
  along (untouched ok) (get_val_step x y).
Proof. unfold get_val_step. repeat untouched_step. Qed.

Lemma validate_for_untouched (logger : option logger_ref) (prof : Z)
    (data_iter : list (Z * batch)) :
  forall end_ top1,
    along (untouched is_val_step_call) (validate_for logger prof data_iter end_ top1).
Proof.
  induction data_iter as [| [i [x y]] rest IH]; intros end_ top1; cbn [validate_for].
  - untouched_step.
  - untouched_step; [untouched_step |].
    destruct ((prof >? 0) && (i >? prof)); [untouched_step |].
    untouched_step; [untouched_step |].
    apply along_bind;
      [apply untouched_trans | apply get_val_step_untouched | intros [[loss p1] p5]].
    untouched_step; [untouched_step |].
    untouched_step; [repeat untouched_step |].
    untouched_step; [untouched_step |].
    apply IH.
Qed.

Lemma validate_untouched (val_loader : list batch) (fp16 : bool)
    (logger : option logger_ref) (epoch : Z) (prof : Z) (register_metrics : bool) :
  along (untouched is_val_step_call)
        (validate val_loader fp16 logger epoch prof register_metrics).
Proof.
  unfold validate.
  untouched_step; [repeat untouched_step |].
  untouched_step; [repeat untouched_step |].
  untouched_step; [repeat untouched_step |].
  untouched_step; [repeat untouched_step |].
  untouched_step; [apply validate_for_untouched |].
  untouched_step.
Qed.

Lemma only_val_steps (tr : list call) :
  forallb is_val_step_or_plot_call tr = true ->
  train_steps tr = [] /\ (forall last, updated_after last tr = []) /\
  checkpoints tr = [] /\ saved_files tr = [].
Proof.
  induction tr as [| c tr IH]; simpl; [repeat split |].
  intros H. apply andb_prop in H. destruct H as [Hc Htr].
  destruct (IH Htr) as [H1 [H2 [H3 H4]]].
  destruct c; simpl in Hc; try discriminate; repeat split; auto.
Qed.

(** X8. However it ends, [validate] leaves the optimizer as it found it
    (parameters, gradients and learning rates) and calls nothing but its
    own step: no [optimizer.step()], no [optimizer.zero_grad()], no
    checkpoint. *)
Theorem validate_never_updates
    (val_loader : list batch) (fp16 : bool) (logger : option logger_ref)
    (epoch : Z) (prof : Z) (register_metrics : bool) (w : World) :
  let w' := snd (validate val_loader fp16 logger epoch prof register_metrics w) in
  optimizer w' = optimizer w /\
  forallb is_val_step_call (new_calls w w') = true /\
  (forall last, updated_after last (new_calls w w') = []) /\
  checkpoints (new_calls w w') = [].
Proof.
  intros w'.
  destruct (validate_untouched val_loader fp16 logger epoch prof register_metrics w)
    as [Ho [tr [Hc Hk]]].
  fold w' in Ho, Hc.
  assert (Hnew : new_calls w w' = tr)
    by (unfold new_calls; rewrite Hc; apply skipn_new).
  rewrite Hnew. split; [exact Ho |]. split; [exact Hk |].
  assert (Hk' : forallb is_val_step_or_plot_call tr = true).
  { rewrite forallb_forall in *. intros c Hin. specialize (Hk c Hin).
    destruct c; simpl in *; congruence. }
  destruct (only_val_steps tr Hk') as [_ [H2 [H3 _]]].
  split; assumption.
Qed.

End ValidateUntouched.

(** ** What validation returns *)

Section ValidateResult.
Context {T : Torch} {C : Collaborators}.

Lemma get_val_step_eval (x y : Tensor) (w : World) :
  training w = false ->
  exists loss p5,
    get_val_step x y w = (Ok (loss, val_prec1 (optimizer w) x y, p5), w).
Proof.
  intros Hmode.
  unfold get_val_step, val_prec1, bind, gets, ret. rewrite Hmode.
  destruct (ModelAndLoss_forward _ _ _ _) as [loss output].
  destruct (utils_accuracy output y) as [p1 p5].
  destruct is_initialized; eexists; eexists; reflexivity.
Qed.

(** The metrics of a validated batch are logged without touching anything
    but the logger. *)
Lemma val_metrics_logged (logger : option logger_ref) (p1 p5 loss : R) (bs : Z)
    (now now' end_ : R) (w : World) (Q : unit -> World -> Prop) :
  (logger = None \/ ((now < now')%R /\ (end_ < now')%R)) ->
  (forall w', optimizer w' = optimizer w -> training w' = training w ->
              ticks w' = ticks w -> Q tt w') ->
  returns
    (when (is_not_None logger)
       (method logger (log_metric "val.top1" p1) ;;
        method logger (log_metric "val.top5" p5) ;;
        method logger (log_metric "val.loss" loss) ;;
        compute_ips <- lift (calc_ips bs (now' - end_ - (now - end_))) ;;
        method logger (log_metric "val.compute_ips" compute_ips) ;;
        total_ips <- lift (calc_ips bs (now' - end_)) ;;
        method logger (log_metric "val.total_ips" total_ips) ;;
        method logger (log_metric "val.data_time" (now - end_)) ;;
        method logger (log_metric "val.compute_time" (now' - end_ - (now - end_)))))
    w Q.
Proof.
  intros Htime HQ.
  destruct logger as [[] |]; [| apply returns_ret; apply HQ; reflexivity].
  destruct Htime as [Hn | [H1 H2]]; [discriminate |].
  simpl when.
  repeat (apply returns_bind; apply returns_method).
  apply returns_bind. apply returns_calc_ips; [lra |]. intros c1.
  apply returns_bind. apply returns_method.
  apply returns_bind. apply returns_calc_ips; [lra |]. intros c2.
  repeat (apply returns_bind; apply returns_method).
  apply returns_method. apply HQ; reflexivity.
Qed.

Lemma validate_for_result (logger : option logger_ref) (prof : Z) (o : Optimizer) :
  forall (data_iter : list (Z * batch)) (end_ : R) (top1 : list (R * Z)) (w : World),
    timed logger end_ w -> training w = false -> optimizer w = o ->
    returns (validate_for logger prof data_iter end_ top1) w
      (fun r _ =>
         r = top1 ++
             map (fun ib : Z * batch =>
                    (val_prec1 o (fst (snd ib)) (snd (snd ib)),
                     tensor_size0 (fst (snd ib))))
                 (take_until (validate_breaks prof) data_iter)).
Proof.
  intros data_iter.
  induction data_iter as [| [i [x y]] rest IH]; intros end_ top1 w Htimed Hmode Ho.
  - apply returns_ret. simpl. rewrite app_nil_r. reflexivity.
  - cbn [validate_for take_until].
    apply returns_bind. apply returns_time_time.
    fold (validate_breaks prof i).
    destruct (validate_breaks prof i) eqn:Hbrk.
    + apply returns_ret. simpl. rewrite app_nil_r. reflexivity.
    + apply returns_bind. apply returns_modify.
      apply returns_bind.
      destruct (get_val_step_eval x y (add_call (val_step_called i x y) (tick w)) Hmode)
        as [loss [p5 Estep]].
      exists (loss, val_prec1 (optimizer w) x y, p5),
             (add_call (val_step_called i x y) (tick w)).
      split; [exact Estep |].
      apply returns_bind. apply returns_time_time.
      cbn [ticks tick add_call].
      apply returns_bind.
      apply val_metrics_logged.
      { destruct Htimed as [-> | [Hadv [k [Hk Hend]]]]; [left; reflexivity |].
        right. split; [apply Hadv |].
        rewrite Hend. apply clock_increasing; [exact Hadv | lia]. }
      intros w3 Ho3 Hm3 Ht3. simpl in Ho3, Hm3, Ht3.
      apply returns_bind. apply returns_time_time.
      eapply returns_weaken.
      * apply IH.
        -- destruct Htimed as [-> | [Hadv _]]; [left; reflexivity |].
           right. split; [exact Hadv |]. exists (ticks w3).
           split; [simpl; lia | reflexivity].
        -- simpl. rewrite Hm3. exact Hmode.
        -- simpl. rewrite Ho3. exact Ho.
      * intros r _ ->. rewrite Ho. simpl. rewrite <- app_assoc. reflexivity.
Qed.

(** X9. When it returns (always without a logger; with one, when the
    clock advances), [validate] returns the value of a fresh average meter
    that recorded, for each batch up to the profiling break and in order,
    the top-1 accuracy of the batch, measured in evaluation mode with the
    parameters as they were on entry, weighted by the batch size. With an
    empty loader the meter has recorded nothing. *)
Theorem validate_returns_meter
    (val_loader : list batch) (fp16 : bool) (logger : option logger_ref)
    (epoch : Z) (prof : Z) (register_metrics : bool) (w : World) :
  logger = None \/ clock_advances ->
  fst (validate val_loader fp16 logger epoch prof register_metrics w)
  = Ok (AverageMeter_get_val
          (map (fun ib : Z * batch =>
                  (val_prec1 (optimizer w) (fst (snd ib)) (snd (snd ib)),
                   tensor_size0 (fst (snd ib))))
               (take_until (validate_breaks prof) (enumerate val_loader)))).
Proof.
  intros Hlog.
  assert (H : returns (validate val_loader fp16 logger epoch prof register_metrics) w
                (fun r _ =>
                   r = AverageMeter_get_val
                         (map (fun ib : Z * batch =>
                                 (val_prec1 (optimizer w) (fst (snd ib)) (snd (snd ib)),
                                  tensor_size0 (fst (snd ib))))
                              (take_until (validate_breaks prof)
                                          (enumerate val_loader))))).
  { unfold validate.
    apply returns_bind.
    assert (Hreg : forall (c : bool) (k : M World unit) (w0 : World),
               (c = true ->
                returns k w0 (fun _ w1 => optimizer w1 = optimizer w0 /\
                                          training w1 = training w0 /\
                                          ticks w1 = ticks w0)) ->
               returns (when c k) w0
                 (fun _ w1 => optimizer w1 = optimizer w0 /\
                              training w1 = training w0 /\ ticks w1 = ticks w0)).
    { intros [|] k w0 Hk; [apply Hk; reflexivity |].
      apply returns_ret. repeat split. }
    eapply returns_weaken.
    { apply Hreg. intros Hc. apply andb_prop in Hc. destruct Hc as [_ Hc].
      destruct logger as [[] |]; [| discriminate].
      repeat (apply returns_bind; apply returns_method).
      apply returns_method. repeat split. }
    intros _ w1 [Ho1 [_ Ht1]].
    apply returns_bind. apply returns_modify.
    apply returns_bind. apply returns_time_time.
    apply returns_bind.
    eapply returns_weaken.
    { apply Hreg. intros Hc.
      destruct logger as [[] |]; [| discriminate].
      apply returns_method. repeat split. }
    intros _ w2 [Ho2 [Hm2 Ht2]]. simpl in Ho2, Hm2, Ht2.
    apply returns_bind.
    eapply returns_weaken.
    { apply (validate_for_result logger prof (optimizer w)).
      - destruct Hlog as [-> | Hadv]; [left; reflexivity |].
        right. split; [exact Hadv |]. exists (ticks w1). split; [lia | reflexivity].
      - exact Hm2.
      - congruence. }
    intros top1 w' ->. apply returns_ret. reflexivity. }
  destruct H as [r [w' [E ->]]]. rewrite E. reflexivity.
Qed.

End ValidateResult.

Lemma validate_returns_meter_witness :
  fst (validate example_loader false None 0 (-1) true example_world) = Ok 0%R.
Proof.
  exact (validate_returns_meter example_loader false None 0 (-1) true example_world
           (or_introl eq_refl)).
Defined.

(** ** The train loop: errors, clearing and the number of updates *)

Lemma div_succ (m k : Z) :
  0 < m -> 0 <= k ->
  (k + 1) / m = k / m + (if (k + 1) mod m =? 0 then 1 else 0).
Proof.
  intros Hm Hk. destruct (Z.eqb_spec ((k + 1) mod m) 0) as [E | E];
    Z.div_mod_to_equations; nia.
Qed.

Lemma count_updates (A : Type) (m k : Z) (l : list A) :
  0 < m -> 0 <= k ->
  Z.of_nat (List.length (filter (fun i => (i + 1) mod m =? 0)
                                (map fst (enumerate_from k l))))
  = (k + Z.of_nat (List.length l)) / m - k / m.
Proof.
  intros Hm. revert k. induction l as [| x l IH]; intros k Hk.
  - simpl. rewrite Z.add_0_r. lia.
  - cbn [enumerate_from map fst filter List.length].
    pose proof (div_succ m k Hm Hk) as Hd.
    specialize (IH (k + 1) ltac:(lia)).
    replace (k + Z.of_nat (S (List.length l)))
      with (k + 1 + Z.of_nat (List.length l)) by lia.
    destruct ((k + 1) mod m =? 0); cbn [List.length]; lia.
Qed.

Lemma bind_raise {S A B : Type} (m : M S A) (k : A -> M S B) (s s' : S) (e : exn) :
  m s = (Raise e, s') -> bind m k s = (Raise e, s').
Proof. intros H. unfold bind. rewrite H. reflexivity. Qed.

Lemma bind_ok {S A B : Type} (m : M S A) (k : A -> M S B) (s s' : S) (a : A) :
  m s = (Ok a, s') -> bind m k s = k a s'.
Proof. intros H. unfold bind. rewrite H. reflexivity. Qed.

Section TrainEdges.
Context {T : Torch} {C : Collaborators}.

Lemma first_batch_not_break (prof : Z) : (prof >? 0) && (0 >=? prof) = false.
Proof.
  destruct (Z.gtb_spec prof 0), (Z.geb_spec 0 prof); simpl; try reflexivity; lia.
Qed.

(** What [train] does before its loop: it has called
    [optimizer.zero_grad()] and nothing else, and read the clock once. *)
Lemma train_unfold (train_loader : list batch) (s : scheduler) (fp16 : bool)
    (logger : option logger_ref) (epoch : Z) (use_amp : bool) (prof m : Z)
    (register_metrics : bool) (w : World) :
  exists w1,
    train train_loader s fp16 logger epoch use_amp prof m register_metrics w
    = train_for s fp16 logger epoch use_amp prof m (enumerate train_loader)
                (clock (ticks w)) w1 /\
    calls w1 = calls w ++ [optimizer_zero_grad_called] /\
    optimizer w1 = opt_zero_grad (optimizer w) /\
    ticks w1 = S (ticks w).
Proof.
  unfold train, optimizer_zero_grad_call, bind, when, method, modify, time_time, ret.
  destruct logger as [[] |], register_metrics; simpl;
    eexists; (split; [reflexivity |]); simpl; repeat split.
Qed.

(** X10. However it ends, [train] first calls [optimizer.zero_grad()]:
    gradients left in the parameters (those of trailing batches of the
    previous epoch that no update consumed) are cleared before the first
    batch is read. *)
Theorem train_clears_gradients_first
    (train_loader : list batch) (s : scheduler) (fp16 : bool)
    (logger : option logger_ref) (epoch : Z) (use_amp : bool) (prof m : Z)
    (register_metrics : bool) (w : World) :
  exists tr,
    new_calls w (snd (train train_loader s fp16 logger epoch use_amp prof m
                        register_metrics w))
    = optimizer_zero_grad_called :: tr.
Proof.
  destruct (train_unfold train_loader s fp16 logger epoch use_amp prof m
              register_metrics w) as [w1 [E [Hc1 _]]].
  rewrite E.
  destruct (quiet_train_for s fp16 logger epoch use_amp prof m
              (enumerate train_loader) (clock (ticks w)) w1) as [tr [Hc _]].
  exists tr. unfold new_calls. rewrite Hc, Hc1, <- app_assoc. apply skipn_new.
Qed.

(** X11. With [batch_size_multiplier = 0] and a loader that is not empty,
    [train] raises [ZeroDivisionError] at the first batch, from
    [(i + 1) % batch_size_multiplier], before any step is invoked: all it
    has called is the initial [optimizer.zero_grad()]. *)
Theorem train_zero_multiplier_raises
    (train_loader : list batch) (s : scheduler) (fp16 : bool)
    (logger : option logger_ref) (epoch : Z) (use_amp : bool) (prof : Z)
    (register_metrics : bool) (w : World) :
  train_loader <> [] ->
  (exists x, lr_fn s 0 epoch = Ok x) ->
  let r := train train_loader s fp16 logger epoch use_amp prof 0 register_metrics w in
  fst r = Raise ZeroDivisionError /\
  new_calls w (snd r) = [optimizer_zero_grad_called].
Proof.
  intros Hne Hlr r. subst r.
  destruct (train_unfold train_loader s fp16 logger epoch use_amp prof 0
              register_metrics w) as [w1 [E [Hc1 _]]].
  rewrite E. clear E.
  destruct train_loader as [| [x y] rest]; [contradiction |].
  destruct (returns_alr s 0 epoch w1
              (fun _ w' => calls w' = calls w1) Hlr (fun _ H _ => H))
    as [[] [w2 [E2 Hc2]]].
  match goal with
  | |- fst ?run = _ /\ _ => assert (E : run = (Raise ZeroDivisionError, tick w2))
  end.
  { unfold enumerate. cbn [enumerate_from train_for].
    rewrite (bind_ok _ _ _ _ _ E2).
    unfold bind at 1. unfold time_time at 1.
    rewrite first_batch_not_break.
    reflexivity. }
  rewrite E. split; [reflexivity |].
  unfold new_calls. cbn [snd calls tick]. rewrite Hc2, Hc1. apply skipn_new.
Qed.

(** X12. If the learning-rate function raises at the first batch (as the
    linear and cosine curves do when [epochs = warmup_length]), [train]
    raises the same exception before any step is invoked. *)
Theorem train_scheduler_error_propagates
    (train_loader : list batch) (s : scheduler) (fp16 : bool)
    (logger : option logger_ref) (epoch : Z) (use_amp : bool) (prof m : Z)
    (register_metrics : bool) (w : World) (e : exn) :
  train_loader <> [] ->
  lr_fn s 0 epoch = Raise e ->
  let r := train train_loader s fp16 logger epoch use_amp prof m register_metrics w in
  fst r = Raise e /\
  new_calls w (snd r) = [optimizer_zero_grad_called].
Proof.
  intros Hne Hlr r. subst r.
  destruct (train_unfold train_loader s fp16 logger epoch use_amp prof m
              register_metrics w) as [w1 [E [Hc1 _]]].
  rewrite E. clear E.
  destruct train_loader as [| [x y] rest]; [contradiction |].
  match goal with
  | |- fst ?run = _ /\ _ => assert (E : run = (Raise e, w1))
  end.
  { unfold enumerate. cbn [enumerate_from train_for].
    apply bind_raise. unfold _alr. apply bind_raise.
    unfold lift. rewrite Hlr. reflexivity. }
  rewrite E. split; [reflexivity |].
  unfold new_calls. cbn [snd]. rewrite Hc1. apply skipn_new.
Qed.

(** X13. Without a profiling limit and with [batch_size_multiplier = m > 0],
    on the path that runs the backward pass itself ([fp16] and [use_amp]
    off), an epoch over [n] batches calls [optimizer.step()] exactly
    [n / m] times (integer division): the gradients of the last [n mod m]
    batches are accumulated but not applied in that epoch. *)
Theorem optimizer_steps_per_epoch
    (train_loader : list batch) (s : scheduler) (fp16 : bool)
    (logger : option logger_ref) (epoch : Z) (use_amp : bool) (prof m : Z)
    (register_metrics : bool) (w : World) :
  fp16 = false ->
  use_amp = false ->
  0 < m -> prof <= 0 ->
  (forall i, exists x, lr_fn s i epoch = Ok x) ->
  logger = None \/ clock_advances ->
  let r := train train_loader s fp16 logger epoch use_amp prof m register_metrics w in
  fst r = Ok tt /\
  Z.of_nat (List.length (updated_after (-1) (new_calls w (snd r))))
  = Z.of_nat (List.length train_loader) / m.
Proof.
  intros Hfp16 Hamp Hm Hp Hlr Hlog r.
  destruct (returns_run _ _ _
              (train_returns train_loader s fp16 logger epoch use_amp prof m
                 register_metrics w ltac:(lia) Hlr Hlog))
    as [[] [Hok [tr [Hc [_ [Hu _]]]]]].
  fold r in Hok, Hc.
  split; [exact Hok |].
  unfold new_calls. rewrite Hc, skipn_new, Hu.
  rewrite take_until_never.
  - unfold enumerate. rewrite count_updates by lia.
    rewrite Z.add_0_l, Z.div_0_l by lia. lia.
  - intros i. unfold train_breaks.
    destruct (Z.gtb_spec prof 0); [lia | reflexivity].
Qed.

End TrainEdges.

Lemma train_zero_multiplier_raises_witness :
  example_loader <> [] /\
  fst (train example_loader example_scheduler false None 0 false (-1) 0 true
         example_world) = Raise ZeroDivisionError.
Proof.
  assert (Hne : example_loader <> []) by discriminate.
  assert (Hlr : exists x, lr_fn example_scheduler 0 0 = Ok x)
    by (exists 0%R; reflexivity).
  split; [exact Hne |].
  exact (proj1 (train_zero_multiplier_raises example_loader example_scheduler false
                  None 0 false (-1) true example_world Hne Hlr)).
Defined.

Lemma train_scheduler_error_propagates_witness :
  example_loader <> [] /\
  fst (train example_loader
         {| lr_fn := lr_linear_policy_fn 1 0 0; lr_logger := None |}
         false None 0 false (-1) 1 true example_world)
  = Raise ZeroDivisionError.
Proof.
  assert (Hne : example_loader <> []) by discriminate.
  split; [exact Hne |].
  exact (proj1 (train_scheduler_error_propagates example_loader
                  {| lr_fn := lr_linear_policy_fn 1 0 0; lr_logger := None |}
                  false None 0 false (-1) 1 true example_world ZeroDivisionError
                  Hne eq_refl)).
Defined.

Lemma optimizer_steps_per_epoch_witness :
  0 < 4 /\
  Z.of_nat (List.length
    (updated_after (-1)
       (new_calls example_world
          (snd (train example_loader example_scheduler false None 0 false (-1) 4
                  true example_world)))))
  = Z.of_nat (List.length example_loader) / 4.
Proof.
  assert (Hm : 0 < 4) by reflexivity.
  assert (Hp : -1 <= 0) by discriminate.
  assert (Hlr : forall i : Z, exists x, lr_fn example_scheduler i 0 = Ok x)
    by (intros i; exists 0%R; reflexivity).
  assert (Hlog : @None logger_ref = None \/ clock_advances)
    by (left; reflexivity).
  split; [exact Hm |].
  exact (proj2 (optimizer_steps_per_epoch example_loader example_scheduler false
                  None 0 false (-1) 4 true example_world eq_refl eq_refl
                  Hm Hp Hlr Hlog)).
Defined.


(** ** train_loop: complete runs *)

Section CompleteRuns.
Context {T : Torch} {C : Collaborators}.

Lemma saved_files_app (a b : list call) :
  saved_files (a ++ b) = saved_files a ++ saved_files b.
Proof.
  induction a as [| c a IH]; [reflexivity |].
  destruct c; simpl; rewrite IH; reflexivity.
Qed.

Lemma saved_files_none (tr : list call) :
  checkpoints tr = [] -> saved_files tr = [].
Proof.
  induction tr as [| c tr IH]; [reflexivity |].
  destruct c; simpl; intros H; try (apply IH; exact H); discriminate.
Qed.

Variables (lr_scheduler : scheduler) (train_loader val_loader : list batch)
  (fp16 : bool) (logger : option logger_ref) (should_backup_checkpoint : Z -> bool)
  (use_amp : bool) (batch_size_multiplier : Z) (start_epoch : Z) (prof : Z)
  (skip_training skip_validation save_checkpoints : bool)
  (checkpoint_dir : string).

Hypothesis multiplier_nonzero : batch_size_multiplier <> 0.
Hypothesis lr_fn_returns : forall i e, exists x, lr_fn lr_scheduler i e = Ok x.
Hypothesis can_end : epoch_can_end logger.

Lemma can_end_timing : logger = None \/ clock_advances.
Proof.
  unfold epoch_can_end in can_end.
  destruct logger; [right; exact can_end | left; reflexivity].
Qed.

(** An epoch of [train_loop] returns, having saved its checkpoint if the
    process saves checkpoints. *)
Lemma train_loop_epoch_returns (epoch : Z) (s : loop_vars * World) :
  returns
    (train_loop_epoch lr_scheduler train_loader val_loader fp16 logger
       should_backup_checkpoint use_amp batch_size_multiplier start_epoch prof
       skip_training skip_validation save_checkpoints checkpoint_dir epoch)
    s
    (fun _ s' =>
       exists tr,
         calls (snd s') = calls (snd s) ++ tr /\
         saved_files tr
         = if saves save_checkpoints skip_training
           then [(epoch + 1,
                  if should_backup_checkpoint epoch
                  then Some (backup_name epoch) else None)]
           else []).
Proof.
  unfold train_loop_epoch.
  apply returns_bind.
  assert (H1 : returns
                 (when (negb skip_training)
                    (in_world (train train_loader lr_scheduler fp16 logger epoch
                                 use_amp prof batch_size_multiplier
                                 (epoch =? start_epoch))))
                 s (fun _ s1 => exists tr1, calls (snd s1) = calls (snd s) ++ tr1 /\
                                            saved_files tr1 = [])).
  { destruct skip_training; simpl.
    - apply returns_ret. exists []. rewrite app_nil_r. split; reflexivity.
    - apply returns_in_world. eapply returns_weaken.
      + apply train_returns;
          [exact multiplier_nonzero | intros i; apply lr_fn_returns
          | exact can_end_timing].
      + intros _ w1 [tr [Hc [_ [_ Hk]]]]. exists tr.
        split; [exact Hc | apply saved_files_none; exact Hk]. }
  eapply returns_weaken; [exact H1 |]. clear H1.
  intros _ s1 [tr1 [Hc1 Hk1]].
  apply returns_bind.
  assert (H2 : returns
                 (when (negb skip_validation)
                    (p <- in_world (validate val_loader fp16 logger epoch prof
                                      (epoch =? start_epoch)) ;;
                     modify (set_prec1 p)))
                 s1 (fun _ s2 => exists tr2, calls (snd s2) = calls (snd s1) ++ tr2 /\
                                             saved_files tr2 = [])).
  { destruct skip_validation; simpl.
    - apply returns_ret. exists []. rewrite app_nil_r. split; reflexivity.
    - apply returns_bind. apply returns_in_world. eapply returns_weaken.
      + apply validate_returns. exact can_end_timing.
      + intros p w2 [tr [Hc [_ [_ [_ Hk]]]]].
        apply returns_modify. exists tr.
        split; [exact Hc | apply saved_files_none; exact Hk]. }
  eapply returns_weaken; [exact H2 |]. clear H2.
  intros _ s2 [tr2 [Hc2 Hk2]].
  apply returns_bind.
  assert (H3 : returns
    (when (save_checkpoints && (negb is_initialized || (get_rank =? 0)))
       (when (negb skip_training)
          (p <- gets (fun s : loop_vars * World => prec1 (fst s)) ;;
           b <- gets (fun s : loop_vars * World => best_prec1 (fst s)) ;;
           modify (set_best_prec1 (py_max p b)) ;;
           b' <- gets (fun s : loop_vars * World => best_prec1 (fst s)) ;;
           o <- gets (fun s : loop_vars * World => optimizer (snd s)) ;;
           in_world
             (modify
                (add_call
                   (save_checkpoint_called
                      {| ck_epoch := epoch + 1;
                         ck_arch := model_arch;
                         ck_state_dict := model_state_dict (param_groups o);
                         ck_best_prec1 := b';
                         ck_optimizer := opt_state_dict o |}
                      (py_gt p b) checkpoint_dir
                      (if should_backup_checkpoint epoch
                       then Some ("checkpoint-" ++ format_int (epoch + 1)
                                  ++ ".pth.tar")%string
                       else None)))))))
    s2
    (fun _ s3 => exists tr3, calls (snd s3) = calls (snd s2) ++ tr3 /\
       saved_files tr3
       = (if saves save_checkpoints skip_training
          then [(epoch + 1,
                 if should_backup_checkpoint epoch
                 then Some (backup_name epoch) else None)]
          else []))).
  { unfold saves.
    destruct (save_checkpoints && (negb is_initialized || (get_rank =? 0)));
      simpl.
    - destruct skip_training; simpl.
      + apply returns_ret. exists []. rewrite app_nil_r. split; reflexivity.
      + repeat (apply returns_bind; first [apply returns_gets | apply returns_modify]).
        apply returns_in_world. apply returns_modify.
        eexists. split; reflexivity.
    - apply returns_ret. exists []. rewrite app_nil_r. split; reflexivity. }
  eapply returns_weaken; [exact H3 |]. clear H3.
  intros _ s3 [tr3 [Hc3 Hk3]].
  assert (H4 : returns
                 (when (negb is_initialized || (get_rank =? 0))
                    (in_world (method logger logger_end)))
                 s3 (fun _ s4 => calls (snd s4) = calls (snd s3))).
  { unfold epoch_can_end in can_end. destruct logger as [[] |].
    - destruct (negb is_initialized || (get_rank =? 0)); simpl.
      + apply returns_in_world. apply returns_method. reflexivity.
      + apply returns_ret. reflexivity.
    - rewrite can_end. apply returns_ret. reflexivity. }
  eapply returns_weaken; [exact H4 |]. clear H4.
  intros u4 s4 Hc4. cbv beta in Hc4.
  exists (tr1 ++ tr2 ++ tr3). split.
  - rewrite Hc4, Hc3, Hc2, Hc1, <- !app_assoc. reflexivity.
  - rewrite !saved_files_app, Hk1, Hk2, Hk3. reflexivity.
Qed.

Lemma for_each_epoch_returns (f : Z -> list (Z * option string))
    (body : Z -> M (loop_vars * World) unit) :
  (forall epoch s,
     returns (body epoch) s
       (fun _ s' => exists tr, calls (snd s') = calls (snd s) ++ tr /\
                               saved_files tr = f epoch)) ->
  forall (epoch_iter : list Z) (s : loop_vars * World),
    returns (for_each epoch_iter body) s
      (fun _ s' => exists tr, calls (snd s') = calls (snd s) ++ tr /\
                              saved_files tr = flat_map f epoch_iter).
Proof.
  intros Hbody epoch_iter.
  induction epoch_iter as [| epoch rest IH]; intros s; cbn [for_each flat_map].
  - apply returns_ret. exists []. rewrite app_nil_r. split; reflexivity.
  - apply returns_bind. eapply returns_weaken; [apply Hbody |].
    intros _ s1 [tr1 [Hc1 Hk1]].
    eapply returns_weaken; [apply IH |].
    intros _ s2 [tr2 [Hc2 Hk2]].
    exists (tr1 ++ tr2). split.
    + rewrite Hc2, Hc1, app_assoc. reflexivity.
    + rewrite saved_files_app, Hk1, Hk2. reflexivity.
Qed.

End CompleteRuns.

Lemma flat_map_singleton (A B : Type) (g : A -> B) (l : list A) :
  flat_map (fun a => [g a]) l = map g l.
Proof. induction l as [| a l IH]; simpl; [| rewrite IH]; reflexivity. Qed.

Lemma flat_map_nil (A B : Type) (l : list A) :
  flat_map (fun _ : A => @nil B) l = [].
Proof. induction l as [| a l IH]; simpl; [| rewrite IH]; reflexivity. Qed.

Section CompleteRunTheorem.
Context {T : Torch} {C : Collaborators}.

(** X14. A training run of [train_loop] (not in [skip_training] mode, and
    on the path that runs the backward pass itself, [fp16] and [use_amp]
    off) returns normally when every epoch can end: with a logger, when
    the clock advances; without one, on a process that is a non-zero rank
    of a distributed run (the only one that does not call [logger.end()]);
    and with a non-zero [batch_size_multiplier] and a scheduler that
    returns. A process that saves checkpoints ([save_checkpoints], rank 0
    or not distributed) then has saved exactly one per epoch of
    [range(start_epoch, epochs)], in order, recording [epoch + 1], with
    the backup file ["checkpoint-<epoch+1>.pth.tar"] exactly for the epochs
    [should_backup_checkpoint] selects; any other process has saved none. *)
Theorem train_loop_complete_run
    (lr_scheduler : scheduler) (train_loader val_loader debug_loader : list batch)
    (epochs : Z) (fp16 : bool) (logger : option logger_ref)
    (should_backup_checkpoint : Z -> bool)
    (use_amp : bool) (batch_size_multiplier : Z) (best_prec1_0 : R)
    (start_epoch : Z) (prof : Z)
    (skip_training skip_validation save_checkpoints : bool)
    (checkpoint_dir : string) (w : World) :
  fp16 = false ->
  use_amp = false ->
  skip_training = false ->
  batch_size_multiplier <> 0 ->
  (forall i e, exists x, lr_fn lr_scheduler i e = Ok x) ->
  epoch_can_end logger ->
  let r := train_loop lr_scheduler train_loader val_loader debug_loader epochs fp16
             logger should_backup_checkpoint use_amp batch_size_multiplier
             best_prec1_0 start_epoch prof skip_training skip_validation
             save_checkpoints checkpoint_dir w in
  fst r = Ok tt /\
  saved_files (new_calls w (snd (snd r)))
  = if saves save_checkpoints skip_training
    then map (fun epoch =>
                (epoch + 1,
                 if should_backup_checkpoint epoch
                 then Some (backup_name epoch) else None))
             (py_range start_epoch epochs)
    else [].
Proof.
  intros Hfp16 Hamp Hskip Hm Hlr Hend r.
  assert (H : returns
                (fun s => train_loop lr_scheduler train_loader val_loader debug_loader
                            epochs fp16 logger should_backup_checkpoint use_amp
                            batch_size_multiplier best_prec1_0 start_epoch prof
                            skip_training skip_validation save_checkpoints
                            checkpoint_dir (snd s))
                ({| prec1 := -1; best_prec1 := best_prec1_0 |}, w)
                (fun _ s' =>
                   exists tr, calls (snd s') = calls w ++ tr /\
                     saved_files tr
                     = flat_map
                         (fun epoch =>
                            if saves save_checkpoints skip_training
                            then [(epoch + 1,
                                   if should_backup_checkpoint epoch
                                   then Some (backup_name epoch) else None)]
                            else [])
                         (py_range start_epoch epochs))).
  { unfold train_loop. cbn [snd].
    apply returns_bind.
    assert (H0 : returns
                   (when (is_not_None logger)
                      (in_world (method logger epoch_generator_wrapper)))
                   ({| prec1 := -1; best_prec1 := best_prec1_0 |}, w)
                   (fun _ s0 => calls (snd s0) = calls w)).
    { destruct logger as [[] |]; simpl.
      - apply returns_in_world. apply returns_method. reflexivity.
      - apply returns_ret. reflexivity. }
    eapply returns_weaken; [exact H0 |]. clear H0.
    intros u0 s0 Hc0. cbv beta in Hc0.
    apply returns_bind.
    eapply returns_weaken.
    { apply for_each_epoch_returns. intros epoch s.
      apply train_loop_epoch_returns; assumption. }
    intros _ s1 [tr [Hc1 Hk1]].
    rewrite Hskip. simpl.
    apply returns_ret. exists tr. split; [| rewrite <- Hskip; exact Hk1].
    rewrite Hc1, Hc0. reflexivity. }
  destruct H as [[] [s' [E [tr [Hc Hk]]]]]. simpl in E.
  subst r. rewrite E. cbn [fst snd].
  split; [reflexivity |].
  unfold new_calls. rewrite Hc, skipn_new, Hk.
  destruct (saves save_checkpoints skip_training).
  - apply flat_map_singleton.
  - apply flat_map_nil.
Qed.

End CompleteRunTheorem.

Lemma example_clock_advances : @clock_advances example_torch example_collaborators.
Proof. intros k. change (INR k < INR (S k))%R. rewrite S_INR. lra. Qed.

(** Two epochs with a logger, backing up the second one. *)
Lemma train_loop_complete_run_witness :
  1 <> 0 /\
  fst (train_loop example_scheduler example_loader example_loader [] 2 false
         (Some the_logger) (fun e => e =? 1) false 1 0 0 (-1) false false true "./"
         example_world) = Ok tt /\
  saved_files
    (new_calls example_world
       (snd (snd (train_loop example_scheduler example_loader example_loader [] 2
                    false (Some the_logger) (fun e => e =? 1) false 1 0 0 (-1)
                    false false true "./" example_world))))
  = [(1, None); (2, Some "checkpoint-2.pth.tar"%string)].
Proof.
  assert (Hm : 1 <> 0) by discriminate.
  assert (Hlr : forall i e : Z, exists x, lr_fn example_scheduler i e = Ok x)
    by (intros i e; exists 0%R; reflexivity).
  split; [exact Hm |].
  exact (train_loop_complete_run example_scheduler example_loader example_loader
           [] 2 false (Some the_logger) (fun e => e =? 1) false 1 0 0 (-1)
           false false true "./" example_world eq_refl eq_refl eq_refl
           Hm Hlr example_clock_advances).
Defined.

(** A non-zero rank of a distributed run, without a logger. *)
Example worker_without_logger :
  fst (@train_loop example_torch example_worker example_scheduler example_loader
         example_loader [] 2 false None (fun _ => true) false 1 0 0 (-1)
         false false true "./" example_world) = Ok tt.
Proof. vm_compute. reflexivity. Qed.

(** ** train_loop: what a process that does not save never does *)

Section NotSaving.
Context {T : Torch} {C : Collaborators}.

Variables (lr_scheduler : scheduler) (train_loader val_loader : list batch)
  (fp16 : bool) (logger : option logger_ref) (should_backup_checkpoint : Z -> bool)
  (use_amp : bool) (batch_size_multiplier : Z) (start_epoch : Z) (prof : Z)
  (skip_training skip_validation save_checkpoints : bool)
  (checkpoint_dir : string).

(** An epoch of a process that does not save keeps [best_prec1]. *)
Lemma train_loop_epoch_not_saving (epoch : Z) (s : loop_vars * World) :
  saves save_checkpoints skip_training = false ->
  let s' := snd (train_loop_epoch lr_scheduler train_loader val_loader fp16 logger
                   should_backup_checkpoint use_amp batch_size_multiplier start_epoch
                   prof skip_training skip_validation save_checkpoints checkpoint_dir
                   epoch s) in
  best_prec1 (fst s') = best_prec1 (fst s) /\ saves_nothing (snd s) (snd s').
Proof.
  intros Hsaves s'. subst s'. destruct s as [v w].
  remember (train_loop_epoch _ _ _ _ _ _ _ _ _ _ _ _ _ _ _ _) as res eqn:Eres.
  unfold train_loop_epoch in Eres.
  pose proof (train_phase lr_scheduler train_loader fp16 logger use_amp
                batch_size_multiplier start_epoch prof skip_training epoch v w) as H1.
  cbv zeta in H1.
  unfold bind at 1 in Eres.
  destruct (when (negb skip_training) _ (v, w)) as [r1 [v1 w1]].
  simpl in H1. destruct H1 as [-> H1].
  destruct r1 as [[] | e1].
  2:{ subst res. simpl. split; [reflexivity | exact H1]. }
  pose proof (validate_phase val_loader fp16 logger start_epoch prof skip_validation
                epoch v w1) as H2.
  cbv zeta in H2.
  unfold bind at 1 in Eres.
  destruct (when (negb skip_validation) _ (v, w1)) as [r2 [v2 w2]].
  simpl in H2. destruct H2 as [Hb2 [H2 _]].
  assert (H12 : saves_nothing w w2) by (eapply saves_nothing_trans; eassumption).
  destruct r2 as [[] | e2].
  2:{ subst res. simpl. split; [exact Hb2 | exact H12]. }
  unfold saves in Hsaves.
  unfold bind, when, gets, modify, in_world, ret, method, raise in Eres.
  destruct save_checkpoints, skip_training, is_initialized, (get_rank =? 0),
    logger as [[] |]; simpl in Hsaves; try discriminate;
    simpl in Eres; subst res; simpl;
    (split; [exact Hb2 |]);
    destruct H12 as [tr [Hc Hk]]; exists tr; (split; [exact Hc | exact Hk]).
Qed.

Lemma for_each_epoch_not_saving (body : Z -> M (loop_vars * World) unit) :
  (forall epoch s,
     best_prec1 (fst (snd (body epoch s))) = best_prec1 (fst s) /\
     saves_nothing (snd s) (snd (snd (body epoch s)))) ->
  forall (epoch_iter : list Z) (s : loop_vars * World),
    best_prec1 (fst (snd (for_each epoch_iter body s))) = best_prec1 (fst s) /\
    saves_nothing (snd s) (snd (snd (for_each epoch_iter body s))).
Proof.
  intros Hbody epoch_iter.
  induction epoch_iter as [| epoch rest IH]; intros s; cbn [for_each].
  - simpl. split; [reflexivity | apply saves_nothing_refl].
  - unfold bind. destruct (Hbody epoch s) as [Hb1 Hs1].
    destruct (body epoch s) as [[[] | e] s1]; simpl in *.
    + destruct (IH s1) as [Hb2 Hs2]. split; [congruence |].
      eapply saves_nothing_trans; eassumption.
    + split; assumption.
Qed.

End NotSaving.

Section NotSavingTheorem.
Context {T : Torch} {C : Collaborators}.

(** X15. A checkpoint is saved only by a process with [save_checkpoints]
    set, not in [skip_training] mode, and of rank 0 or not distributed. On
    any other process, however [train_loop] ends, it has saved no
    checkpoint and its [best_prec1] is still the one it was given: the
    best accuracy is tracked only where checkpoints are saved. *)
Theorem no_checkpoint_no_best
    (lr_scheduler : scheduler) (train_loader val_loader debug_loader : list batch)
    (epochs : Z) (fp16 : bool) (logger : option logger_ref)
    (should_backup_checkpoint : Z -> bool)
    (use_amp : bool) (batch_size_multiplier : Z) (best_prec1_0 : R)
    (start_epoch : Z) (prof : Z)
    (skip_training skip_validation save_checkpoints : bool)
    (checkpoint_dir : string) (w : World) :
  saves save_checkpoints skip_training = false ->
  let r := train_loop lr_scheduler train_loader val_loader debug_loader epochs fp16
             logger should_backup_checkpoint use_amp batch_size_multiplier
             best_prec1_0 start_epoch prof skip_training skip_validation
             save_checkpoints checkpoint_dir w in
  checkpoints (new_calls w (snd (snd r))) = [] /\
  best_prec1 (fst (snd r)) = best_prec1_0.
Proof.
  intros Hsaves r. subst r.
  remember (train_loop _ _ _ _ _ _ _ _ _ _ _ _ _ _ _ _ _ _) as res eqn:Eres.
  unfold train_loop in Eres.
  set (body := train_loop_epoch _ _ _ _ _ _ _ _ _ _ _ _ _ _) in Eres.
  set (v0 := {| prec1 := -1; best_prec1 := best_prec1_0 |}) in Eres.
  assert (Hinit : exists w0,
             when (is_not_None logger) (in_world (method logger epoch_generator_wrapper))
                  (v0, w) = (Ok tt, (v0, w0)) /\ calls w0 = calls w).
  { destruct logger as [[] |]; simpl; eexists; split; reflexivity. }
  destruct Hinit as [w0 [Einit Hc0]].
  unfold bind at 1 in Eres. rewrite Einit in Eres.
  destruct (for_each_epoch_not_saving body
              (fun epoch s =>
                 train_loop_epoch_not_saving lr_scheduler train_loader val_loader
                   fp16 logger should_backup_checkpoint use_amp batch_size_multiplier
                   start_epoch prof skip_training skip_validation save_checkpoints
                   checkpoint_dir epoch s Hsaves)
              (py_range start_epoch epochs) (v0, w0)) as [Hb [tr [Hc Hk]]].
  simpl in Hb, Hc.
  unfold bind in Eres.
  destruct (for_each (py_range start_epoch epochs) body (v0, w0))
    as [[[] | e] [v1 w1]]; simpl in Hb, Hc.
  - pose proof (quiet_diagnostic skip_training val_loader (v1, w1)) as Hd.
    cbv zeta in Hd. subst res.
    destruct (when skip_training _ (v1, w1)) as [rd [vd wd]].
    simpl in Hd |- *. destruct Hd as [-> [trd [Hcd Hkd]]].
    split; [| exact Hb].
    unfold new_calls. rewrite Hcd, Hc, Hc0, <- app_assoc, skipn_new.
    rewrite checkpoints_app, Hk, Hkd. reflexivity.
  - subst res. simpl. split; [| exact Hb].
    unfold new_calls. rewrite Hc, Hc0, skipn_new. exact Hk.
Qed.

(** X16. With [epochs <= start_epoch] the epoch range is empty:
    [train_loop] trains, validates and saves nothing, also without a
    logger. Outside [skip_training] mode it returns at once, having made no
    call and left the optimizer as it was. In [skip_training] mode its one
    call is the diagnostic [plot_bin_hist], handed the optimizer and the
    validation loader as they were given, and the run ends as the
    diagnostic does, with the optimizer the diagnostic leaves. *)
Theorem train_loop_empty_range
    (lr_scheduler : scheduler) (train_loader val_loader debug_loader : list batch)
    (epochs : Z) (fp16 : bool) (logger : option logger_ref)
    (should_backup_checkpoint : Z -> bool)
    (use_amp : bool) (batch_size_multiplier : Z) (best_prec1_0 : R)
    (start_epoch : Z) (prof : Z)
    (skip_training skip_validation save_checkpoints : bool)
    (checkpoint_dir : string) (w : World) :
  epochs <= start_epoch ->
  let r := train_loop lr_scheduler train_loader val_loader debug_loader epochs fp16
             logger should_backup_checkpoint use_amp batch_size_multiplier
             best_prec1_0 start_epoch prof skip_training skip_validation
             save_checkpoints checkpoint_dir w in
  let d := debug_plot_bin_hist (optimizer w) (training w) val_loader in
  fst r = (if skip_training then fst d else Ok tt) /\
  new_calls w (snd (snd r))
  = (if skip_training then [plot_bin_hist_called (optimizer w) val_loader] else []) /\
  optimizer (snd (snd r)) = (if skip_training then fst (snd d) else optimizer w) /\
  fst (snd r) = {| prec1 := -1; best_prec1 := best_prec1_0 |}.
Proof.
  intros Hle r d. subst r d. unfold train_loop, py_range.
  replace (Z.to_nat (epochs - start_epoch)) with 0%nat by lia.
  cbn [seq map for_each].
  unfold new_calls.
  destruct logger as [[] |], skip_training; simpl;
    rewrite ?app_nil_r;
    repeat split;
    first [ apply skipn_new
          | rewrite <- (app_nil_r (calls w)) at 2; rewrite skipn_new; reflexivity
          | rewrite <- (app_nil_r (calls w)) at 1; rewrite skipn_new; reflexivity ].
Qed.

End NotSavingTheorem.

Lemma no_checkpoint_no_best_witness :
  checkpoints
    (new_calls example_world
       (snd (snd (train_loop example_scheduler example_loader example_loader [] 2
                    false (Some the_logger) (fun _ => true) false 1 0.5 0 (-1)
                    false false false "./" example_world)))) = [] /\
  best_prec1
    (fst (snd (train_loop example_scheduler example_loader example_loader [] 2
                 false (Some the_logger) (fun _ => true) false 1 0.5 0 (-1)
                 false false false "./" example_world))) = 0.5%R.
Proof.
  exact (no_checkpoint_no_best example_scheduler example_loader example_loader
           [] 2 false (Some the_logger) (fun _ => true) false 1 0.5 0 (-1)
           false false false "./" example_world eq_refl).
Defined.

Lemma train_loop_empty_range_witness :
  3 <= 3 /\
  fst (train_loop example_scheduler example_loader example_loader [] 3 false None
         (fun _ => true) false 1 0 3 (-1) false false true "./" example_world)
  = Ok tt.
Proof.
  assert (Hle : 3 <= 3) by discriminate.
  split; [exact Hle |].
  exact (proj1 (train_loop_empty_range example_scheduler example_loader
                  example_loader [] 3 false None (fun _ => true) false 1 0 3 (-1)
                  false false true "./" example_world Hle)).
Defined.

(** ** train_loop in [skip_training] mode *)

Section SkipTraining.
Context {T : Torch} {C : Collaborators}.

Lemma for_each_world_preorder (Rel : World -> World -> Prop)
    (body : Z -> M (loop_vars * World) unit) :
  (forall w, Rel w w) ->
  (forall w1 w2 w3, Rel w1 w2 -> Rel w2 w3 -> Rel w1 w3) ->
  (forall epoch s, Rel (snd s) (snd (snd (body epoch s)))) ->
  forall (epoch_iter : list Z) (s : loop_vars * World),
    Rel (snd s) (snd (snd (for_each epoch_iter body s))).
Proof.
  intros Hrefl Htrans Hbody epoch_iter.
  induction epoch_iter as [| epoch rest IH]; intros s; cbn [for_each].
  - apply Hrefl.
  - unfold bind. pose proof (Hbody epoch s) as H1.
    destruct (body epoch s) as [[[] | e] s1]; simpl in *.
    + eapply Htrans; [exact H1 | apply IH].
    + exact H1.
Qed.

Variables (lr_scheduler : scheduler) (train_loader val_loader : list batch)
  (fp16 : bool) (logger : option logger_ref) (should_backup_checkpoint : Z -> bool)
  (use_amp : bool) (batch_size_multiplier : Z) (start_epoch : Z) (prof : Z)
  (skip_validation save_checkpoints : bool) (checkpoint_dir : string).

Lemma train_loop_epoch_skip_training (epoch : Z) (s : loop_vars * World) :
  untouched is_val_step_call (snd s)
    (snd (snd (train_loop_epoch lr_scheduler train_loader val_loader fp16 logger
                 should_backup_checkpoint use_amp batch_size_multiplier start_epoch
                 prof true skip_validation save_checkpoints checkpoint_dir
                 epoch s))).
Proof.
  destruct s as [v w].
  remember (train_loop_epoch _ _ _ _ _ _ _ _ _ _ _ _ _ _ _ _) as res eqn:Eres.
  unfold train_loop_epoch in Eres.
  unfold bind, when, gets, modify, in_world, ret, method, raise in Eres.
  simpl in Eres.
  pose proof (validate_untouched val_loader fp16 logger epoch prof
                (epoch =? start_epoch) w) as Hv.
  destruct skip_validation; simpl in Eres.
  - destruct save_checkpoints, is_initialized, (get_rank =? 0), logger as [[] |];
      simpl in Eres; subst res; simpl;
      first [apply untouched_refl | apply untouched_same; reflexivity].
  - destruct (validate _ _ _ _ _ _ w) as [[p | e] w1]; simpl in Hv, Eres.
    + destruct save_checkpoints, is_initialized, (get_rank =? 0), logger as [[] |];
        simpl in Eres; subst res; simpl;
        first [ exact Hv
              | eapply untouched_trans;
                [exact Hv | apply untouched_same; reflexivity] ].
    + subst res. exact Hv.
Qed.

End SkipTraining.

Section SkipTrainingTheorem.
Context {T : Torch} {C : Collaborators}.

Lemma val_step_call_accepted (c : call) :
  is_val_step_call c = true -> is_val_step_or_plot_call c = true.
Proof. destruct c; simpl; intros H; first [reflexivity | exact H]. Qed.

Lemma val_step_calls_accepted (tr : list call) :
  forallb is_val_step_call tr = true ->
  forallb is_val_step_or_plot_call tr = true.
Proof.
  rewrite !forallb_forall. intros H c Hin.
  apply val_step_call_accepted, H, Hin.
Qed.

(** X17. In [skip_training] mode [train_loop] still goes through the
    epochs, validating in each one; however it ends, it has invoked no
    train step, never called [optimizer.step()] and saved no checkpoint.
    Its calls are validation steps, followed by the diagnostic
    [plot_bin_hist] when every epoch has returned. Up to that call the
    optimizer is as it was (no parameter, gradient or learning rate
    changed): a run that an epoch ends with an exception leaves the
    optimizer unchanged, and otherwise the diagnostic is handed the very
    optimizer [train_loop] was given, the run ending as the diagnostic
    does and with the optimizer the diagnostic leaves. *)
Theorem skip_training_only_validates
    (lr_scheduler : scheduler) (train_loader val_loader debug_loader : list batch)
    (epochs : Z) (fp16 : bool) (logger : option logger_ref)
    (should_backup_checkpoint : Z -> bool)
    (use_amp : bool) (batch_size_multiplier : Z) (best_prec1_0 : R)
    (start_epoch : Z) (prof : Z) (skip_validation save_checkpoints : bool)
    (checkpoint_dir : string) (w : World) :
  let r := train_loop lr_scheduler train_loader val_loader debug_loader epochs fp16
             logger should_backup_checkpoint use_amp batch_size_multiplier
             best_prec1_0 start_epoch prof true skip_validation
             save_checkpoints checkpoint_dir w in
  let cs := new_calls w (snd (snd r)) in
  train_steps cs = [] /\
  (forall last, updated_after last cs = []) /\
  checkpoints cs = [] /\
  exists vs,
    forallb is_val_step_call vs = true /\
    (((exists e, fst r = Raise e) /\
      cs = vs /\
      optimizer (snd (snd r)) = optimizer w)
     \/
     (exists mode,
        let d := debug_plot_bin_hist (optimizer w) mode val_loader in
        cs = vs ++ [plot_bin_hist_called (optimizer w) val_loader] /\
        fst r = fst d /\
        optimizer (snd (snd r)) = fst (snd d))).
Proof.
  intros r cs.
  assert (H : exists vs,
             forallb is_val_step_call vs = true /\
             (((exists e, fst r = Raise e) /\
               cs = vs /\
               optimizer (snd (snd r)) = optimizer w)
              \/
              (exists mode,
                 let d := debug_plot_bin_hist (optimizer w) mode val_loader in
                 cs = vs ++ [plot_bin_hist_called (optimizer w) val_loader] /\
                 fst r = fst d /\
                 optimizer (snd (snd r)) = fst (snd d)))).
  { subst cs r.
    remember (train_loop _ _ _ _ _ _ _ _ _ _ _ _ _ _ _ _ _ _) as res eqn:Eres.
    unfold train_loop in Eres.
    set (body := train_loop_epoch _ _ _ _ _ _ _ _ _ _ _ _ _ _) in Eres.
    set (v0 := {| prec1 := -1; best_prec1 := best_prec1_0 |}) in Eres.
    assert (Hinit : exists w0,
               when (is_not_None logger)
                    (in_world (method logger epoch_generator_wrapper))
                    (v0, w) = (Ok tt, (v0, w0)) /\
               untouched is_val_step_call w w0).
    { destruct logger as [[] |]; simpl; eexists;
        (split; [reflexivity |]);
        first [apply untouched_refl | apply untouched_same; reflexivity]. }
    destruct Hinit as [w0 [Einit H0]].
    unfold bind at 1 in Eres. rewrite Einit in Eres.
    pose proof (for_each_world_preorder (untouched is_val_step_call) body
                  (untouched_refl _) (untouched_trans _)
                  (fun epoch s =>
                     train_loop_epoch_skip_training lr_scheduler train_loader
                       val_loader fp16 logger should_backup_checkpoint use_amp
                       batch_size_multiplier start_epoch prof skip_validation
                       save_checkpoints checkpoint_dir epoch s)
                  (py_range start_epoch epochs) (v0, w0)) as Hloop.
    simpl in Hloop.
    unfold bind in Eres.
    destruct (for_each (py_range start_epoch epochs) body (v0, w0))
      as [[[] | e] [v1 w1]]; simpl in Hloop;
      destruct (untouched_trans _ _ _ _ H0 Hloop) as [Ho [vs [Hc Hvs]]];
      exists vs; (split; [exact Hvs |]).
    - right. exists (training w1). subst res.
      cbn [when in_world plot_bin_hist fst snd].
      cbn [optimizer calls set_training set_optimizer add_call].
      rewrite Ho. split; [| split; reflexivity].
      unfold new_calls. cbn [calls set_training set_optimizer add_call].
      rewrite Hc, <- app_assoc. apply skipn_new.
    - left. subst res. cbn [fst snd].
      split; [exists e; reflexivity |]. split; [| exact Ho].
      unfold new_calls. rewrite Hc. apply skipn_new. }
  destruct H as [vs [Hvs Hcases]].
  assert (Hall : forallb is_val_step_or_plot_call cs = true).
  { destruct Hcases as [[_ [-> _]] | [mode [-> _]]].
    - apply val_step_calls_accepted. exact Hvs.
    - rewrite forallb_app, (val_step_calls_accepted _ Hvs). reflexivity. }
  destruct (only_val_steps cs Hall) as [H1 [H2 [H3 _]]].
  split; [exact H1 |]. split; [exact H2 |]. split; [exact H3 |].
  exists vs. split; [exact Hvs | exact Hcases].
Qed.

End SkipTrainingTheorem.

(** ** Backup file names *)

Lemma string_length_append (s t : string) :
  String.length (s ++ t) = (String.length s + String.length t)%nat.
Proof. induction s as [| c s IH]; simpl; [| rewrite IH]; reflexivity. Qed.

Lemma string_append_cancel_r (s1 s2 t : string) :
  (s1 ++ t = s2 ++ t)%string -> s1 = s2.
Proof.
  revert s2. induction s1 as [| c s1 IH]; intros [| d s2] H; simpl in H.
  - reflexivity.
  - apply (f_equal String.length) in H. simpl in H.
    rewrite string_length_append in H. lia.
  - apply (f_equal String.length) in H. simpl in H.
    rewrite string_length_append in H. lia.
  - injection H as -> H. f_equal. apply IH. exact H.
Qed.

Lemma format_int_parses (n : Z) :
  NilZero.int_of_string (format_int n) = Some (Z.to_int n).
Proof.
  unfold format_int. apply NilZero.isi.
  - destruct n; simpl; try discriminate.
    intros H. injection H as H. exact (DecimalPos.Unsigned.to_uint_nonnil _ H).
  - destruct n; simpl; try discriminate.
    intros H. injection H as H. exact (DecimalPos.Unsigned.to_uint_nonnil _ H).
Qed.

(** X18. The backup files of different epochs have different names: the
    decimal rendering of [epoch + 1] in ["checkpoint-{}.pth.tar"] can be
    read back, so one backup never overwrites another. *)
Theorem backup_names_distinct (epoch epoch' : Z) :
  epoch <> epoch' -> backup_name epoch <> backup_name epoch'.
Proof.
  intros Hne Heq. apply Hne. unfold backup_name in Heq.
  simpl in Heq.
  repeat match type of Heq with
         | String _ _ = String _ _ => injection Heq as Heq
         end.
  apply string_append_cancel_r in Heq.
  apply (f_equal NilZero.int_of_string) in Heq.
  rewrite !format_int_parses in Heq. injection Heq as Heq.
  apply DecimalZ.to_int_inj in Heq. lia.
Qed.

Lemma backup_names_distinct_witness :
  9 <> 99 /\ backup_name 9 <> backup_name 99.
Proof.
  assert (H : 9 <> 99) by discriminate.
  split; [exact H | exact (backup_names_distinct 9 99 H)].
Defined.

Example backup_name_of_epoch_nine : backup_name 9 = "checkpoint-10.pth.tar"%string.
Proof. reflexivity. Qed.

(** ** train_loop without validation *)

Section SkipValidation.
Context {T : Torch} {C : Collaborators}.

Variables (lr_scheduler : scheduler) (train_loader val_loader : list batch)
  (fp16 : bool) (logger : option logger_ref) (should_backup_checkpoint : Z -> bool)
  (use_amp : bool) (batch_size_multiplier : Z) (start_epoch : Z) (prof : Z)
  (skip_training save_checkpoints : bool) (checkpoint_dir : string).

(** An epoch without validation: [prec1] stays, and when it does not
    exceed [best_prec1], so does [best_prec1], and a checkpoint saved is
    not the best. *)
Lemma train_loop_epoch_skip_validation (epoch : Z) (v : loop_vars) (w : World) :
  (prec1 v <= best_prec1 v)%R ->
  let s' := snd (train_loop_epoch lr_scheduler train_loader val_loader fp16 logger
                   should_backup_checkpoint use_amp batch_size_multiplier start_epoch
                   prof skip_training true save_checkpoints checkpoint_dir
                   epoch (v, w)) in
  prec1 (fst s') = prec1 v /\
  best_prec1 (fst s') = best_prec1 v /\
  exists tr,
    calls (snd s') = calls w ++ tr /\
    forall ck is_best,
      In (ck, is_best) (checkpoints tr) ->
      is_best = false /\ ck_best_prec1 ck = best_prec1 v.
Proof.
  intros Hle s'. subst s'.
  remember (train_loop_epoch _ _ _ _ _ _ _ _ _ _ _ _ _ _ _ _) as res eqn:Eres.
  unfold train_loop_epoch in Eres.
  pose proof (train_phase lr_scheduler train_loader fp16 logger use_amp
                batch_size_multiplier start_epoch prof skip_training epoch v w) as H1.
  cbv zeta in H1.
  unfold bind at 1 in Eres.
  destruct (when (negb skip_training) _ (v, w)) as [r1 [v1 w1]].
  simpl in H1. destruct H1 as [-> [tr1 [Hc1 Hk1]]].
  destruct r1 as [[] | e1].
  2:{ subst res. simpl. split; [reflexivity |]. split; [reflexivity |].
      exists tr1. split; [exact Hc1 |]. rewrite Hk1. intros ck ib []. }
  assert (Hgt : py_gt (prec1 v) (best_prec1 v) = false).
  { unfold py_gt. destruct (Rlt_dec (best_prec1 v) (prec1 v)); [lra | reflexivity]. }
  assert (Hmax : py_max (prec1 v) (best_prec1 v) = best_prec1 v).
  { rewrite py_max_Rmax. apply Rmax_right. exact Hle. }
  unfold bind, when, gets, modify, in_world, ret, method, raise in Eres.
  destruct save_checkpoints, skip_training, is_initialized, (get_rank =? 0),
    logger as [[] |]; simpl in Eres; subst res; simpl;
    rewrite ?Hmax, ?Hgt;
    (split; [reflexivity |]); (split; [reflexivity |]);
    first
      [ exists tr1; (split; [exact Hc1 |]); rewrite Hk1; intros ck ib []
      | eexists; (split; [rewrite Hc1, <- app_assoc; reflexivity |]);
        rewrite checkpoints_app, Hk1; simpl;
        intros ck ib [Hin | []]; injection Hin as <- <-; simpl;
        split; reflexivity ].
Qed.

Lemma for_each_epoch_skip_validation (epoch_iter : list Z) :
  forall (v : loop_vars) (w : World),
    (prec1 v <= best_prec1 v)%R ->
    let s' := snd (for_each epoch_iter
                     (train_loop_epoch lr_scheduler train_loader val_loader fp16
                        logger should_backup_checkpoint use_amp
                        batch_size_multiplier start_epoch prof skip_training true
                        save_checkpoints checkpoint_dir)
                     (v, w)) in
    best_prec1 (fst s') = best_prec1 v /\
    exists tr,
      calls (snd s') = calls w ++ tr /\
      forall ck is_best,
        In (ck, is_best) (checkpoints tr) ->
        is_best = false /\ ck_best_prec1 ck = best_prec1 v.
Proof.
  induction epoch_iter as [| epoch rest IH]; intros v w Hle; cbn [for_each].
  - simpl. split; [reflexivity |]. exists []. rewrite app_nil_r.
    split; [reflexivity | intros ck ib []].
  - cbv zeta. unfold bind.
    destruct (train_loop_epoch_skip_validation epoch v w Hle)
      as [Hp1 [Hb1 [tr1 [Hc1 Hall1]]]].
    destruct (train_loop_epoch _ _ _ _ _ _ _ _ _ _ _ _ _ _ _ (v, w))
      as [[[] | e] [v1 w1]]; simpl in Hp1, Hb1, Hc1.
    + destruct (IH v1 w1 ltac:(rewrite Hp1, Hb1; exact Hle))
        as [Hb2 [tr2 [Hc2 Hall2]]].
      split; [congruence |].
      exists (tr1 ++ tr2). split; [rewrite Hc2, Hc1, app_assoc; reflexivity |].
      intros ck ib Hin. rewrite checkpoints_app in Hin.
      apply in_app_or in Hin. destruct Hin as [Hin | Hin].
      * apply Hall1. exact Hin.
      * rewrite <- Hb1. apply Hall2. exact Hin.
    + simpl. split; [exact Hb1 |]. exists tr1. split; assumption.
Qed.

End SkipValidation.

Section SkipValidationTheorem.
Context {T : Torch} {C : Collaborators}.

(** X19. With [skip_validation] set, [prec1] keeps its initial value [-1]
    in every epoch; so when the [best_prec1] given is at least [-1] (as
    the default 0 is), no checkpoint is ever marked as the best, each one
    records the [best_prec1] given, and that value is still the tracked
    best however [train_loop] ends. *)
Theorem skip_validation_never_best
    (lr_scheduler : scheduler) (train_loader val_loader debug_loader : list batch)
    (epochs : Z) (fp16 : bool) (logger : option logger_ref)
    (should_backup_checkpoint : Z -> bool)
    (use_amp : bool) (batch_size_multiplier : Z) (best_prec1_0 : R)
    (start_epoch : Z) (prof : Z) (skip_training save_checkpoints : bool)
    (checkpoint_dir : string) (w : World) :
  (-1 <= best_prec1_0)%R ->
  let r := train_loop lr_scheduler train_loader val_loader debug_loader epochs fp16
             logger should_backup_checkpoint use_amp batch_size_multiplier
             best_prec1_0 start_epoch prof skip_training true
             save_checkpoints checkpoint_dir w in
  best_prec1 (fst (snd r)) = best_prec1_0 /\
  forall ck is_best,
    In (ck, is_best) (checkpoints (new_calls w (snd (snd r)))) ->
    is_best = false /\ ck_best_prec1 ck = best_prec1_0.
Proof.
  intros Hle r. subst r.
  remember (train_loop _ _ _ _ _ _ _ _ _ _ _ _ _ _ _ _ _ _) as res eqn:Eres.
  unfold train_loop in Eres.
  set (v0 := {| prec1 := -1; best_prec1 := best_prec1_0 |}) in Eres.
  assert (Hinit : exists w0,
             when (is_not_None logger) (in_world (method logger epoch_generator_wrapper))
                  (v0, w) = (Ok tt, (v0, w0)) /\ calls w0 = calls w).
  { destruct logger as [[] |]; simpl; eexists; split; reflexivity. }
  destruct Hinit as [w0 [Einit Hc0]].
  unfold bind at 1 in Eres. rewrite Einit in Eres.
  destruct (for_each_epoch_skip_validation lr_scheduler train_loader val_loader
              fp16 logger should_backup_checkpoint use_amp batch_size_multiplier
              start_epoch prof skip_training save_checkpoints checkpoint_dir
              (py_range start_epoch epochs) v0 w0 Hle) as [Hb [tr [Hc Hall]]].
  simpl in Hb.
  unfold bind in Eres.
  destruct (for_each (py_range start_epoch epochs) _ (v0, w0))
    as [[[] | e] [v1 w1]]; simpl in Hb, Hc.
  - pose proof (quiet_diagnostic skip_training val_loader (v1, w1)) as Hd.
    cbv zeta in Hd. subst res.
    destruct (when skip_training _ (v1, w1)) as [rd [vd wd]].
    simpl in Hd |- *. destruct Hd as [-> [trd [Hcd Hkd]]].
    split; [exact Hb |].
    unfold new_calls. rewrite Hcd, Hc, Hc0, <- app_assoc, skipn_new.
    rewrite checkpoints_app, Hkd, app_nil_r. exact Hall.
  - subst res. simpl. split; [exact Hb |].
    unfold new_calls. rewrite Hc, Hc0, skipn_new. exact Hall.
Qed.

End SkipValidationTheorem.

Lemma skip_validation_never_best_witness :
  (-1 <= 0)%R /\
  best_prec1
    (fst (snd (train_loop example_scheduler example_loader example_loader [] 2
                 false (Some the_logger) (fun _ => true) false 1 0 0 (-1)
                 false true true "./" example_world))) = 0%R.
Proof.
  assert (H : (-1 <= 0)%R) by lra.
  split; [exact H |].
  exact (proj1 (skip_validation_never_best example_scheduler example_loader
                  example_loader [] 2 false (Some the_logger) (fun _ => true)
                  false 1 0 0 (-1) false true "./" example_world H)).
Defined.
